(** * The log-normal view-interval estimator of BrandView-AI

    A shallow embedding of [_predict_next_video_views] from
    [src/tools/helper/helper.py] and the properties stated for it.

    The function validates a series of view counts, calls
    [scipy.stats.lognorm.fit] (location fixed at 0) and then
    [scipy.stats.lognorm.ppf] at probabilities derived from the confidence
    level.  The two SciPy routines are third-party primitives: they enter
    the development as the fields of a record [stats_lib], and what is known
    about them is stated as explicit contracts.  The arithmetic that the
    function does itself ([1.0 - c], [alpha / 2], [1 - alpha / 2], [views <= 0])
    is Python float arithmetic and is modelled with its rounding.  What a
    call does to the objects around it (the list it is handed, the array it
    hands to SciPy) is stated over a second embedding of the function, on a
    store of objects.

    The second part embeds the functions of the same file that talk to the
    YouTube Data API: [_resolve_channel_id], [_fetch_video_details],
    [_search_youtube_channel_videos], [_fetch_channel_info], [_fetch_videos],
    [_fetch_comments], [_introspect_channel], [_search_youtube_channels],
    [_fetch_video_statistics], [_search_and_introspect_channel], and the
    division into scenes and the list of sponsors of
    [_analyze_video_content].  A request to the
    service is a function from the arguments of the request to the part of
    the response that the code reads, or to the exception of the call; these
    functions are the variables of the sections, so that every statement
    holds for every behaviour of the service. *)

From Stdlib Require Import ZArith QArith Qround Qpower Qabs List String Ascii Bool Lia Lqa.
From Stdlib Require Import DecimalString Sorting.Sorted Sorting.Permutation.
From Stdlib Require Import Floats.PrimFloat Floats.SpecFloat Floats.FloatOps.
Import ListNotations.

Set Implicit Arguments.

(** ** Python floats *)

(** A Python [float] is an IEEE-754 binary64 value: a finite value is a
    rational number, and there are two infinities and NaN.  The sign of zero
    is not tracked; no operation of the function distinguishes [-0.0] from
    [0.0]. *)
Inductive pyfloat : Type :=
| Fin (q : Q)
| PInf
| NInf
| NaN.

Module Float64.

Local Open Scope Q_scope.

(** Precision and smallest exponent of binary64. *)
Definition prec : Z := 53.
Definition emin : Z := -1074.
Definition emax : Z := 1024.

Definition pow2 (e : Z) : Q := (2 # 1) ^ e.

(** [ilog2 q] is the integer [k] with [2^k <= q < 2^(k+1)], for [0 < q]. *)
Definition ilog2 (q : Q) : Z :=
  let k := (Z.log2 (Qnum q) - Z.log2 (Zpos (Qden q)))%Z in
  if Qle_bool (pow2 k) q then k else (k - 1)%Z.

(** The exponent of the unit in the last place of the binade of [q],
    clipped at the subnormal exponent. *)
Definition ulp_exp (q : Q) : Z := Z.max (ilog2 q - (prec - 1)) emin.

(** Round to the nearest integer, ties to even. *)
Definition rne (x : Q) : Z :=
  let f := Qfloor x in
  match Qcompare (x - inject_Z f) (1 # 2) with
  | Lt => f
  | Gt => (f + 1)%Z
  | Eq => if Z.even f then f else (f + 1)%Z
  end.

(** The nearest multiple of the ulp, for [0 < q]. *)
Definition nearest (q : Q) : Q :=
  let e := ulp_exp q in
  Qred (inject_Z (rne (q / pow2 e)) * pow2 e).

(** Rounding of a positive rational: overflow gives infinity. *)
Definition round_pos (q : Q) : option Q :=
  let v := nearest q in
  if Qle_bool (pow2 emax) v then None else Some v.

(** Correct rounding of an exact result to binary64. *)
Definition round (q : Q) : pyfloat :=
  match Qcompare 0 q with
  | Eq => Fin 0
  | Lt => match round_pos q with Some v => Fin v | None => PInf end
  | Gt => match round_pos (- q) with Some v => Fin (Qred (- v)) | None => NInf end
  end.

(** The value of a primitive float, to compare the model with the
    machine's binary64 arithmetic on concrete inputs. *)
Definition of_prim (x : PrimFloat.float) : pyfloat :=
  match Prim2SF x with
  | S754_zero _ => Fin 0
  | S754_infinity false => PInf
  | S754_infinity true => NInf
  | S754_nan => NaN
  | S754_finite s m e =>
      Fin (Qred (inject_Z (if s then Z.neg m else Z.pos m) * pow2 e))
  end.

End Float64.

(** [x - y] on floats. *)
Definition fsub (x y : pyfloat) : pyfloat :=
  match x, y with
  | NaN, _ | _, NaN => NaN
  | PInf, PInf | NInf, NInf => NaN
  | PInf, _ | _, NInf => PInf
  | NInf, _ | _, PInf => NInf
  | Fin a, Fin b => Float64.round (a - b)
  end.

(** [x <= y], [x < y] and [x == y] on floats; every comparison with NaN is
    false. *)
Definition fle (x y : pyfloat) : bool :=
  match x, y with
  | NaN, _ | _, NaN => false
  | NInf, _ | _, PInf => true
  | PInf, _ | _, NInf => false
  | Fin a, Fin b => Qle_bool a b
  end.

Definition flt (x y : pyfloat) : bool :=
  match x, y with
  | NaN, _ | _, NaN => false
  | PInf, _ | _, NInf => false
  | NInf, _ | _, PInf => true
  | Fin a, Fin b => negb (Qle_bool b a)
  end.

Definition is_finite (x : pyfloat) : bool :=
  match x with Fin _ => true | _ => false end.

Definition is_zero (x : pyfloat) : bool :=
  match x with Fin a => Qeq_bool a 0 | _ => false end.

(** [x / y] for a non-zero divisor ([x / 0] raises in Python and is handled
    where the division is sequenced, see [py_truediv]). *)
Definition fdiv (x y : pyfloat) : pyfloat :=
  match x, y with
  | NaN, _ | _, NaN => NaN
  | Fin _, (PInf | NInf) => Fin 0
  | (PInf | NInf), (PInf | NInf) => NaN
  | PInf, Fin b => if Qle_bool 0 b then PInf else NInf
  | NInf, Fin b => if Qle_bool 0 b then NInf else PInf
  | Fin a, Fin b => Float64.round (a / b)
  end.

Definition f0 : pyfloat := Fin 0.
Definition f1 : pyfloat := Fin 1.
Definition f2 : pyfloat := Fin 2.

(** ** Exceptions, library calls and the evaluation monad *)

(** The exceptions of a call: the two [ValueError]s of the input
    validation, the [ZeroDivisionError] of float division, and whatever the
    fitting routine raises ([scipy.stats.lognorm.fit] raises a [ValueError]
    for data that are not finite). *)
Inductive exn : Type :=
| ValueError (msg : string)
| ZeroDivisionError (msg : string)
| OtherException (name msg : string).

(** A call to one of the two SciPy routines, with its arguments. *)
Inductive call : Type :=
| CallFit (data : list pyfloat) (floc : pyfloat)
| CallPpf (q shape loc scale : pyfloat).

(** A computation receives the calls made so far and returns an exception or
    a value, together with the extended record of calls. *)
Definition M (A : Type) : Type := list call -> (exn + A) * list call.

Definition ret {A} (a : A) : M A := fun tr => (inr a, tr).

Definition bind {A B} (m : M A) (k : A -> M B) : M B :=
  fun tr =>
    match m tr with
    | (inl e, tr') => (inl e, tr')
    | (inr a, tr') => k a tr'
    end.

Definition raise {A} (e : exn) : M A := fun tr => (inl e, tr).

Declare Scope py_scope.
Delimit Scope py_scope with py.
Notation "x <- m ;; k" := (bind m (fun x => k))
  (at level 61, m at next level, right associativity) : py_scope.
Notation "' pat <- m ;; k" := (bind m (fun x => match x with pat => k end))
  (at level 61, pat pattern, m at next level, right associativity) : py_scope.
Notation "m ;; k" := (bind m (fun _ => k))
  (at level 61, right associativity) : py_scope.

Definition value_of {A} (r : (exn + A) * list call) : exn + A := fst r.

(** [scipy.stats.lognorm]: the fitting routine returns (shape, loc, scale)
    or raises; the quantile function takes the probability and the three
    parameters and returns a float (NaN outside its domain). *)
Record stats_lib : Type := {
  lognorm_fit : list pyfloat -> pyfloat -> exn + pyfloat * pyfloat * pyfloat;
  lognorm_ppf : pyfloat -> pyfloat -> pyfloat -> pyfloat -> pyfloat
}.

(** ** The probabilities handed to the quantile function *)

(** [alpha = 1.0 - confidence_level], [alpha / 2] and [1 - alpha / 2]. *)
Definition alpha_of (c : pyfloat) : pyfloat := fsub f1 c.
Definition tail_prob (c : pyfloat) : pyfloat := fdiv (alpha_of c) f2.
Definition head_prob (c : pyfloat) : pyfloat := fsub f1 (tail_prob c).

Section Estimator.

Variable stats : stats_lib.

Local Open Scope py_scope.

(** [stats.lognorm.fit(views, floc=...)] *)
Definition stats_lognorm_fit (views : list pyfloat) (floc : pyfloat)
  : M (pyfloat * pyfloat * pyfloat) :=
  fun tr => (lognorm_fit stats views floc, tr ++ [CallFit views floc]).

(** [stats.lognorm.ppf(q, shape, loc=loc, scale=scale)] *)
Definition stats_lognorm_ppf (q shape loc scale : pyfloat) : M pyfloat :=
  fun tr => (inr (lognorm_ppf stats q shape loc scale),
             tr ++ [CallPpf q shape loc scale]).

(** [x / y] on Python floats. *)
Definition py_truediv (x y : pyfloat) : M pyfloat :=
  if is_zero y then raise (ZeroDivisionError "float division by zero")
  else ret (fdiv x y).

(** [np.array(historical_views, dtype=float)]: a new array holding the
    same float values; the list it is built from is left as it is.  The
    series is taken as the floats that the array holds: for a list of
    Python [int]s these are the values after NumPy's conversion. *)
Definition np_array_float (historical_views : list pyfloat) : list pyfloat :=
  map (fun v => v) historical_views.

(** [np.any(views <= 0)] *)
Definition np_any_le_0 (views : list pyfloat) : bool :=
  existsb (fun v => fle v f0) views.

(** [if not historical_views] *)
Definition py_not (historical_views : list pyfloat) : bool :=
  match historical_views with [] => true | _ => false end.

(** The function returns a pair of floats, or [None] when control reaches
    the end of its body.  [float(L)] gives the Python float with the value
    of the NumPy float [L]; [float("inf")] and [float("-inf")] are the two
    infinities. *)
Definition _predict_next_video_views
  (historical_views : list pyfloat)
  (confidence_level : pyfloat)
  (interval_type : string) : M (option (pyfloat * pyfloat)) :=
  if py_not historical_views then
    raise (ValueError "Historical views list cannot be empty")
  else
    let views := np_array_float historical_views in
    if np_any_le_0 views then
      raise (ValueError "All view counts must be positive to fit a log‑normal")
    else
      '(shape, loc, scale) <- stats_lognorm_fit views f0 ;;
      let alpha := fsub f1 confidence_level in
      if String.eqb interval_type "lower" then
        L <- stats_lognorm_ppf alpha shape loc scale ;;
        ret (Some (L, PInf))
      else if String.eqb interval_type "upper" then
        U <- stats_lognorm_ppf confidence_level shape loc scale ;;
        ret (Some (NInf, U))
      else if String.eqb interval_type "two-sided" then
        a2 <- py_truediv alpha f2 ;;
        lower_q <- stats_lognorm_ppf a2 shape loc scale ;;
        a2' <- py_truediv alpha f2 ;;
        upper_q <- stats_lognorm_ppf (fsub f1 a2') shape loc scale ;;
        ret (Some (lower_q, upper_q))
      else
        ret None.

(** What the function amounts to once the series has passed validation
    ([run_valid] below): the fit, whose exception ends the call, then the
    quantiles of the interval type. *)
Definition after_validation (views : list pyfloat) (c : pyfloat) (t : string)
  (tr : list call) : (exn + option (pyfloat * pyfloat)) * list call :=
  match lognorm_fit stats views f0 with
  | inl e => (inl e, (tr ++ [CallFit views f0])%list)
  | inr (shape, loc, scale) =>
      if String.eqb t "lower" then
        (inr (Some (lognorm_ppf stats (alpha_of c) shape loc scale, PInf)),
         (tr ++ [CallFit views f0; CallPpf (alpha_of c) shape loc scale])%list)
      else if String.eqb t "upper" then
        (inr (Some (NInf, lognorm_ppf stats c shape loc scale)),
         (tr ++ [CallFit views f0; CallPpf c shape loc scale])%list)
      else if String.eqb t "two-sided" then
        (inr (Some (lognorm_ppf stats (tail_prob c) shape loc scale,
                    lognorm_ppf stats (head_prob c) shape loc scale)),
         (tr ++ [CallFit views f0; CallPpf (tail_prob c) shape loc scale;
                 CallPpf (head_prob c) shape loc scale])%list)
      else
        (inr None, (tr ++ [CallFit views f0])%list)
  end.

(** The public tool [predict_next_video_views] passes its arguments on. *)
Definition predict_next_video_views := _predict_next_video_views.

End Estimator.

(** The three interval types, and the interval types the function knows. *)
Definition known_interval_type (t : string) : bool :=
  (String.eqb t "lower" || String.eqb t "upper" || String.eqb t "two-sided")%bool.

(** ** Conditions on the inputs *)

(** A strictly positive observation: what passes the validation ([+inf]
    included, NaN excluded). *)
Definition positive (v : pyfloat) : Prop := flt f0 v = true.

(** A confidence level strictly between 0 and 1. *)
Definition in_unit_interval (c : pyfloat) : Prop :=
  flt f0 c = true /\ flt c f1 = true.

(** A finite, strictly positive observation. *)
Definition finite_positive (v : pyfloat) : Prop :=
  exists q, v = Fin q /\ (0 < q)%Q.

(** A series with two different values (non-zero sample variance). *)
Definition has_spread (views : list pyfloat) : Prop :=
  exists a b, In (Fin a) views /\ In (Fin b) views /\ (a < b)%Q.

(** ** The contract of the SciPy routines

    SciPy is not part of the repository.  The properties of the quantile
    function and of the fit that some statements below rely on are stated
    here, each on its own, and every theorem names the ones it uses.  Each
    can hold of a library that returns binary64 values. *)

Section Contract.

Variable stats : stats_lib.

Local Open Scope Q_scope.

(** A quantile function is non-decreasing in the probability, wherever it
    returns finite values. *)
Definition ppf_nondecreasing : Prop :=
  forall shape loc scale q1 q2 v1 v2,
    q1 <= q2 ->
    lognorm_ppf stats (Fin q1) shape loc scale = Fin v1 ->
    lognorm_ppf stats (Fin q2) shape loc scale = Fin v2 ->
    v1 <= v2.

(** At parameters that the fit returned, positive and with location 0, the
    quantile at 1/2 is the scale: the scale parameter is the median. *)
Definition ppf_median : Prop :=
  forall views s k,
    lognorm_fit stats views f0 = inr (Fin s, f0, Fin k) ->
    0 < s -> 0 < k ->
    exists v,
      lognorm_ppf stats (Fin (1 # 2)) (Fin s) f0 (Fin k) = Fin v /\ v == k.

(** Fitted with the location fixed at 0, a finite positive series with two
    different values has a positive shape and a positive scale, and the
    location returned is the one that was fixed. *)
Definition fit_positive_spread : Prop :=
  forall views,
    Forall finite_positive views -> has_spread views ->
    exists s k,
      lognorm_fit stats views f0 = inr (Fin s, f0, Fin k) /\ 0 < s /\ 0 < k.

End Contract.

(** ** A rational stand-in for the library

    The contract is satisfiable: the log-logistic family with unit exponent
    has the rational quantile function [loc + scale * q / (1 - q)], whose
    median is [scale].  It is fitted here by the mid-range and the relative
    half-range of the sample, and like SciPy's fit it raises a [ValueError]
    for data that are not finite.  This instance only serves to run the
    estimator on concrete inputs. *)

Module Surrogate.

Local Open Scope Q_scope.

Fixpoint bounds (lo hi : Q) (views : list pyfloat) : option (Q * Q) :=
  match views with
  | [] => Some (lo, hi)
  | Fin q :: rest =>
      bounds (if Qle_bool lo q then lo else q) (if Qle_bool q hi then hi else q) rest
  | _ => None
  end.

Definition non_finite : exn := ValueError "The data contains non-finite values.".

Definition fit (views : list pyfloat) (floc : pyfloat)
  : exn + pyfloat * pyfloat * pyfloat :=
  match views with
  | Fin q :: rest =>
      match bounds q q rest with
      | Some (lo, hi) =>
          if Qle_bool lo 0 then inl (ValueError "Invalid values in data.")
          else inr (Fin ((hi - lo) / (hi + lo)), floc, Fin ((lo + hi) / (2 # 1)))
      | None => inl non_finite
      end
  | [] => inl (ValueError "Invalid values in data.")
  | _ => inl non_finite
  end.

Definition ppf (q shape loc scale : pyfloat) : pyfloat :=
  match q, shape, loc, scale with
  | Fin p, Fin s, Fin l, Fin k =>
      if (Qle_bool s 0 || Qle_bool k 0)%bool then NaN
      else if (negb (Qle_bool 0 p) || negb (Qle_bool p 1))%bool then NaN
      else if Qle_bool 1 p then PInf
      else Fin (l + k * (p / (1 - p)))
  | _, _, _, _ => NaN
  end.

Definition lib : stats_lib := {| lognorm_fit := fit; lognorm_ppf := ppf |}.

End Surrogate.

(** ** The series as an object

    In Python the series is a list object, and SciPy receives a NumPy array
    object; a callee can change such an object in place.  To say what a
    call does to the objects around it, the function is embedded a second
    time over a store of objects.  The routines of the library receive the
    store and return it, so that they can change what they are handed. *)

Module Objects.

(** The store holds the float sequences (lists and arrays) that exist; the
    address of an object is its position, and a new object is appended. *)
Definition addr : Type := nat.
Definition store : Type := list (list pyfloat).

Definition contents (s : store) (a : addr) : list pyfloat := nth a s [].

Definition alloc (s : store) (v : list pyfloat) : addr * store :=
  (List.length s, (s ++ [v])%list).

(** [s'] has every object of [s] as it was, except possibly [a]. *)
Definition unchanged_except (a : addr) (s s' : store) : Prop :=
  forall b, (b < List.length s)%nat -> b <> a -> nth_error s' b = nth_error s b.

(** [s'] has every object of [s] as it was. *)
Definition unchanged (s s' : store) : Prop :=
  forall b, (b < List.length s)%nat -> nth_error s' b = nth_error s b.

(** [scipy.stats.lognorm] on objects: the fit is handed the address of the
    array, the quantile function only floats. *)
Record stats_on_objects : Type := {
  fit_object : store -> addr -> pyfloat
               -> (exn + pyfloat * pyfloat * pyfloat) * store;
  ppf_object : store -> pyfloat -> pyfloat -> pyfloat -> pyfloat
               -> pyfloat * store
}.

(** The library on objects computes what [stats] computes on values, from
    the contents of the array it is handed, and changes no other object
    that exists. *)
Definition acts_as (L : stats_on_objects) (stats : stats_lib) : Prop :=
  (forall s a floc,
      fst (fit_object L s a floc) = lognorm_fit stats (contents s a) floc /\
      unchanged_except a s (snd (fit_object L s a floc))) /\
  (forall s q shape loc scale,
      fst (ppf_object L s q shape loc scale) = lognorm_ppf stats q shape loc scale /\
      unchanged s (snd (ppf_object L s q shape loc scale))).

(** A computation on the store. *)
Definition MO (A : Type) : Type := store -> (exn + A) * store.

Definition oret {A} (a : A) : MO A := fun s => (inr a, s).

Definition obind {A B} (m : MO A) (k : A -> MO B) : MO B :=
  fun s =>
    match m s with
    | (inl e, s') => (inl e, s')
    | (inr a, s') => k a s'
    end.

Definition oraise {A} (e : exn) : MO A := fun s => (inl e, s).

Declare Scope obj_scope.
Delimit Scope obj_scope with obj.
Notation "x <- m ;; k" := (obind m (fun x => k))
  (at level 61, m at next level, right associativity) : obj_scope.
Notation "' pat <- m ;; k" := (obind m (fun x => match x with pat => k end))
  (at level 61, pat pattern, m at next level, right associativity) : obj_scope.

Section Estimator.

Variable stats : stats_on_objects.

Local Open Scope obj_scope.

Definition read (a : addr) : MO (list pyfloat) := fun s => (inr (contents s a), s).

(** [np.array(historical_views, dtype=float)]: a new object. *)
Definition np_array (historical_views : addr) : MO addr :=
  fun s => let (views, s') := alloc s (np_array_float (contents s historical_views)) in
           (inr views, s').

Definition stats_lognorm_fit (views : addr) (floc : pyfloat)
  : MO (pyfloat * pyfloat * pyfloat) :=
  fun s => fit_object stats s views floc.

Definition stats_lognorm_ppf (q shape loc scale : pyfloat) : MO pyfloat :=
  fun s => let (v, s') := ppf_object stats s q shape loc scale in (inr v, s').

Definition py_truediv (x y : pyfloat) : MO pyfloat :=
  if is_zero y then oraise (ZeroDivisionError "float division by zero")
  else oret (fdiv x y).

(** The function, with [historical_views] the address of the list. *)
Definition _predict_next_video_views
  (historical_views : addr)
  (confidence_level : pyfloat)
  (interval_type : string) : MO (option (pyfloat * pyfloat)) :=
  elements <- read historical_views ;;
  if py_not elements then
    oraise (ValueError "Historical views list cannot be empty")
  else
    views <- np_array historical_views ;;
    values <- read views ;;
    if np_any_le_0 values then
      oraise (ValueError "All view counts must be positive to fit a log‑normal")
    else
      '(shape, loc, scale) <- stats_lognorm_fit views f0 ;;
      let alpha := fsub f1 confidence_level in
      if String.eqb interval_type "lower" then
        L <- stats_lognorm_ppf alpha shape loc scale ;;
        oret (Some (L, PInf))
      else if String.eqb interval_type "upper" then
        U <- stats_lognorm_ppf confidence_level shape loc scale ;;
        oret (Some (NInf, U))
      else if String.eqb interval_type "two-sided" then
        a2 <- py_truediv alpha f2 ;;
        lower_q <- stats_lognorm_ppf a2 shape loc scale ;;
        a2' <- py_truediv alpha f2 ;;
        upper_q <- stats_lognorm_ppf (fsub f1 a2') shape loc scale ;;
        oret (Some (lower_q, upper_q))
      else
        oret None.

End Estimator.

(** A library on objects that computes as [stats] does and treats the array
    it is handed as scratch space: the fit leaves it empty. *)
Fixpoint overwrite (s : store) (a : addr) (v : list pyfloat) : store :=
  match s, a with
  | [], _ => []
  | _ :: rest, O => v :: rest
  | x :: rest, S a' => x :: overwrite rest a' v
  end.

Definition scribbling (stats : stats_lib) : stats_on_objects :=
  {| fit_object := fun s a floc =>
       (lognorm_fit stats (contents s a) floc, overwrite s a []);
     ppf_object := fun s q shape loc scale =>
       (lognorm_ppf stats q shape loc scale, s) |}.

End Objects.

(** ** Concrete inputs of the scenarios *)

(** The float nearest to 0.9, as Python reads the literal [0.90]. *)
Definition c_090 : pyfloat := Eval vm_compute in Float64.of_prim 0x1.ccccccccccccdp-1%float.

(** The float nearest to 0.8. *)
Definition c_080 : pyfloat := Eval vm_compute in Float64.of_prim 0x1.999999999999ap-1%float.

Definition views_doubling : list pyfloat :=
  [Fin 500; Fin 1000; Fin 2000; Fin 4000; Fin 8000].

(** A series that passes the validation and is not finite. *)
Definition views_unbounded : list pyfloat := [PInf; Fin 1000].

(** Two confidence levels that are absorbed by [1.0 - c]. *)
Definition c_tiny1 : pyfloat := Eval vm_compute in Fin (Float64.pow2 (-100)).
Definition c_tiny2 : pyfloat := Eval vm_compute in Fin (Float64.pow2 (-99)).

(** * The functions around the YouTube service *)

(** ** Python strings

    A string stands for the Python [str] with the same code points, all
    below 256. *)

Module PyStr.

Local Open Scope string_scope.

(** [s.startswith(p)] *)
Definition startswith (p s : string) : bool := String.prefix p s.

(** [sub in s] *)
Fixpoint contains (sub s : string) : bool :=
  String.prefix sub s ||
  match s with
  | EmptyString => false
  | String _ rest => contains sub rest
  end.

(** [s.split(sep)] for a non-empty separator: the string is scanned from the
    left, every occurrence of [sep] found ends a piece and the scan resumes
    behind it.  [skip] counts the characters of a separator that are still to
    be passed over, [cur] is the piece being read. *)
Fixpoint split_from (sep : string) (skip : nat) (cur : string) (s : string)
  : list string :=
  match s with
  | EmptyString => [cur]
  | String c rest =>
      match skip with
      | S k => split_from sep k cur rest
      | O =>
          if String.prefix sep s
          then cur :: split_from sep (String.length sep - 1) EmptyString rest
          else split_from sep 0 (cur ++ String c EmptyString) rest
      end
  end.

Definition split (sep s : string) : list string := split_from sep 0 "" s.

(** [sep.join(pieces)] *)
Fixpoint join (sep : string) (pieces : list string) : string :=
  match pieces with
  | [] => ""
  | [p] => p
  | p :: rest => p ++ sep ++ join sep rest
  end.

(** [s[1:]] *)
Definition tail (s : string) : string :=
  match s with
  | EmptyString => ""
  | String _ rest => rest
  end.

(** [pieces[0]] and [pieces[-1]] of a list that [split] returned (never
    empty), and [pieces[1]]. *)
Definition first (pieces : list string) : string := hd "" pieces.
Definition last (pieces : list string) : string := List.last pieces "".

Definition is_digit (c : ascii) : bool :=
  (Nat.leb 48 (nat_of_ascii c) && Nat.leb (nat_of_ascii c) 57)%bool.

Definition is_letter (c : ascii) : bool :=
  let n := nat_of_ascii c in
  ((Nat.leb 65 n && Nat.leb n 90) || (Nat.leb 97 n && Nat.leb n 122))%bool.

(** [c.isspace()] for a character below 256: the control characters 9 to
    13 and 28 to 31, the space, NEL (133) and the no-break space (160). *)
Definition is_space (c : ascii) : bool :=
  let n := nat_of_ascii c in
  ((Nat.leb 9 n && Nat.leb n 13) || (Nat.leb 28 n && Nat.leb n 32)
   || Nat.eqb n 133 || Nat.eqb n 160)%bool.

(** [s.lstrip()] *)
Fixpoint lstrip (s : string) : string :=
  match s with
  | String c rest => if is_space c then lstrip rest else s
  | EmptyString => s
  end.

(** [c.isprintable()] for a character below 256. *)
Definition is_printable (c : ascii) : bool :=
  let n := nat_of_ascii c in
  ((Nat.leb 32 n && Nat.leb n 126) || (Nat.leb 161 n && negb (Nat.eqb n 173)))%bool.

Definition double_quote : ascii := ascii_of_nat 34.
Definition backslash : ascii := ascii_of_nat 92.

Definition hex_digit (n : nat) : ascii :=
  nth n (list_ascii_of_string "0123456789abcdef") "0"%char.

(** One character of [repr(s)], for the quote that encloses it. *)
Definition repr_char (quote c : ascii) : string :=
  let n := nat_of_ascii c in
  if (Ascii.eqb c backslash || Ascii.eqb c quote)%bool
  then String backslash (String c "")
  else if Nat.eqb n 9 then String backslash "t"
  else if Nat.eqb n 10 then String backslash "n"
  else if Nat.eqb n 13 then String backslash "r"
  else if is_printable c then String c ""
  else String backslash
         (String "x" (String (hex_digit (n / 16)) (String (hex_digit (n mod 16)) ""))).

Fixpoint repr_chars (quote : ascii) (s : string) : string :=
  match s with
  | EmptyString => ""
  | String c rest => repr_char quote c ++ repr_chars quote rest
  end.

(** [repr(s)]: in single quotes, or in double quotes when the string has a
    single quote and no double quote. *)
Definition repr (s : string) : string :=
  let quote :=
    if (contains "'" s && negb (contains (String double_quote "") s))%bool
    then double_quote else "'"%char in
  String quote (repr_chars quote s ++ String quote "").

End PyStr.

(** ** Exceptions and results of the service functions *)

(** The exceptions met in the functions around the YouTube service.  The
    string is the text [str(e)] of the exception, for a [KeyError] the
    key, whose [repr] is the text. *)
Inductive pyerr : Type :=
| PyValueError (msg : string)
| PyTypeError (msg : string)
| PyKeyError (key : string)
| PyIndexError (msg : string)
| PyOverflowError (msg : string)
| PyHttpError (msg : string)
| PyException (msg : string)
| PyOtherError (msg : string).

(** [str(e)] *)
Definition str_of_error (e : pyerr) : string :=
  match e with
  | PyKeyError key => PyStr.repr key
  | PyValueError m | PyTypeError m | PyIndexError m
  | PyOverflowError m | PyHttpError m | PyException m | PyOtherError m => m
  end.

(** [isinstance(e, HttpError)] *)
Definition is_http_error (e : pyerr) : bool :=
  match e with PyHttpError _ => true | _ => false end.

(** A computation that returns a value or raises. *)
Definition res (A : Type) : Type := (pyerr + A)%type.

Definition rbind {A B} (m : res A) (k : A -> res B) : res B :=
  match m with
  | inl e => inl e
  | inr a => k a
  end.

Declare Scope res_scope.
Delimit Scope res_scope with res.
Notation "x <~ m ;; k" := (rbind m (fun x => k))
  (at level 61, m at next level, right associativity) : res_scope.

(** [try: body except HttpError as e: raise Exception(prefix + str(e))] *)
Definition reraise_http {A} (prefix : string) (body : res A) : res A :=
  match body with
  | inl (PyHttpError m) => inl (PyException (prefix ++ m))
  | other => other
  end.

(** A key of a JSON object of the service: missing, [null], or a value. *)
Inductive field (A : Type) : Type :=
| Absent
| Null
| Val (a : A).
Arguments Absent {A}.
Arguments Null {A}.
Arguments Val {A} a.

(** [int(s)] for a string: white space around the numeral is skipped, then
    come an optional sign and decimal digits, where single underscores may
    separate digits.  A numeral with more digits than
    [sys.get_int_max_str_digits()] allows is refused. *)
Module PyInt.

Local Open Scope string_scope.

(** What [int()] skips: the white space of C, and the two characters from
    128 on that [str.isspace] accepts, which it reads as spaces.  The
    control characters 28 to 31 are not skipped. *)
Definition is_space (c : ascii) : bool :=
  let n := nat_of_ascii c in
  ((Nat.leb 9 n && Nat.leb n 13) || Nat.eqb n 32
   || Nat.eqb n 133 || Nat.eqb n 160)%bool.

Fixpoint lstrip (s : string) : string :=
  match s with
  | String c rest => if is_space c then lstrip rest else s
  | EmptyString => s
  end.

(** The default of [sys.get_int_max_str_digits()]. *)
Definition int_max_str_digits : nat := 4300.

(** What was read last while the digits are scanned. *)
Inductive previous : Type := AtStart | AfterDigit | AfterUnderscore.

(** The scan over digits and underscores: the value read, the number of
    digits and what follows the numeral; [None] for two underscores in a
    row or an underscore at the end. *)
Fixpoint scan (acc : Z) (count : nat) (prev : previous) (s : string)
  : option (Z * nat * string) :=
  let stop :=
    match prev with
    | AfterUnderscore => None
    | _ => Some (acc, count, s)
    end in
  match s with
  | EmptyString => stop
  | String c rest =>
      if PyStr.is_digit c
      then scan (10 * acc + Z.of_nat (nat_of_ascii c - 48)) (S count)
             AfterDigit rest
      else if Ascii.eqb c "_" then
        match prev with
        | AfterUnderscore => None
        | _ => scan acc count AfterUnderscore rest
        end
      else stop
  end.

Definition invalid_literal (s : string) : pyerr :=
  PyValueError ("invalid literal for int() with base 10: "
                ++ String.substring 0 200 (PyStr.repr s)).

Definition too_many_digits (count : nat) : pyerr :=
  PyValueError ("Exceeds the limit ("
                ++ NilEmpty.string_of_uint (Nat.to_uint int_max_str_digits)
                ++ " digits) for integer string conversion: value has "
                ++ NilEmpty.string_of_uint (Nat.to_uint count)
                ++ " digits; use sys.set_int_max_str_digits() to increase the limit").

(** The numeral behind the sign. *)
Definition unsigned (s numeral : string) : res Z :=
  match numeral with
  | String "_" _ => inl (invalid_literal s)
  | _ =>
      match scan 0 0 AtStart numeral with
      | None => inl (invalid_literal s)
      | Some (value, count, rest) =>
          if Nat.ltb int_max_str_digits count then inl (too_many_digits count)
          else if Nat.eqb count 0 then inl (invalid_literal s)
          else if String.eqb (lstrip rest) "" then inr value
          else inl (invalid_literal s)
      end
  end.

Definition parse (s : string) : res Z :=
  match lstrip s with
  | String "+" numeral => unsigned s numeral
  | String "-" numeral => rbind (unsigned s numeral) (fun z => inr (- z)%Z)
  | numeral => unsigned s numeral
  end.

End PyInt.

(** [int(x)] for a string. *)
Definition py_int_str (s : string) : res Z := PyInt.parse s.

(** [int(d.get(key, 0))] for a key whose value is a string: [int(0)] when
    the key is missing, a [TypeError] for [null]. *)
Definition py_int_field (f : field string) : res Z :=
  match f with
  | Absent => inr 0%Z
  | Null => inl (PyTypeError "int() argument must be a string, a bytes-like object or a real number, not 'NoneType'")
  | Val s => py_int_str s
  end.

(** [xs[:n]] *)
Definition slice_to {A} (xs : list A) (n : Z) : list A :=
  if (0 <=? n)%Z then firstn (Z.to_nat n) xs
  else firstn (List.length xs - Z.to_nat (- n)) xs.

(** ** [_resolve_channel_id] *)

Section ResolveChannel.

Local Open Scope string_scope.
Local Open Scope res_scope.

(** [youtube.search().list(part="snippet", q=..., type="channel",
    maxResults=1).execute()]: the [channelId] of each item of the response,
    or the exception of the call. *)
Variable search_channel : string -> res (list string).

Definition is_channel_id_char (c : ascii) : bool :=
  (PyStr.is_letter c || PyStr.is_digit c || Ascii.eqb c "_" || Ascii.eqb c "-")%bool.

(** [n] characters of the class, then the end of the string or one final
    newline (which [$] accepts). *)
Fixpoint class_then_end (n : nat) (s : string) : bool :=
  match n with
  | O => (String.eqb s "" || String.eqb s (String (ascii_of_nat 10) ""))%bool
  | S k =>
      match s with
      | String c rest => (is_channel_id_char c && class_then_end k rest)%bool
      | EmptyString => false
      end
  end.

(** [re.match(r'^UC[a-zA-Z0-9_-]{22}$', s)] *)
Definition re_match_channel_id (s : string) : bool :=
  match s with
  | String "U" (String "C" rest) => class_then_end 22 rest
  | _ => false
  end.

(** The text that is searched for: a leading [@] is dropped, and of a
    [youtube.com] URL the path segment behind [/c/], [/channel/] or
    [/user/] is kept. *)
Definition channel_query (channel_identifier : string) : string :=
  let channel_identifier :=
    if PyStr.startswith "@" channel_identifier
    then PyStr.tail channel_identifier else channel_identifier in
  if PyStr.contains "youtube.com" channel_identifier then
    if PyStr.contains "/c/" channel_identifier then
      PyStr.first (PyStr.split "/" (PyStr.last (PyStr.split "/c/" channel_identifier)))
    else if PyStr.contains "/channel/" channel_identifier then
      PyStr.first (PyStr.split "/" (PyStr.last (PyStr.split "/channel/" channel_identifier)))
    else if PyStr.contains "/user/" channel_identifier then
      PyStr.first (PyStr.split "/" (PyStr.last (PyStr.split "/user/" channel_identifier)))
    else channel_identifier
  else channel_identifier.

Definition _resolve_channel_id (channel_identifier : string) : res string :=
  reraise_http "Error resolving channel ID: "
    (if re_match_channel_id channel_identifier then inr channel_identifier
     else
       let channel_identifier := channel_query channel_identifier in
       items <~ search_channel channel_identifier ;;
       match items with
       | [] => inl (PyValueError ("Channel not found: " ++ channel_identifier))
       | channelId :: _ => inr channelId
       end).

(** What the caller gets for the answer of the service to [query]: the
    first channel found, [ValueError] when nothing is found, [Exception] for
    an [HttpError], and any other exception as it is. *)
Definition resolved_from_search (query : string) : res string :=
  match search_channel query with
  | inr (channelId :: _) => inr channelId
  | inr [] => inl (PyValueError ("Channel not found: " ++ query))
  | inl (PyHttpError m) => inl (PyException ("Error resolving channel ID: " ++ m))
  | inl e => inl e
  end.

End ResolveChannel.

(** ** [_fetch_comments] *)

(** What the function reads of one item of a [commentThreads] page:
    [snippet.topLevelComment.id] and four keys of
    [snippet.topLevelComment.snippet].  A missing object on the way leaves
    all keys below it missing, as the chained [.get(..., {})] do. *)
Record comment_item : Type := {
  top_id : field string;
  textDisplay : field string;
  authorDisplayName : field string;
  likeCount : field Z;
  publishedAt : field string
}.

(** A page of the response: [items] (missing counts as empty) and
    [nextPageToken]. *)
Record comment_page : Type := {
  page_items : list comment_item;
  nextPageToken : field string
}.

(** The dictionary appended for a comment; [None] is Python's [None]. *)
Record comment : Type := {
  c_id : string;
  c_author : option string;
  c_text : string;
  c_likeCount : option Z;
  c_publishedAt : option string
}.

(** [d.get(key)], and [d.get(key, default)] *)
Definition get {A} (f : field A) : option A :=
  match f with Val a => Some a | _ => None end.

Definition get_default {A} (f : field A) (default : A) : option A :=
  match f with Absent => Some default | Null => None | Val a => Some a end.

(** [not s] for [s] a string or [None] *)
Definition falsy (s : option string) : bool :=
  match s with
  | None => true
  | Some t => String.eqb t ""
  end.

Section FetchComments.

Local Open Scope string_scope.

(** [youtube.commentThreads().list(part="snippet", videoId=...,
    maxResults=..., order="time", pageToken=...).execute()] *)
Variable comment_threads : string -> Z -> option string -> res comment_page.

(** The body of the [for] loop for one item: the comment to append, or
    [None] when the item is skipped. *)
Definition comment_of_item (item : comment_item) : option comment :=
  let comment_id := get (top_id item) in
  let text := get (textDisplay item) in
  match comment_id, text with
  | Some i, Some t =>
      if falsy comment_id then None
      else Some {| c_id := i;
                   c_author := get_default (authorDisplayName item) "Unknown";
                   c_text := t;
                   c_likeCount := get_default (likeCount item) 0%Z;
                   c_publishedAt := get (publishedAt item) |}
  | _, _ => None
  end.

Fixpoint comments_of_items (items : list comment_item) : list comment :=
  match items with
  | [] => []
  | item :: rest =>
      match comment_of_item item with
      | Some c => c :: comments_of_items rest
      | None => comments_of_items rest
      end
  end.

(** The [while] loop; [fuel] bounds the number of pages that are asked
    for, and [None] says that the bound was reached. *)
Fixpoint fetch_comments_loop (video_id : string) (max_results : Z)
  (fuel : nat) (comments : list comment) (next_page_token : option string)
  : option (res (list comment)) :=
  if (Z.of_nat (List.length comments) <? max_results)%Z then
    match fuel with
    | O => None
    | S fuel' =>
        let batch_size :=
          Z.min 100 (max_results - Z.of_nat (List.length comments)) in
        match comment_threads video_id batch_size next_page_token with
        | inl e => Some (inl e)
        | inr response =>
            let comments := (comments ++ comments_of_items (page_items response))%list in
            let next_page_token := get (nextPageToken response) in
            if falsy next_page_token then Some (inr comments)
            else fetch_comments_loop video_id max_results fuel' comments next_page_token
        end
    end
  else Some (inr comments).

Definition _fetch_comments (video_id : string) (max_results : Z) (fuel : nat)
  : option (res (list comment)) :=
  option_map (reraise_http "Error fetching comments: ")
    (fetch_comments_loop video_id max_results fuel [] None).

End FetchComments.

(** ** [_search_youtube_channels] *)

(** What the function reads of a channel resource. *)
Record channel_resource : Type := {
  ch_title : string;
  ch_description : string;
  ch_thumbnails : string;
  ch_subscriberCount : field string;
  ch_viewCount : field string;
  ch_videoCount : field string;
  ch_customUrl : field string;
  ch_publishedAt : field string
}.

(** One dictionary of the result. *)
Record channel_summary : Type := {
  s_channelId : string;
  s_title : string;
  s_description : string;
  s_thumbnails : string;
  s_subscriberCount : Z;
  s_viewCount : Z;
  s_videoCount : Z;
  s_customUrl : option string;
  s_publishedAt : option string;
  s_bestVideoViews : Z
}.

(** The list returned: the channels, or the single [{"error": ...}]. *)
Inductive channel_search_result : Type :=
| ChannelsFound (channels : list channel_summary)
| ChannelsError (error : string).

(** [channels.sort(key=lambda x: x['subscriberCount'], reverse=True)]: the
    stable sort by decreasing key. *)
Fixpoint insert_by_subscribers (x : channel_summary) (sorted : list channel_summary)
  : list channel_summary :=
  match sorted with
  | [] => [x]
  | y :: rest =>
      if (s_subscriberCount y <=? s_subscriberCount x)%Z then x :: sorted
      else y :: insert_by_subscribers x rest
  end.

Definition sort_by_subscribers (channels : list channel_summary)
  : list channel_summary :=
  fold_right insert_by_subscribers [] channels.

(** The order of the result: no fewer subscribers than what follows. *)
Definition by_subscribers (a b : channel_summary) : Prop :=
  (s_subscriberCount b <= s_subscriberCount a)%Z.

(** What the loop keeps true of [channel_videos]: the keys are distinct,
    every entry is the summary of its key and meets the threshold. *)
Definition kept (min_subscribers : Z)
  (channel_videos : list (string * (Z * channel_summary))) : Prop :=
  NoDup (map fst channel_videos) /\
  Forall (fun kv => s_channelId (snd (snd kv)) = fst kv /\
                    (min_subscribers <= s_subscriberCount (snd (snd kv)))%Z)
    channel_videos.

Section SearchChannels.

Local Open Scope string_scope.
Local Open Scope res_scope.

(** [datetime.utcnow() - timedelta(days=30)], formatted. *)
Variable one_month_ago : string.

(** [search().list(part="snippet", q=..., type="video", maxResults=50,
    order="viewCount", publishedAfter=...)]: [(videoId, channelId)] of each
    item. *)
Variable search_videos : string -> string -> res (list (string * string)).

(** [videos().list(part="statistics", id=...)]: [statistics.viewCount] of
    each item. *)
Variable videos_statistics : string -> res (list (field string)).

(** [channels().list(part="statistics,snippet", id=...)] *)
Variable channels_list : string -> res (list channel_resource).

(** [channel_id in channel_videos] *)
Definition seen (channel_id : string)
  (channel_videos : list (string * (Z * channel_summary))) : bool :=
  existsb (fun kv => String.eqb (fst kv) channel_id) channel_videos.

(** The body of the loop for one search item. *)
Definition visit_search_item (min_subscribers : Z)
  (channel_videos : list (string * (Z * channel_summary)))
  (item : string * string) : res (list (string * (Z * channel_summary))) :=
  let '(video_id, channel_id) := item in
  if seen channel_id channel_videos then inr channel_videos
  else
    video_items <~ videos_statistics video_id ;;
    match video_items with
    | [] => inr channel_videos
    | video_viewCount :: _ =>
        view_count <~ py_int_field video_viewCount ;;
        channel_items <~ channels_list channel_id ;;
        match channel_items with
        | [] => inr channel_videos
        | channel_data :: _ =>
            subscriber_count <~ py_int_field (ch_subscriberCount channel_data) ;;
            if (min_subscribers <=? subscriber_count)%Z then
              viewCount <~ py_int_field (ch_viewCount channel_data) ;;
              videoCount <~ py_int_field (ch_videoCount channel_data) ;;
              inr (channel_videos ++
                   [(channel_id,
                     (view_count,
                      {| s_channelId := channel_id;
                         s_title := ch_title channel_data;
                         s_description := ch_description channel_data;
                         s_thumbnails := ch_thumbnails channel_data;
                         s_subscriberCount := subscriber_count;
                         s_viewCount := viewCount;
                         s_videoCount := videoCount;
                         s_customUrl := get_default (ch_customUrl channel_data) "";
                         s_publishedAt := get_default (ch_publishedAt channel_data) "";
                         s_bestVideoViews := view_count |}))])%list
            else inr channel_videos
        end
    end.

Fixpoint visit_search_items (min_subscribers : Z)
  (channel_videos : list (string * (Z * channel_summary)))
  (items : list (string * string)) : res (list (string * (Z * channel_summary))) :=
  match items with
  | [] => inr channel_videos
  | item :: rest =>
      channel_videos <~ visit_search_item min_subscribers channel_videos item ;;
      visit_search_items min_subscribers channel_videos rest
  end.

Definition _search_youtube_channels (query : string) (max_results : Z)
  (min_subscribers : Z) : channel_search_result :=
  let body :=
    items <~ search_videos query one_month_ago ;;
    channel_videos <~ visit_search_items min_subscribers [] items ;;
    let channels := map (fun kv => snd (snd kv)) channel_videos in
    let channels := sort_by_subscribers channels in
    inr (slice_to channels max_results) in
  match body with
  | inr channels => ChannelsFound channels
  | inl e => ChannelsError (str_of_error e)
  end.

End SearchChannels.

(** ** [_fetch_video_statistics] *)

(** A Python number: an [int] or a [float]. *)
Inductive pynum : Type :=
| PyInt (z : Z)
| PyFloat (x : pyfloat).

(** [x + y] on floats. *)
Definition fadd (x y : pyfloat) : pyfloat :=
  match x, y with
  | NaN, _ | _, NaN => NaN
  | PInf, NInf | NInf, PInf => NaN
  | PInf, _ | _, PInf => PInf
  | NInf, _ | _, NInf => NInf
  | Fin a, Fin b => Float64.round (a + b)
  end.

(** [float(z)] as it is taken when an [int] meets a [float]. *)
Definition float_of_int (z : Z) : res pyfloat :=
  match Float64.round (inject_Z z) with
  | Fin q => inr (Fin q)
  | _ => inl (PyOverflowError "int too large to convert to float")
  end.

(** [a / b] on two [int]s, [b] not zero: the quotient, correctly rounded. *)
Definition int_truediv (a b : Z) : res pyfloat :=
  match Float64.round (inject_Z a / inject_Z b) with
  | Fin q => inr (Fin q)
  | _ => inl (PyOverflowError "integer division result too large for a float")
  end.

(** [x += y] for [y] an [int], and for [y] a [float]. *)
Definition add_int (x : pynum) (y : Z) : res pynum :=
  match x with
  | PyInt a => inr (PyInt (a + y))
  | PyFloat f => rbind (float_of_int y) (fun g => inr (PyFloat (fadd f g)))
  end.

Definition add_float (x : pynum) (y : pyfloat) : res pynum :=
  match x with
  | PyInt a => rbind (float_of_int a) (fun f => inr (PyFloat (fadd f y)))
  | PyFloat f => inr (PyFloat (fadd f y))
  end.

(** [x < n] for [n] an [int]; an [int] and a [float] are compared by
    value. *)
Definition num_lt_int (x : pynum) (n : Z) : bool :=
  match x with
  | PyInt a => (a <? n)%Z
  | PyFloat f => flt f (Fin (inject_Z n))
  end.

(** [round(x, 2)]: an [int] is returned as it is; a float is rounded to two
    decimals, ties to even, and the decimal is read back as a float. *)
Definition round2 (x : pynum) : pynum :=
  match x with
  | PyInt a => PyInt a
  | PyFloat (Fin q) =>
      PyFloat (Float64.round (inject_Z (Float64.rne (q * (100 # 1))) / (100 # 1)))
  | PyFloat f => PyFloat f
  end.

(** [pieces[1]] *)
Definition second (pieces : list string) : res string :=
  match pieces with
  | _ :: p :: _ => inr p
  | _ => inl (PyIndexError "list index out of range")
  end.

Section ParseDuration.

Local Open Scope string_scope.
Local Open Scope res_scope.

(** The hours of an ISO 8601 duration, lines 545-551. *)
Definition duration_hours (duration_str : string) : res Z :=
  let hours_part := PyStr.first (PyStr.split "H" duration_str) in
  if PyStr.contains "T" hours_part then
    piece <~ second (PyStr.split "T" hours_part) ;; py_int_str piece
  else py_int_str hours_part.

(** The minutes, lines 554-562. *)
Definition duration_minutes_part (duration_str : string) : res Z :=
  let minutes_part := PyStr.first (PyStr.split "M" duration_str) in
  if PyStr.contains "H" minutes_part then
    py_int_str (PyStr.last (PyStr.split "H" minutes_part))
  else if PyStr.contains "T" minutes_part then
    py_int_str (PyStr.last (PyStr.split "T" minutes_part))
  else py_int_str minutes_part.

(** The seconds, lines 565-575. *)
Definition duration_seconds (duration_str : string) : res Z :=
  let seconds_part := PyStr.first (PyStr.split "S" duration_str) in
  if PyStr.contains "M" seconds_part then
    py_int_str (PyStr.last (PyStr.split "M" seconds_part))
  else if PyStr.contains "H" seconds_part then
    py_int_str (PyStr.last (PyStr.split "H" seconds_part))
  else if PyStr.contains "T" seconds_part then
    py_int_str (PyStr.last (PyStr.split "T" seconds_part))
  else py_int_str seconds_part.

(** [duration_minutes] as lines 542-575 compute it. *)
Definition parse_duration_minutes (duration_str : string) : res pynum :=
  let duration_minutes := PyInt 0 in
  duration_minutes <~
    (if PyStr.contains "H" duration_str then
       hours <~ duration_hours duration_str ;;
       add_int duration_minutes (hours * 60)
     else inr duration_minutes) ;;
  duration_minutes <~
    (if PyStr.contains "M" duration_str then
       minutes <~ duration_minutes_part duration_str ;;
       add_int duration_minutes minutes
     else inr duration_minutes) ;;
  if PyStr.contains "S" duration_str then
    seconds <~ duration_seconds duration_str ;;
    q <~ int_truediv seconds 60 ;;
    add_float duration_minutes q
  else inr duration_minutes.

End ParseDuration.

(** *** ISO 8601 durations as the service writes them *)

(** A numeral: a non-empty string of decimal digits, not longer than
    [int()] accepts, and its value. *)
Definition numeral (ds : string) : Prop :=
  ds <> EmptyString /\
  forallb PyStr.is_digit (list_ascii_of_string ds) = true /\
  (String.length ds <= PyInt.int_max_str_digits)%nat.

Fixpoint numeral_value_from (acc : Z) (ds : string) : Z :=
  match ds with
  | EmptyString => acc
  | String c rest =>
      numeral_value_from (10 * acc + Z.of_nat (nat_of_ascii c - 48)) rest
  end.

Definition numeral_value (ds : string) : Z := numeral_value_from 0 ds.

(** An optional component: the numeral followed by its unit letter. *)
Definition component (ds : option string) (unit : string) : string :=
  match ds with
  | Some n => (n ++ unit)%string
  | None => EmptyString
  end.

Definition component_value (ds : option string) : Z :=
  match ds with
  | Some n => numeral_value n
  | None => 0%Z
  end.

Definition well_formed (ds : option string) : Prop :=
  match ds with
  | Some n => numeral n
  | None => True
  end.


(** What the function reads of a video resource of the statistics
    response. *)
Record video_resource : Type := {
  v_id : field string;
  v_publishedAt : field string;
  v_duration : field string;
  v_viewCount : field string;
  v_likeCount : field string;
  v_commentCount : field string;
  v_favoriteCount : field string
}.

(** One dictionary of the result. *)
Record video_stat : Type := {
  st_videoId : option string;
  st_viewCount : Z;
  st_likeCount : Z;
  st_commentCount : Z;
  st_favoriteCount : Z;
  st_durationMinutes : pynum;
  st_publishedAt : string
}.

(** [d[key]] *)
Definition getitem {A} (key : string) (f : field A) : res (option A) :=
  match f with
  | Absent => inl (PyKeyError key)
  | Null => inr None
  | Val a => inr (Some a)
  end.

Section VideoStatistics.

Local Open Scope string_scope.
Local Open Scope res_scope.

(** [channels().list(part="contentDetails", id=...)]: the uploads playlist
    of each item. *)
Variable channels_uploads : string -> res (list string).

(** [playlistItems().list(part="snippet,contentDetails", playlistId=...,
    maxResults=...)]: [contentDetails.videoId] of each item. *)
Variable playlist_items : string -> Z -> res (list string).

(** [videos().list(part="statistics,contentDetails,snippet", id=...)] *)
Variable videos_list : string -> res (list video_resource).

(** Dates and times, and [datetime.utcnow() - timedelta(days=30 * months)]:
    the cutoff date of the call, or the exception of the computation (an
    [OverflowError] for a number of months out of range). *)
Variable datetime : Type.
Variable cutoff_date_of : Z -> res datetime.

(** [datetime.strptime(s, '%Y-%m-%dT%H:%M:%SZ') < cutoff_date]; a string
    that does not parse raises. *)
Variable published_before : string -> datetime -> res bool.

(** The body of the [try] for one video: [None] for [continue], else the
    dictionary that is appended. *)
Definition video_stat_of (cutoff_date : datetime) (min_duration_minutes : Z)
  (video : video_resource) : res (option video_stat) :=
  published <~ getitem "publishedAt" (v_publishedAt video) ;;
  too_old <~
    match published with
    | Some s => published_before s cutoff_date
    | None => inl (PyTypeError "strptime() argument 1 must be str, not None")
    end ;;
  duration_minutes <~
    match get_default (v_duration video) "PT0S" with
    | Some duration_str => parse_duration_minutes duration_str
    | None => inl (PyTypeError "argument of type 'NoneType' is not iterable")
    end ;;
  if (too_old || num_lt_int duration_minutes min_duration_minutes)%bool
  then inr None
  else
    videoId <~ getitem "id" (v_id video) ;;
    viewCount <~ py_int_field (v_viewCount video) ;;
    likeCount <~ py_int_field (v_likeCount video) ;;
    commentCount <~ py_int_field (v_commentCount video) ;;
    favoriteCount <~ py_int_field (v_favoriteCount video) ;;
    inr (Some {| st_videoId := videoId;
                 st_viewCount := viewCount;
                 st_likeCount := likeCount;
                 st_commentCount := commentCount;
                 st_favoriteCount := favoriteCount;
                 st_durationMinutes := round2 duration_minutes;
                 st_publishedAt := match published with Some s => s | None => "" end |}).

(** An entry of the result is of a video that is not older than the cutoff
    and whose duration, before rounding, is not below the minimum. *)
Definition passes_filters (cutoff_date : datetime) (min_duration_minutes : Z)
  (stat : video_stat) : Prop :=
  published_before (st_publishedAt stat) cutoff_date = inr false /\
  exists duration_minutes,
    st_durationMinutes stat = round2 duration_minutes /\
    num_lt_int duration_minutes min_duration_minutes = false.

(** The [for] loop over the videos: a video that raises is skipped, and the
    loop stops once [len(video_stats) >= max_results] holds after an
    append. *)
Fixpoint collect_video_stats (max_results : Z) (cutoff_date : datetime)
  (min_duration_minutes : Z)
  (video_stats : list video_stat) (videos : list video_resource)
  : list video_stat :=
  match videos with
  | [] => video_stats
  | video :: rest =>
      match video_stat_of cutoff_date min_duration_minutes video with
      | inr (Some stat) =>
          let video_stats := (video_stats ++ [stat])%list in
          if (max_results <=? Z.of_nat (List.length video_stats))%Z
          then video_stats
          else collect_video_stats max_results cutoff_date
                 min_duration_minutes video_stats rest
      | _ => collect_video_stats max_results cutoff_date min_duration_minutes
               video_stats rest
      end
  end.

Definition _fetch_video_statistics (channel_id : string)
  (max_results months min_duration_minutes : Z) : res (list video_stat) :=
  reraise_http "Error fetching video statistics: "
    (items <~ channels_uploads channel_id ;;
     match items with
     | [] => inl (PyValueError ("Channel not found: " ++ channel_id))
     | uploads_playlist_id :: _ =>
         video_ids <~ playlist_items uploads_playlist_id 50 ;;
         videos <~ videos_list (PyStr.join "," video_ids) ;;
         cutoff_date <~ cutoff_date_of months ;;
         inr (collect_video_stats max_results cutoff_date min_duration_minutes
                [] videos)
     end).

End VideoStatistics.

(** ** The scenes of [_analyze_video_content] *)

(** One dictionary of [scenes]. *)
Record scene : Type := {
  scene_start : Z;
  scene_end : Z;
  scene_sponsor : string
}.

(** The seconds at which a scene begins and ends. *)
Definition scene_times (s : scene) : Z * Z := (scene_start s, scene_end s).

Section Scenes.

Local Open Scope string_scope.
Local Open Scope res_scope.

(** [scene_analyzer.run(f"Scene text: {scene_text}").content] for the
    request number [k] of the call (the agent need not answer the same text
    twice alike): the content of the answer, [None] when it has none, or
    the exception of the call. *)
Variable scene_analyzer_run : nat -> string -> res (option string).

(** [eval(scene_analysis.content)] and the two [get]s of the [try] block.
    The answer is evaluated as a Python expression with the variables of
    the function in scope, among them the lists [words] and [scenes], which
    the expression can change in place.  The result is the sponsor read, or
    [None] when something was raised (the bare [except] catches everything
    and the fallback takes the empty sponsor), together with the two lists
    as they are afterwards. *)
Variable py_eval :
  string -> list string -> list scene
  -> option string * list string * list scene.

Definition words_per_scene : nat := 150.

(** [range(0, n, words_per_scene)] *)
Definition scene_starts (n : nat) : list nat :=
  map (fun k => (k * words_per_scene)%nat)
    (seq 0 ((n + (words_per_scene - 1)) / words_per_scene)%nat).

(** [words[i:i + words_per_scene]] *)
Definition scene_words (words : list string) (i : nat) : list string :=
  firstn words_per_scene (skipn i words).

(** The text sent for a slice of the words. *)
Definition scene_prompt (scene_words : list string) : string :=
  "Scene text: " ++ PyStr.join " " scene_words.

(** The [try] block for an answer: evaluating [None] raises, which the
    fallback handles. *)
Definition analysis_of (content : option string) (words : list string)
  (scenes : list scene) : option string * list string * list scene :=
  match content with
  | Some text => py_eval text words scenes
  | None => (None, words, scenes)
  end.

(** The loop over the start indices, which are fixed when the loop begins;
    [k] numbers the requests, and [words] and [scenes] are the two lists as
    they are when the iteration begins. *)
Fixpoint analyze_scenes_from (k : nat) (starts : list nat)
  (words : list string) (scenes : list scene)
  : res (list string * list scene) :=
  match starts with
  | [] => inr (words, scenes)
  | i :: rest =>
      content <~ scene_analyzer_run k (scene_prompt (scene_words words i)) ;;
      let '(analysis, words, scenes) := analysis_of content words scenes in
      let sponsor := match analysis with Some s => s | None => "" end in
      let scenes :=
        (scenes ++ [{| scene_start := (Z.of_nat (i / words_per_scene) * 60)%Z;
                       scene_end := ((Z.of_nat (i / words_per_scene) + 1) * 60)%Z;
                       scene_sponsor := sponsor |}])%list in
      analyze_scenes_from (S k) rest words scenes
  end.

(** The list [scenes] when the loop is left. *)
Definition analyze_scenes (words : list string) : res (list scene) :=
  result <~ analyze_scenes_from 0 (scene_starts (List.length words)) words [] ;;
  inr (snd result).

(** Evaluating an answer leaves the two lists as they are: what holds of
    an answer that is a dictionary display, as the agent is asked for. *)
Definition eval_keeps_lists : Prop :=
  forall text words scenes,
    snd (fst (py_eval text words scenes)) = words /\
    snd (py_eval text words scenes) = scenes.

End Scenes.

(** ** The sponsors of [_analyze_video_content] *)

(** [s.strip()]: white space is removed at both ends. *)
Fixpoint py_rstrip (s : string) : string :=
  match s with
  | EmptyString => EmptyString
  | String c rest =>
      match py_rstrip rest with
      | EmptyString =>
          if PyStr.is_space c then EmptyString else String c EmptyString
      | stripped => String c stripped
      end
  end.

Definition py_strip (s : string) : string := py_rstrip (PyStr.lstrip s).

(** One dictionary of [sponsors]. *)
Record sponsor : Type := { sponsor_name : string }.

(** The list [sponsors] made of the answer of the sponsor agent:
    [sponsor_response] is [None] for an answer that is not truthy, and holds
    the [content] of the answer otherwise, a string or [None]. *)
Definition parse_sponsors (sponsor_response : option (option string))
  : list sponsor :=
  match sponsor_response with
  | Some (Some content) =>
      if String.eqb content "" then []
      else
        let sponsor_names := PyStr.split "," (py_strip content) in
        map (fun name => {| sponsor_name := py_strip name |})
          (filter (fun name => negb (String.eqb (py_strip name) ""))
             sponsor_names)
  | _ => []
  end.

(** ** Video details, channel information and the functions built on them *)

(** [d[key]] for a [d] that was itself read from the response, and so may
    be [None]. *)
Definition getitem_in {A B} (d : option A) (key : string)
  (member : A -> field B) : res (option B) :=
  match d with
  | Some a => getitem key (member a)
  | None => inl (PyTypeError "'NoneType' object is not subscriptable")
  end.

(** [int(x)] for what was read under a key. *)
Definition py_int_value (x : option string) : res Z :=
  match x with
  | Some s => py_int_str s
  | None => inl (PyTypeError "int() argument must be a string, a bytes-like object or a real number, not 'NoneType'")
  end.

(** What [_fetch_video_details] reads of a video resource: every key may
    be missing. *)
Record video_snippet : Type := {
  vs_title : field string;
  vs_description : field string;
  vs_publishedAt : field string;
  vs_thumbnails : field string
}.

Record video_statistics : Type := {
  vst_viewCount : field string;
  vst_likeCount : field string;
  vst_commentCount : field string
}.

Record video_content_details : Type := {
  vc_duration : field string
}.

Record video_details_resource : Type := {
  dr_id : field string;
  dr_snippet : field video_snippet;
  dr_statistics : field video_statistics;
  dr_contentDetails : field video_content_details
}.

Record video_details : Type := {
  vd_id : option string;
  vd_title : option string;
  vd_description : option string;
  vd_publishedAt : option string;
  vd_viewCount : Z;
  vd_likeCount : Z;
  vd_commentCount : Z;
  vd_duration : option string;
  vd_thumbnails : option string
}.

(** What [_fetch_channel_info] reads of a channel resource. *)
Record channel_snippet : Type := {
  sn_title : field string;
  sn_description : field string;
  sn_thumbnails : field string
}.

Record channel_statistics : Type := {
  cs_subscriberCount : field string;
  cs_viewCount : field string;
  cs_videoCount : field string
}.

Record channel_info_resource : Type := {
  ir_id : field string;
  ir_snippet : field channel_snippet;
  ir_statistics : field channel_statistics
}.

Record channel_info : Type := {
  ci_id : option string;
  ci_title : option string;
  ci_description : option string;
  ci_subscriberCount : Z;
  ci_viewCount : Z;
  ci_videoCount : Z;
  ci_thumbnails : option string
}.

(** The dictionary returned by [_introspect_channel]. *)
Inductive introspection : Type :=
| Introspected (info : channel_info) (recent_videos : list video_details)
| IntrospectionError (error : string).

Section ChannelFunctions.

Local Open Scope string_scope.
Local Open Scope res_scope.

(** The calls of the service: [search().list(type="channel", maxResults=1)],
    [search().list(channelId=..., q=..., type="video", maxResults=...,
    order="relevance")] (the [videoId] of each item),
    [videos().list(part="snippet,statistics,contentDetails")],
    [channels().list(part="snippet,statistics")],
    [channels().list(part="contentDetails")] (the uploads playlist of each
    item) and [playlistItems().list] (the [videoId] of each item). *)
Variable search_channel : string -> res (list string).
Variable search_channel_videos : string -> string -> Z -> res (list string).
Variable videos_details : string -> res (list video_details_resource).
Variable channels_info : string -> res (list channel_info_resource).
Variable channels_uploads : string -> res (list string).
Variable playlist_items : string -> Z -> res (list string).

Definition _fetch_video_details (video_id : string) : res video_details :=
  reraise_http "Error fetching video details: "
    (items <~ videos_details video_id ;;
     match items with
     | [] => inl (PyValueError ("Video not found: " ++ video_id))
     | video :: _ =>
         id <~ getitem "id" (dr_id video) ;;
         snippet <~ getitem "snippet" (dr_snippet video) ;;
         title <~ getitem_in snippet "title" vs_title ;;
         description <~ getitem_in snippet "description" vs_description ;;
         publishedAt <~ getitem_in snippet "publishedAt" vs_publishedAt ;;
         statistics <~ getitem "statistics" (dr_statistics video) ;;
         viewCount <~ rbind (getitem_in statistics "viewCount" vst_viewCount)
                        py_int_value ;;
         likeCount <~
           match statistics with
           | Some st => py_int_field (vst_likeCount st)
           | None => inl (PyOtherError "'NoneType' object has no attribute 'get'")
           end ;;
         commentCount <~
           match statistics with
           | Some st => py_int_field (vst_commentCount st)
           | None => inl (PyOtherError "'NoneType' object has no attribute 'get'")
           end ;;
         contentDetails <~ getitem "contentDetails" (dr_contentDetails video) ;;
         duration <~ getitem_in contentDetails "duration" vc_duration ;;
         thumbnails <~ getitem_in snippet "thumbnails" vs_thumbnails ;;
         inr {| vd_id := id;
                vd_title := title;
                vd_description := description;
                vd_publishedAt := publishedAt;
                vd_viewCount := viewCount;
                vd_likeCount := likeCount;
                vd_commentCount := commentCount;
                vd_duration := duration;
                vd_thumbnails := thumbnails |}
     end).

(** The loop [for item in ...: videos.append(_fetch_video_details(...))]. *)
Fixpoint fetch_each_video (video_ids : list string) : res (list video_details) :=
  match video_ids with
  | [] => inr []
  | video_id :: rest =>
      video_details <~ _fetch_video_details video_id ;;
      later <~ fetch_each_video rest ;;
      inr (video_details :: later)
  end.

Definition _search_youtube_channel_videos (channel_id search_term : string)
  (max_results : Z) : res (list video_details) :=
  reraise_http "Error searching channel videos: "
    (items <~ search_channel_videos channel_id search_term max_results ;;
     match items with
     | [] => inr []
     | _ => fetch_each_video items
     end).

Definition _fetch_channel_info (channel_id : string) : res channel_info :=
  reraise_http "Error fetching channel info: "
    (items <~ channels_info channel_id ;;
     match items with
     | [] => inl (PyValueError ("Channel not found: " ++ channel_id))
     | channel :: _ =>
         id <~ getitem "id" (ir_id channel) ;;
         snippet <~ getitem "snippet" (ir_snippet channel) ;;
         title <~ getitem_in snippet "title" sn_title ;;
         description <~ getitem_in snippet "description" sn_description ;;
         statistics <~ getitem "statistics" (ir_statistics channel) ;;
         subscriberCount <~
           rbind (getitem_in statistics "subscriberCount" cs_subscriberCount)
             py_int_value ;;
         viewCount <~
           rbind (getitem_in statistics "viewCount" cs_viewCount) py_int_value ;;
         videoCount <~
           rbind (getitem_in statistics "videoCount" cs_videoCount) py_int_value ;;
         thumbnails <~ getitem_in snippet "thumbnails" sn_thumbnails ;;
         inr {| ci_id := id;
                ci_title := title;
                ci_description := description;
                ci_subscriberCount := subscriberCount;
                ci_viewCount := viewCount;
                ci_videoCount := videoCount;
                ci_thumbnails := thumbnails |}
     end).

Definition _fetch_videos (channel_id : string) (max_results : Z)
  : res (list video_details) :=
  reraise_http "Error fetching videos: "
    (items <~ channels_uploads channel_id ;;
     match items with
     | [] => inl (PyValueError ("Channel not found: " ++ channel_id))
     | uploads_playlist_id :: _ =>
         video_ids <~ playlist_items uploads_playlist_id max_results ;;
         fetch_each_video video_ids
     end).

Definition _introspect_channel (identifier : string) (max_videos : Z)
  : introspection :=
  let body :=
    channel_id <~ _resolve_channel_id search_channel identifier ;;
    channel_info <~ _fetch_channel_info channel_id ;;
    recent_videos <~ _fetch_videos channel_id max_videos ;;
    inr (channel_info, recent_videos) in
  match body with
  | inr (channel_info, recent_videos) => Introspected channel_info recent_videos
  | inl e => IntrospectionError (str_of_error e)
  end.


End ChannelFunctions.

(** ** A small service to run the functions on *)

Module Demo.

Local Open Scope string_scope.

(** One channel is known. *)
Definition search_channel (q : string) : res (list string) :=
  if String.eqb q "MrBeast" then inr ["UCX6OQ3DkcsbYNE6H8uQQuVA"] else inr [].

(** A service that is down. *)
Definition failing_search (q : string) : res (list string) :=
  inl (PyHttpError "503").

(** Comments on two pages; the second item of the first page has no id. *)
Definition item (id text : field string) : comment_item :=
  {| top_id := id; textDisplay := text; authorDisplayName := Absent;
     likeCount := Val 3%Z; publishedAt := Null |}.

Definition comment_threads (video_id : string) (maxResults : Z)
  (pageToken : option string) : res comment_page :=
  match pageToken with
  | None =>
      inr {| page_items :=
               firstn (Z.to_nat maxResults)
                 [item (Val "c1") (Val "first"); item Absent (Val "lost");
                  item (Val "c2") (Val "second")];
             nextPageToken := Val "page2" |}
  | Some _ =>
      inr {| page_items :=
               firstn (Z.to_nat maxResults) [item (Val "c3") (Val "third")];
             nextPageToken := Absent |}
  end.

(** A service whose pages hold one comment without a text and always
    announce a next page. *)
Definition stuck_comment_threads (video_id : string) (maxResults : Z)
  (pageToken : option string) : res comment_page :=
  inr {| page_items := [item (Val "c1") Null];
         nextPageToken := Val "again" |}.

(** The same comments from a service that refuses page sizes outside 1 to
    100. *)
Definition strict_comment_threads (video_id : string) (maxResults : Z)
  (pageToken : option string) : res comment_page :=
  if ((maxResults <=? 0)%Z || (100 <? maxResults)%Z)%bool
  then inl (PyHttpError "400")
  else comment_threads video_id maxResults pageToken.

(** The known channel, and one that hides its subscriber count. *)
Definition channels_info (channel_id : string) : res (list channel_info_resource) :=
  if String.eqb channel_id "UCX6OQ3DkcsbYNE6H8uQQuVA" then
    inr [{| ir_id := Val channel_id;
            ir_snippet :=
              Val {| sn_title := Val "MrBeast"; sn_description := Val "";
                     sn_thumbnails := Val "" |};
            ir_statistics :=
              Val {| cs_subscriberCount := Val "400000000";
                     cs_viewCount := Val "90000000000";
                     cs_videoCount := Val "800" |} |}]
  else if String.eqb channel_id "UC0000000000000000000000" then
    inr [{| ir_id := Val channel_id;
            ir_snippet :=
              Val {| sn_title := Val "Hidden"; sn_description := Val "";
                     sn_thumbnails := Absent |};
            ir_statistics :=
              Val {| cs_subscriberCount := Absent;
                     cs_viewCount := Val "12";
                     cs_videoCount := Absent |} |}]
  else inr [].

Definition channels_uploads (channel_id : string) : res (list string) :=
  inr ["UU" ++ PyStr.tail (PyStr.tail channel_id)].

Definition playlist_items (playlist_id : string) (maxResults : Z)
  : res (list string) :=
  inr (firstn (Z.to_nat maxResults) ["v1"; "v2"; "v3"]).

(** Every video is found; likes are hidden. *)
Definition videos_details (video_id : string) : res (list video_details_resource) :=
  inr [{| dr_id := Val video_id;
          dr_snippet :=
            Val {| vs_title := Val "title"; vs_description := Val "";
                   vs_publishedAt := Val "2025-05-01T00:00:00Z";
                   vs_thumbnails := Val "" |};
          dr_statistics :=
            Val {| vst_viewCount := Val "1000"; vst_likeCount := Absent;
                   vst_commentCount := Val "7" |};
          dr_contentDetails := Val {| vc_duration := Val "PT1H2M3S" |} |}].

(** An analyzer that names a sponsor, one that answers the first request
    only, and an evaluation that reads the sponsor off and changes
    nothing. *)
Definition scene_analyzer_run (k : nat) (prompt : string)
  : res (option string) :=
  inr (Some "{'summary': 'thanks', 'sponsor': 'Acme'}").

Definition single_answer (k : nat) (prompt : string) : res (option string) :=
  match k with
  | O => scene_analyzer_run k prompt
  | S _ => inl (PyOtherError "rate limit")
  end.

Definition py_eval (text : string) (words : list string) (scenes : list scene)
  : option string * list string * list scene :=
  (if PyStr.contains "'sponsor': 'Acme'" text then Some "Acme" else None,
   words, scenes).

End Demo.

(** * Properties of the estimator *)

(** ** Facts about rounding *)

Module Float64Facts.

Import Float64.
Local Open Scope Q_scope.

Lemma pow2_pos (e : Z) : 0 < pow2 e.
Proof. apply Qpower_0_lt. reflexivity. Qed.

Lemma pow2_nonzero (e : Z) : ~ pow2 e == 0.
Proof. pose proof (pow2_pos e) as H. intros E. rewrite E in H. discriminate H. Qed.

Lemma pow2_add (a b : Z) : pow2 (a + b) == pow2 a * pow2 b.
Proof. apply Qpower_plus. discriminate. Qed.

Lemma pow2_le (a b : Z) : (a <= b)%Z -> pow2 a <= pow2 b.
Proof. intros H. apply Qpower_le_compat_l; [exact H | discriminate]. Qed.

Lemma pow2_lt (a b : Z) : (a < b)%Z -> pow2 a < pow2 b.
Proof. intros H. apply Qpower_lt_compat_l; [exact H | reflexivity]. Qed.

Lemma pow2_inject (a : Z) : (0 <= a)%Z -> inject_Z (2 ^ a) == pow2 a.
Proof. intros H. unfold pow2. rewrite Zpower_Qpower by exact H. reflexivity. Qed.

Lemma pow2_sub (a b : Z) : pow2 (a - b) == pow2 a / pow2 b.
Proof.
  unfold Z.sub. rewrite pow2_add. unfold pow2 at 2. rewrite Qpower_opp.
  reflexivity.
Qed.

(** [ilog2] brackets a positive rational between two powers of two. *)
Lemma ilog2_spec (q : Q) :
  0 < q -> pow2 (ilog2 q) <= q /\ q < pow2 (ilog2 q + 1).
Proof.
  intros Hq. unfold ilog2.
  destruct q as [n d]. simpl Qnum. simpl Qden.
  assert (Hn : (0 < n)%Z).
  { unfold Qlt in Hq. simpl in Hq. lia. }
  set (a := Z.log2 n). set (b := Z.log2 (Z.pos d)).
  assert (Ha : (0 <= a)%Z) by apply Z.log2_nonneg.
  assert (Hb : (0 <= b)%Z) by apply Z.log2_nonneg.
  destruct (Z.log2_spec n Hn) as [Hn1 Hn2]. fold a in Hn1, Hn2.
  destruct (Z.log2_spec (Z.pos d) eq_refl) as [Hd1 Hd2]. fold b in Hd1, Hd2.
  (* q * d = n *)
  assert (Hqd : (n # d) * inject_Z (Z.pos d) == inject_Z n).
  { rewrite (Qmake_Qdiv n d). field. discriminate. }
  assert (Hdpos : 0 < inject_Z (Z.pos d)) by reflexivity.
  assert (Hlow : pow2 (a - b - 1) < n # d).
  { apply Qmult_lt_r with (z := inject_Z (Z.pos d)); [exact Hdpos|].
    rewrite Hqd.
    apply Qlt_le_trans with (y := pow2 (a - b - 1) * pow2 (b + 1)).
    - apply Qmult_lt_l; [apply pow2_pos|].
      rewrite <- pow2_inject by lia. rewrite <- Zlt_Qlt.
      replace (Z.succ b) with (b + 1)%Z in Hd2 by lia. exact Hd2.
    - rewrite <- pow2_add. replace (a - b - 1 + (b + 1))%Z with a by lia.
      rewrite <- pow2_inject by lia. rewrite <- Zle_Qle. exact Hn1. }
  assert (Hhigh : n # d < pow2 (a - b + 1)).
  { apply Qmult_lt_r with (z := inject_Z (Z.pos d)); [exact Hdpos|].
    rewrite Hqd.
    apply Qlt_le_trans with (y := pow2 (a - b + 1) * pow2 b).
    - rewrite <- pow2_add. replace (a - b + 1 + b)%Z with (a + 1)%Z by lia.
      rewrite <- pow2_inject by lia. rewrite <- Zlt_Qlt.
      replace (Z.succ a) with (a + 1)%Z in Hn2 by lia. exact Hn2.
    - apply Qmult_le_l; [apply pow2_pos|].
      rewrite <- pow2_inject by lia. rewrite <- Zle_Qle. exact Hd1. }
  destruct (Qle_bool (pow2 (a - b)) (n # d)) eqn:E.
  - apply Qle_bool_iff in E. split; [exact E | exact Hhigh].
  - split.
    + apply Qlt_le_weak. exact Hlow.
    + replace (a - b - 1 + 1)%Z with (a - b)%Z by lia.
      apply Qnot_le_lt. intros H. apply Qle_bool_iff in H. congruence.
Qed.

Lemma ilog2_unique (q : Q) (k : Z) :
  pow2 k <= q -> q < pow2 (k + 1) -> ilog2 q = k.
Proof.
  intros H1 H2.
  assert (Hq : 0 < q) by (eapply Qlt_le_trans; [apply pow2_pos | exact H1]).
  destruct (ilog2_spec Hq) as [H3 H4].
  assert (A : (ilog2 q < k + 1)%Z).
  { apply Qpower_lt_compat_l_inv with (q := 2 # 1); [|reflexivity].
    eapply Qle_lt_trans; [exact H3 | exact H2]. }
  assert (B : (k < ilog2 q + 1)%Z).
  { apply Qpower_lt_compat_l_inv with (q := 2 # 1); [|reflexivity].
    eapply Qle_lt_trans; [exact H1 | exact H4]. }
  lia.
Qed.

Lemma ilog2_mono (x y : Q) : 0 < x -> x <= y -> (ilog2 x <= ilog2 y)%Z.
Proof.
  intros Hx Hxy.
  assert (Hy : 0 < y) by (eapply Qlt_le_trans; eassumption).
  destruct (ilog2_spec Hx) as [H1 _]. destruct (ilog2_spec Hy) as [_ H2].
  assert (A : (ilog2 x < ilog2 y + 1)%Z).
  { apply Qpower_lt_compat_l_inv with (q := 2 # 1); [|reflexivity].
    eapply Qle_lt_trans; [exact H1|]. eapply Qle_lt_trans; eassumption. }
  lia.
Qed.

(** *** Rounding to the nearest integer *)

Lemma rne_floor (x : Q) : (Qfloor x <= rne x <= Qfloor x + 1)%Z.
Proof.
  unfold rne. destruct (Qcompare _ _); [destruct (Z.even _)| |]; lia.
Qed.

Lemma rne_Z (z : Z) : rne (inject_Z z) = z.
Proof.
  unfold rne. rewrite Qfloor_Z.
  assert (E : inject_Z z - inject_Z z == 0) by ring.
  rewrite E. reflexivity.
Qed.

Lemma rne_mono (x y : Q) : x <= y -> (rne x <= rne y)%Z.
Proof.
  intros Hxy.
  pose proof (Qfloor_resp_le _ _ Hxy) as Hf.
  pose proof (rne_floor x) as Hx. pose proof (rne_floor y) as Hy.
  destruct (Z.eq_dec (Qfloor x) (Qfloor y)) as [E|NE]; [|lia].
  unfold rne in *. rewrite <- E in *. clear Hx Hy Hf.
  assert (Hr : x - inject_Z (Qfloor x) <= y - inject_Z (Qfloor x)) by lra.
  destruct (Qcompare_spec (x - inject_Z (Qfloor x)) (1 # 2)) as [Ex|Lx|Gx];
    destruct (Qcompare_spec (y - inject_Z (Qfloor x)) (1 # 2)) as [Ey|Ly|Gy];
    try destruct (Z.even (Qfloor x)); try lia; exfalso; lra.
Qed.

Lemma rne_lower (x : Q) (z : Z) : inject_Z z <= x -> (z <= rne x)%Z.
Proof. intros H. rewrite <- (rne_Z z). apply rne_mono. exact H. Qed.

Lemma rne_upper (x : Q) (z : Z) : x <= inject_Z z -> (rne x <= z)%Z.
Proof. intros H. rewrite <- (rne_Z z). apply rne_mono. exact H. Qed.

(** *** Rounding positive rationals *)

Lemma ulp_exp_mono (x y : Q) : 0 < x -> x <= y -> (ulp_exp x <= ulp_exp y)%Z.
Proof.
  intros Hx Hxy. unfold ulp_exp. pose proof (ilog2_mono Hx Hxy). lia.
Qed.

Lemma nearest_eq (q : Q) :
  nearest q == inject_Z (rne (q / pow2 (ulp_exp q))) * pow2 (ulp_exp q).
Proof. unfold nearest. apply Qred_correct. Qed.

(** The scaled value lies below [2^53]; it lies above [2^52] in the normal
    range. *)
Lemma scaled_upper (q : Q) : 0 < q -> q / pow2 (ulp_exp q) <= inject_Z (2 ^ prec).
Proof.
  intros Hq. destruct (ilog2_spec Hq) as [_ H].
  apply Qle_shift_div_r; [apply pow2_pos|].
  rewrite pow2_inject by (unfold prec; lia). rewrite <- pow2_add.
  apply Qlt_le_weak. eapply Qlt_le_trans; [exact H|].
  apply pow2_le. unfold ulp_exp, prec. lia.
Qed.

Lemma scaled_lower (q : Q) :
  0 < q -> (emin < ulp_exp q)%Z -> inject_Z (2 ^ (prec - 1)) <= q / pow2 (ulp_exp q).
Proof.
  intros Hq He. destruct (ilog2_spec Hq) as [H _].
  apply Qle_shift_div_l; [apply pow2_pos|].
  rewrite pow2_inject by (unfold prec; lia). rewrite <- pow2_add.
  eapply Qle_trans; [|exact H].
  apply pow2_le. unfold ulp_exp, prec in *. lia.
Qed.

Lemma nearest_mono (x y : Q) : 0 < x -> x <= y -> nearest x <= nearest y.
Proof.
  intros Hx Hxy.
  assert (Hy : 0 < y) by (eapply Qlt_le_trans; eassumption).
  rewrite !nearest_eq.
  pose proof (ulp_exp_mono Hx Hxy) as He.
  destruct (Z.eq_dec (ulp_exp x) (ulp_exp y)) as [E|NE].
  - rewrite E. apply Qmult_le_r; [apply pow2_pos|].
    rewrite <- Zle_Qle. apply rne_mono.
    apply Qmult_le_r with (z := pow2 (ulp_exp y)); [apply pow2_pos|].
    unfold Qdiv. rewrite <- !Qmult_assoc.
    rewrite (Qmult_comm (/ _)), Qmult_inv_r by apply pow2_nonzero.
    rewrite !Qmult_1_r. exact Hxy.
  - assert (Hlt : (ulp_exp x < ulp_exp y)%Z) by lia.
    assert (Hmin : (emin < ulp_exp y)%Z) by (unfold ulp_exp in *; lia).
    pose proof (rne_upper (scaled_upper Hx)) as Ux.
    pose proof (rne_lower (scaled_lower Hy Hmin)) as Ly.
    apply Qle_trans with (y := inject_Z (2 ^ prec) * pow2 (ulp_exp x)).
    { apply Qmult_le_r; [apply pow2_pos|]. rewrite <- Zle_Qle. exact Ux. }
    apply Qle_trans with (y := inject_Z (2 ^ (prec - 1)) * pow2 (ulp_exp y)).
    2:{ apply Qmult_le_r; [apply pow2_pos|]. rewrite <- Zle_Qle. exact Ly. }
    rewrite !pow2_inject by (unfold prec; lia). rewrite <- !pow2_add.
    apply pow2_le. lia.
Qed.

Lemma nearest_nonneg (q : Q) : 0 < q -> 0 <= nearest q.
Proof.
  intros Hq. rewrite nearest_eq.
  apply Qmult_le_0_compat; [|apply Qlt_le_weak, pow2_pos].
  replace 0 with (inject_Z 0) by reflexivity. rewrite <- Zle_Qle.
  apply rne_lower. simpl. apply Qle_shift_div_l; [apply pow2_pos|].
  rewrite Qmult_0_l. apply Qlt_le_weak. exact Hq.
Qed.

(** *** Rounding is monotone *)

Lemma round_pos_cases (q : Q) :
  (round_pos q = None /\ pow2 emax <= nearest q) \/
  (round_pos q = Some (nearest q) /\ nearest q < pow2 emax).
Proof.
  unfold round_pos. destruct (Qle_bool (pow2 emax) (nearest q)) eqn:E.
  - left. split; [reflexivity|]. apply Qle_bool_iff. exact E.
  - right. split; [reflexivity|]. apply Qnot_le_lt. intros H.
    apply Qle_bool_iff in H. congruence.
Qed.

Lemma fle_Fin (a b : Q) : fle (Fin a) (Fin b) = true <-> a <= b.
Proof. simpl. apply Qle_bool_iff. Qed.

Lemma round_mono (x y : Q) : x <= y -> fle (round x) (round y) = true.
Proof.
  intros Hxy. unfold round.
  destruct (Qcompare_spec 0 x) as [Ex|Lx|Gx];
    destruct (Qcompare_spec 0 y) as [Ey|Ly|Gy]; try (exfalso; lra).
  - reflexivity.
  - destruct (round_pos_cases y) as [[-> _]|[-> _]]; [reflexivity|].
    apply fle_Fin. apply nearest_nonneg. exact Ly.
  - destruct (round_pos_cases x) as [[-> Hx]|[-> Hx]];
      destruct (round_pos_cases y) as [[-> Hy]|[-> Hy]]; try reflexivity.
    + exfalso. pose proof (nearest_mono Lx Hxy). lra.
    + apply fle_Fin. apply nearest_mono; assumption.
  - destruct (round_pos_cases (- x)) as [[-> _]|[-> _]]; [reflexivity|].
    apply fle_Fin. rewrite Qred_correct.
    assert (H : 0 <= nearest (- x)) by (apply nearest_nonneg; lra). lra.
  - destruct (round_pos_cases (- x)) as [[-> _]|[-> _]];
      destruct (round_pos_cases y) as [[-> _]|[-> _]]; try reflexivity.
    apply fle_Fin. rewrite Qred_correct.
    assert (H : 0 <= nearest (- x)) by (apply nearest_nonneg; lra).
    assert (H' : 0 <= nearest y) by (apply nearest_nonneg; lra). lra.
  - assert (Hm : nearest (- y) <= nearest (- x)) by (apply nearest_mono; lra).
    destruct (round_pos_cases (- x)) as [[-> Hx]|[-> Hx]];
      destruct (round_pos_cases (- y)) as [[-> Hy]|[-> Hy]]; try reflexivity.
    + exfalso. lra.
    + apply fle_Fin. rewrite !Qred_correct. lra.
Qed.

End Float64Facts.

(** ** The probabilities computed from a confidence level *)

Section Probabilities.

Import Float64 Float64Facts.
Local Open Scope Q_scope.

Lemma flt_Fin (a b : Q) : flt (Fin a) (Fin b) = true <-> a < b.
Proof.
  simpl. rewrite negb_true_iff. split.
  - intros H. apply Qnot_le_lt. intros L. apply Qle_bool_iff in L. congruence.
  - intros H. destruct (Qle_bool b a) eqn:E; [|reflexivity].
    apply Qle_bool_iff in E. exfalso. lra.
Qed.

Lemma positive_not_le_0 (v : pyfloat) : positive v -> fle v f0 = false.
Proof.
  unfold positive. destruct v as [q| | |]; simpl; try discriminate; try reflexivity.
  intros H. apply negb_true_iff in H. exact H.
Qed.

Lemma in_unit_interval_Fin (c : pyfloat) :
  in_unit_interval c -> exists q, c = Fin q /\ 0 < q /\ q < 1.
Proof.
  intros [H0 H1]. destruct c as [q| | |]; try discriminate.
  exists q. split; [reflexivity|]. split; apply flt_Fin; assumption.
Qed.

Lemma round_exact_0 : round 0 = Fin 0.
Proof. reflexivity. Qed.

Lemma round_exact_half : round (1 # 2) = Fin (1 # 2).
Proof. vm_compute. reflexivity. Qed.

Lemma round_exact_1 : round 1 = Fin 1.
Proof. vm_compute. reflexivity. Qed.

(** Rounding keeps a value between two floats between them. *)
Lemma round_between (lo hi l h x : Q) :
  round lo = Fin l -> round hi = Fin h -> lo <= x -> x <= hi ->
  exists v, round x = Fin v /\ l <= v /\ v <= h.
Proof.
  intros El Eh Hlo Hhi.
  pose proof (round_mono Hlo) as A. pose proof (round_mono Hhi) as B.
  rewrite El in A. rewrite Eh in B.
  destruct (round x) as [v| | |]; try discriminate.
  exists v. split; [reflexivity|]. split; apply fle_Fin; assumption.
Qed.

Lemma fdiv_by_2 (a : Q) : fdiv (Fin a) f2 = round (a / (2 # 1)).
Proof. reflexivity. Qed.

(** For a confidence level in (0,1): [alpha] lies in [0,1], [alpha/2] in
    [0,1/2] and [1 - alpha/2] in [1/2,1]. *)
Lemma probabilities_in_range (c : pyfloat) :
  in_unit_interval c ->
  exists a t h,
    alpha_of c = Fin a /\ tail_prob c = Fin t /\ head_prob c = Fin h /\
    (0 <= a /\ a <= 1) /\ (0 <= t /\ t <= 1 # 2) /\ (1 # 2 <= h /\ h <= 1).
Proof.
  intros Hc. destruct (in_unit_interval_Fin Hc) as (q & -> & Hq0 & Hq1).
  unfold head_prob, tail_prob, alpha_of. simpl fsub at 2 3.
  destruct (@round_between 0 1 0 1 (1 - q) round_exact_0 round_exact_1)
    as (a & Ea & Ha0 & Ha1); [lra | lra |].
  rewrite Ea. rewrite fdiv_by_2.
  destruct (@round_between 0 (1 # 2) 0 (1 # 2) (a / (2 # 1)) round_exact_0 round_exact_half)
    as (t & Et & Ht0 & Ht1).
  { apply Qle_shift_div_l; [reflexivity | lra]. }
  { apply Qle_shift_div_r; [reflexivity | lra]. }
  rewrite Et. simpl fsub.
  destruct (@round_between (1 # 2) 1 (1 # 2) 1 (1 - t) round_exact_half round_exact_1)
    as (h & Eh & Hh0 & Hh1); [lra | lra |].
  rewrite Eh. exists a, t, h. repeat split; assumption.
Qed.

(** A larger confidence level gives a smaller [alpha/2] and a larger
    [1 - alpha/2]: every rounding on the way is monotone. *)
Lemma probabilities_monotone (c1 c2 : pyfloat) :
  in_unit_interval c1 -> in_unit_interval c2 -> flt c1 c2 = true ->
  fle (tail_prob c2) (tail_prob c1) = true /\
  fle (head_prob c1) (head_prob c2) = true.
Proof.
  intros H1 H2 Hlt.
  destruct (probabilities_in_range H1) as (a1 & t1 & h1 & Ea1 & Et1 & Eh1 & _).
  destruct (probabilities_in_range H2) as (a2 & t2 & h2 & Ea2 & Et2 & Eh2 & _).
  destruct (in_unit_interval_Fin H1) as (q1 & -> & _).
  destruct (in_unit_interval_Fin H2) as (q2 & -> & _).
  apply flt_Fin in Hlt.
  assert (Ha : a2 <= a1).
  { apply fle_Fin. rewrite <- Ea1, <- Ea2. unfold alpha_of. simpl.
    apply round_mono. lra. }
  assert (Ht : t2 <= t1).
  { apply fle_Fin. rewrite <- Et1, <- Et2. unfold tail_prob.
    rewrite Ea1, Ea2, !fdiv_by_2. apply round_mono.
    apply Qmult_le_r; [reflexivity | exact Ha]. }
  split.
  - rewrite Et1, Et2. apply fle_Fin. exact Ht.
  - unfold head_prob. rewrite Et1, Et2. simpl. apply round_mono. lra.
Qed.

End Probabilities.

(** ** The stand-in library meets the contract *)

Module SurrogateFacts.

Import Surrogate.
Local Open Scope Q_scope.

Lemma Qle_bool_false (a b : Q) : Qle_bool a b = false <-> b < a.
Proof.
  split.
  - intros E. apply Qnot_le_lt. intros H. apply Qle_bool_iff in H. congruence.
  - intros H. destruct (Qle_bool a b) eqn:E; [|reflexivity].
    apply Qle_bool_iff in E. exfalso. lra.
Qed.

Lemma odds_le (p1 p2 : Q) :
  p1 <= p2 -> p2 < 1 -> p1 / (1 - p1) <= p2 / (1 - p2).
Proof.
  intros H12 H2.
  apply Qle_shift_div_l; [lra|].
  unfold Qdiv. rewrite <- Qmult_assoc, (Qmult_comm (/ _)), Qmult_assoc.
  apply Qle_shift_div_r; [lra|]. nra.
Qed.

(** The quantile function inside [0,1), for valid parameters. *)
Lemma ppf_interior (p s l k : Q) :
  0 < s -> 0 < k -> 0 <= p -> p < 1 ->
  ppf (Fin p) (Fin s) (Fin l) (Fin k) = Fin (l + k * (p / (1 - p))).
Proof.
  intros Hs Hk Hp0 Hp1. unfold ppf.
  rewrite (proj2 (Qle_bool_false s 0) Hs), (proj2 (Qle_bool_false k 0) Hk).
  rewrite (proj2 (Qle_bool_iff 0 p) Hp0).
  rewrite (proj2 (Qle_bool_iff p 1) (Qlt_le_weak _ _ Hp1)).
  rewrite (proj2 (Qle_bool_false 1 p) Hp1). reflexivity.
Qed.

Lemma ppf_finite_inv (p v : Q) (shape loc scale : pyfloat) :
  ppf (Fin p) shape loc scale = Fin v ->
  exists s l k, shape = Fin s /\ loc = Fin l /\ scale = Fin k /\
                0 < s /\ 0 < k /\ 0 <= p /\ p < 1.
Proof.
  unfold ppf. destruct shape as [s| | |]; try discriminate.
  destruct loc as [l| | |]; try discriminate.
  destruct scale as [k| | |]; try discriminate.
  destruct (Qle_bool s 0) eqn:Es; [discriminate|].
  destruct (Qle_bool k 0) eqn:Ek; [discriminate|].
  destruct (Qle_bool 0 p) eqn:E0; [|discriminate].
  destruct (Qle_bool p 1) eqn:E1; [|discriminate].
  destruct (Qle_bool 1 p) eqn:E2; [discriminate|]. simpl. intros _.
  exists s, l, k. repeat split; try reflexivity.
  - apply Qle_bool_false. exact Es.
  - apply Qle_bool_false. exact Ek.
  - apply Qle_bool_iff. exact E0.
  - apply Qle_bool_false. exact E2.
Qed.

Lemma lib_ppf_nondecreasing : ppf_nondecreasing lib.
Proof.
  intros shape loc scale q1 q2 v1 v2 H12 E1 E2.
  change (lognorm_ppf lib) with ppf in E1, E2.
  destruct (@ppf_finite_inv _ _ _ _ _ E2) as (s & l & k & -> & -> & -> & Hs & Hk & H20 & H21).
  destruct (@ppf_finite_inv _ _ _ _ _ E1) as (s' & l' & k' & _ & _ & _ & _ & _ & H10 & H11).
  rewrite ppf_interior in E1, E2 by assumption.
  injection E1 as <-. injection E2 as <-.
  pose proof (odds_le H12 H21) as Ho.
  assert (Hm : k * (q1 / (1 - q1)) <= k * (q2 / (1 - q2))).
  { apply Qmult_le_l; assumption. }
  lra.
Qed.

Lemma lib_ppf_median : ppf_median lib.
Proof.
  intros views s k _ Hs Hk. change (lognorm_ppf lib) with ppf.
  exists (0 + k * ((1 # 2) / (1 - (1 # 2)))). unfold f0.
  rewrite ppf_interior by lra. split; [reflexivity|]. field.
Qed.

Lemma bounds_spec (views : list pyfloat) :
  Forall finite_positive views ->
  forall lo hi, 0 < lo -> lo <= hi ->
  exists l h, bounds lo hi views = Some (l, h) /\ 0 < l /\ l <= lo /\ hi <= h /\
              forall a, In (Fin a) views -> l <= a /\ a <= h.
Proof.
  induction 1 as [|v rest (q & -> & Hq) _ IH]; intros lo hi Hlo Hlh.
  - exists lo, hi. simpl. repeat split; try lra; contradiction.
  - simpl.
    set (lo' := if Qle_bool lo q then lo else q).
    set (hi' := if Qle_bool q hi then hi else q).
    assert (Hlo' : 0 < lo' /\ lo' <= lo /\ lo' <= q).
    { unfold lo'. destruct (Qle_bool lo q) eqn:E.
      - apply Qle_bool_iff in E. repeat split; lra.
      - apply Qle_bool_false in E. repeat split; lra. }
    assert (Hhi' : hi <= hi' /\ q <= hi').
    { unfold hi'. destruct (Qle_bool q hi) eqn:E.
      - apply Qle_bool_iff in E. split; lra.
      - apply Qle_bool_false in E. split; lra. }
    destruct (IH lo' hi') as (l & h & E & Hl & Hl' & Hh' & Hin); [lra | lra |].
    exists l, h. rewrite E. repeat split; try lra.
    + destruct H as [H|H]; [injection H as <-; lra | apply Hin, H].
    + destruct H as [H|H]; [injection H as <-; lra | apply Hin, H].
Qed.

Lemma lib_fit_positive_spread : fit_positive_spread lib.
Proof.
  intros views Hpos (a & b & Ia & Ib & Hab). change (lognorm_fit lib) with fit.
  destruct Hpos as [|v rest (q & -> & Hq) Hrest]; [contradiction|].
  unfold fit.
  destruct (bounds_spec Hrest Hq (Qle_refl q)) as (l & h & E & Hl & Hlq & Hqh & Hin).
  rewrite E. rewrite (proj2 (Qle_bool_false l 0) Hl).
  assert (Hall : forall x, In (Fin x) (Fin q :: rest) -> l <= x /\ x <= h).
  { intros x [H|H]; [injection H as <-; lra | apply Hin, H]. }
  pose proof (Hall a Ia) as Ha. pose proof (Hall b Ib) as Hb.
  exists ((h - l) / (h + l)), ((l + h) / (2 # 1)).
  split; [reflexivity|]. split.
  - apply Qlt_shift_div_l; lra.
  - apply Qlt_shift_div_l; [reflexivity | lra].
Qed.

End SurrogateFacts.

(** ** Running the estimator *)

Section Runs.

Variable stats : stats_lib.

Local Open Scope string_scope.

Lemma np_array_float_id (views : list pyfloat) : np_array_float views = views.
Proof. unfold np_array_float. apply map_id. Qed.

Lemma no_view_le_0 (views : list pyfloat) :
  Forall positive views -> np_any_le_0 views = false.
Proof.
  induction 1 as [|v rest Hv _ IH]; [reflexivity|].
  simpl. rewrite (positive_not_le_0 Hv). exact IH.
Qed.

Lemma some_view_le_0 (views : list pyfloat) :
  Exists (fun v => fle v f0 = true) views -> np_any_le_0 views = true.
Proof.
  intros H. apply existsb_exists. apply Exists_exists in H. exact H.
Qed.

Lemma py_not_nonempty (views : list pyfloat) : views <> [] -> py_not views = false.
Proof. destruct views; [congruence | reflexivity]. Qed.

(** Once the validation is passed, the call is the fit followed by the
    quantiles. *)
Lemma run_checked (views : list pyfloat) (c : pyfloat) (t : string) (tr : list call) :
  py_not views = false -> np_any_le_0 views = false ->
  _predict_next_video_views stats views c t tr = after_validation stats views c t tr.
Proof.
  intros Hne Hpos. unfold _predict_next_video_views, after_validation.
  rewrite Hne, np_array_float_id, Hpos.
  unfold bind, stats_lognorm_fit, stats_lognorm_ppf, py_truediv, ret.
  destruct (lognorm_fit stats views f0) as [e|[[shape loc] scale]];
    [reflexivity|].
  destruct (String.eqb t "lower"); [rewrite <- app_assoc; reflexivity|].
  destruct (String.eqb t "upper"); [rewrite <- app_assoc; reflexivity|].
  destruct (String.eqb t "two-sided"); [|reflexivity].
  change (is_zero f2) with false. cbv beta iota.
  rewrite <- !app_assoc. reflexivity.
Qed.

Lemma run_valid (views : list pyfloat) (c : pyfloat) (t : string) (tr : list call) :
  views <> [] -> Forall positive views ->
  _predict_next_video_views stats views c t tr = after_validation stats views c t tr.
Proof.
  intros Hne Hpos. apply run_checked;
    [exact (py_not_nonempty Hne) | exact (no_view_le_0 Hpos)].
Qed.

End Runs.

(** ** The estimator on objects *)

Section ObjectRuns.

Local Open Scope string_scope.

Lemma unchanged_length (s s' : Objects.store) :
  Objects.unchanged s s' -> (List.length s <= List.length s')%nat.
Proof.
  intros H. destruct (Nat.le_gt_cases (List.length s) (List.length s')) as [L|L];
    [exact L|].
  exfalso. destruct s as [|x s0] using rev_ind; [simpl in L; lia|].
  rewrite length_app in L. simpl in L.
  assert (B : (List.length s' < List.length (s0 ++ [x]))%nat)
    by (rewrite length_app; simpl; lia).
  pose proof (H _ B) as E.
  rewrite (proj2 (nth_error_None s' (List.length s'))) in E by lia.
  symmetry in E. apply nth_error_None in E. lia.
Qed.

Lemma unchanged_refl (s : Objects.store) : Objects.unchanged s s.
Proof. intros b _. reflexivity. Qed.

Lemma unchanged_trans (s s' s'' : Objects.store) :
  Objects.unchanged s s' -> Objects.unchanged s' s'' -> Objects.unchanged s s''.
Proof.
  intros H1 H2 b Hb. rewrite H2, H1; [reflexivity | exact Hb |].
  pose proof (unchanged_length H1). lia.
Qed.

Lemma unchanged_new (s : Objects.store) (v : list pyfloat) :
  Objects.unchanged s (s ++ [v])%list.
Proof. intros b Hb. apply nth_error_app1. exact Hb. Qed.

Lemma contents_new (s : Objects.store) (v : list pyfloat) :
  Objects.contents (s ++ [v])%list (List.length s) = v.
Proof.
  unfold Objects.contents. rewrite app_nth2 by lia.
  rewrite Nat.sub_diag. reflexivity.
Qed.

(** What is written to a new object leaves the objects before it alone. *)
Lemma unchanged_after_new (s s' : Objects.store) (v : list pyfloat) :
  Objects.unchanged_except (List.length s) (s ++ [v])%list s' ->
  Objects.unchanged s s'.
Proof.
  intros H b Hb. rewrite H.
  - apply nth_error_app1. exact Hb.
  - rewrite length_app. simpl. lia.
  - lia.
Qed.

Lemma unchanged_contents (s s' : Objects.store) (a : Objects.addr) :
  Objects.unchanged s s' -> (a < List.length s)%nat -> Objects.contents s' a = Objects.contents s a.
Proof.
  intros H Ha. unfold Objects.contents.
  pose proof (H a Ha) as E.
  destruct (nth_error s a) as [v|] eqn:E1.
  - rewrite (nth_error_nth _ _ _ E), (nth_error_nth _ _ _ E1). reflexivity.
  - apply nth_error_None in E1. lia.
Qed.

Lemma overwrite_other (s : Objects.store) :
  forall a b v, b <> a -> nth_error (Objects.overwrite s a v) b = nth_error s b.
Proof.
  induction s as [|x s IH]; intros [|a] [|b] v H; simpl; try reflexivity.
  - congruence.
  - apply IH. congruence.
Qed.

Lemma scribbling_acts_as (stats : stats_lib) : Objects.acts_as (Objects.scribbling stats) stats.
Proof.
  split.
  - intros s a floc. split; [reflexivity|].
    intros b _ Hb. simpl. apply overwrite_other. exact Hb.
  - intros s q shape loc scale. split; [reflexivity | apply unchanged_refl].
Qed.

(** A call on objects returns what the function returns on the Objects.contents of
    the list, and leaves every object that existed as it was. *)
Lemma object_run (L : Objects.stats_on_objects) (stats : stats_lib)
  (s : Objects.store) (historical_views : Objects.addr) (c : pyfloat) (t : string) :
  Objects.acts_as L stats ->
  (forall tr,
      fst (Objects._predict_next_video_views L historical_views c t s)
      = value_of (_predict_next_video_views stats
                    (Objects.contents s historical_views) c t tr)) /\
  Objects.unchanged s (snd (Objects._predict_next_video_views L historical_views c t s)).
Proof.
  intros [Hfit Hppf].
  unfold Objects._predict_next_video_views, Objects.obind, Objects.read,
    Objects.np_array, Objects.oraise, Objects.alloc.
  cbv beta iota.
  destruct (py_not (Objects.contents s historical_views)) eqn:Hne.
  { split; [|apply unchanged_refl]. intros tr.
    unfold _predict_next_video_views. rewrite Hne. reflexivity. }
  cbv beta iota. revert Hne.
  generalize (Objects.contents s historical_views). intros elements Hne.
  pose proof (contents_new s (np_array_float elements)) as Hc.
  pose proof (@unchanged_after_new s) as Hframe.
  specialize (Hframe) with (v := np_array_float elements).
  pose proof (unchanged_new s (np_array_float elements)) as Hs1.
  revert Hc Hframe Hs1.
  generalize (s ++ [np_array_float elements])%list. intros s1.
  generalize (List.length s). intros views Hc Hframe Hs1.
  rewrite Hc, np_array_float_id.
  destruct (np_any_le_0 elements) eqn:Hpos.
  { split; [|exact Hs1]. intros tr.
    unfold _predict_next_video_views. rewrite Hne, np_array_float_id, Hpos.
    reflexivity. }
  cbv beta iota.
  assert (Hrun : forall tr,
    value_of (_predict_next_video_views stats elements c t tr)
    = fst (after_validation stats elements c t tr)).
  { intros tr. rewrite (@run_checked stats elements c t tr Hne Hpos). reflexivity. }
  unfold Objects.stats_lognorm_fit, Objects.stats_lognorm_ppf,
    Objects.py_truediv, Objects.oret, Objects.obind.
  destruct (Hfit s1 views f0) as [Ev Hs2].
  rewrite Hc, np_array_float_id in Ev.
  destruct (Objects.fit_object L s1 views f0) as [r s2]. cbn [fst snd] in Ev, Hs2.
  subst r. apply Hframe in Hs2.
  unfold after_validation in Hrun.
  destruct (lognorm_fit stats elements f0) as [e|[[shape loc] scale]].
  { split; [intros tr; rewrite Hrun; reflexivity | exact Hs2]. }
  destruct (String.eqb t "lower").
  { destruct (Hppf s2 (fsub f1 c) shape loc scale) as [Ev Hs3].
    destruct (Objects.ppf_object L s2 (fsub f1 c) shape loc scale) as [v s3].
    cbn [fst snd] in Ev, Hs3. subst v.
    split; [intros tr; rewrite Hrun; reflexivity|].
    exact (unchanged_trans Hs2 Hs3). }
  destruct (String.eqb t "upper").
  { destruct (Hppf s2 c shape loc scale) as [Ev Hs3].
    destruct (Objects.ppf_object L s2 c shape loc scale) as [v s3].
    cbn [fst snd] in Ev, Hs3. subst v.
    split; [intros tr; rewrite Hrun; reflexivity|].
    exact (unchanged_trans Hs2 Hs3). }
  destruct (String.eqb t "two-sided").
  { change (is_zero f2) with false. cbv beta iota.
    destruct (Hppf s2 (fdiv (fsub f1 c) f2) shape loc scale) as [Ev Hs3].
    destruct (Objects.ppf_object L s2 (fdiv (fsub f1 c) f2) shape loc scale) as [v s3].
    cbn [fst snd] in Ev, Hs3. subst v.
    destruct (Hppf s3 (fsub f1 (fdiv (fsub f1 c) f2)) shape loc scale)
      as [Ev Hs4].
    destruct (Objects.ppf_object L s3 (fsub f1 (fdiv (fsub f1 c) f2)) shape loc scale)
      as [v s4].
    cbn [fst snd] in Ev, Hs4. subst v.
    split; [intros tr; rewrite Hrun; reflexivity|].
    exact (unchanged_trans Hs2 (unchanged_trans Hs3 Hs4)). }
  split; [intros tr; rewrite Hrun; reflexivity | exact Hs2].
Qed.

End ObjectRuns.

(** ** Facts about the concrete inputs *)

Section Inputs.

Local Open Scope Q_scope.

Lemma views_doubling_nonempty : views_doubling <> [].
Proof. discriminate. Qed.

Lemma views_doubling_finite_positive : Forall finite_positive views_doubling.
Proof.
  unfold views_doubling.
  repeat (constructor; [eexists; split; [reflexivity | reflexivity] |]).
  constructor.
Qed.

Lemma views_doubling_positive : Forall positive views_doubling.
Proof. unfold views_doubling. repeat (constructor; [reflexivity|]). constructor. Qed.

Lemma views_doubling_has_spread : has_spread views_doubling.
Proof.
  exists 500, 1000. unfold views_doubling. simpl.
  split; [auto | split; [auto | reflexivity]].
Qed.

Lemma c_090_in_unit_interval : in_unit_interval c_090.
Proof. split; reflexivity. Qed.

Lemma c_080_in_unit_interval : in_unit_interval c_080.
Proof. split; reflexivity. Qed.

Lemma c_tiny1_in_unit_interval : in_unit_interval c_tiny1.
Proof. split; reflexivity. Qed.

Lemma c_tiny2_in_unit_interval : in_unit_interval c_tiny2.
Proof. split; reflexivity. Qed.

(** The literals are binary64 values: rounding leaves them as they are. *)
Lemma literals_are_floats :
  Float64.round (9 # 10) = c_090 /\ Float64.round (8 # 10) = c_080 /\
  Float64.round (Float64.pow2 (-100)) = c_tiny1 /\
  Float64.round (Float64.pow2 (-99)) = c_tiny2.
Proof. repeat split; vm_compute; reflexivity. Qed.

(** The model's rounding agrees with the machine's binary64 arithmetic on
    the operations of the scenarios. *)
Lemma model_agrees_with_binary64 :
  alpha_of c_090 = Float64.of_prim (1 - 0x1.ccccccccccccdp-1)%float /\
  tail_prob c_090 = Float64.of_prim ((1 - 0x1.ccccccccccccdp-1) / 2)%float /\
  head_prob c_090 =
    Float64.of_prim (1 - (1 - 0x1.ccccccccccccdp-1) / 2)%float /\
  alpha_of c_tiny1 = Float64.of_prim (1 - 0x1p-100)%float /\
  alpha_of c_tiny2 = Float64.of_prim (1 - 0x1p-99)%float.
Proof. repeat split; vm_compute; reflexivity. Qed.

Lemma alpha_of_tiny : alpha_of c_tiny1 = f1 /\ alpha_of c_tiny2 = f1.
Proof. split; vm_compute; reflexivity. Qed.

(** A series with an infinite element passes the validation: with every
    library the call reaches the fit, and ends as the fit does. *)
Remark non_finite_series_reaches_the_fit
  (stats : stats_lib) (c : pyfloat) (t : string) (tr : list call) :
  Forall positive views_unbounded /\
  _predict_next_video_views stats views_unbounded c t tr
  = after_validation stats views_unbounded c t tr.
Proof.
  split; [repeat constructor|].
  apply run_checked; reflexivity.
Qed.

End Inputs.

(** ** The properties of the estimator *)

Section Claims.

Local Open Scope string_scope.

(** C1. For a non-empty series of strictly positive numbers and a
    confidence level in (0,1), the two-sided estimate fits the log-normal
    with the location fixed at 0 (one call to the fitting routine with
    [floc = 0]), sets [alpha = 1 - c], and returns the quantiles of the
    fitted distribution at [alpha/2] and at [1 - alpha/2].  When the
    fitting routine raises, as SciPy's does for a series with an infinite
    element, the call ends with that exception and no quantile is
    computed. *)
Theorem two_sided_returns_central_quantiles
  (stats : stats_lib) (views : list pyfloat) (c : pyfloat) (tr : list call) :
  views <> [] -> Forall positive views -> in_unit_interval c ->
  match lognorm_fit stats views f0 with
  | inr (shape, loc, scale) =>
      let alpha := fsub f1 c in
      let lower_q := lognorm_ppf stats (fdiv alpha f2) shape loc scale in
      let upper_q :=
        lognorm_ppf stats (fsub f1 (fdiv alpha f2)) shape loc scale in
      _predict_next_video_views stats views c "two-sided" tr =
        (inr (Some (lower_q, upper_q)),
         (tr ++ [CallFit views f0;
                 CallPpf (fdiv alpha f2) shape loc scale;
                 CallPpf (fsub f1 (fdiv alpha f2)) shape loc scale])%list)
  | inl e =>
      _predict_next_video_views stats views c "two-sided" tr =
        (inl e, (tr ++ [CallFit views f0])%list)
  end.
Proof.
  intros Hne Hpos _. rewrite (run_valid stats c "two-sided" tr Hne Hpos).
  unfold after_validation.
  destruct (lognorm_fit stats views f0) as [e|[[shape loc] scale]]; reflexivity.
Qed.

Lemma two_sided_returns_central_quantiles_witness :
  views_doubling <> [] /\ Forall positive views_doubling /\
  in_unit_interval c_090 /\
  match lognorm_fit Surrogate.lib views_doubling f0 with
  | inr (shape, loc, scale) =>
      let alpha := fsub f1 c_090 in
      let lower_q := lognorm_ppf Surrogate.lib (fdiv alpha f2) shape loc scale in
      let upper_q :=
        lognorm_ppf Surrogate.lib (fsub f1 (fdiv alpha f2)) shape loc scale in
      _predict_next_video_views Surrogate.lib views_doubling c_090 "two-sided" [] =
        (inr (Some (lower_q, upper_q)),
         ([] ++ [CallFit views_doubling f0;
                 CallPpf (fdiv alpha f2) shape loc scale;
                 CallPpf (fsub f1 (fdiv alpha f2)) shape loc scale])%list)
  | inl e =>
      _predict_next_video_views Surrogate.lib views_doubling c_090 "two-sided" [] =
        (inl e, ([] ++ [CallFit views_doubling f0])%list)
  end.
Proof.
  split; [exact views_doubling_nonempty|].
  split; [exact views_doubling_positive|].
  split; [exact c_090_in_unit_interval|].
  exact (@two_sided_returns_central_quantiles Surrogate.lib views_doubling
           c_090 [] views_doubling_nonempty views_doubling_positive
           c_090_in_unit_interval).
Defined.

(** C2. With an empty series, or a series that holds an element [<= 0],
    the call fails with [ValueError] (the spec's InvalidInputError); the
    exception is raised before the fitting routine or the quantile function
    has been called, and no interval is returned. *)
Theorem invalid_series_is_rejected_before_any_call
  (stats : stats_lib) (views : list pyfloat) (c : pyfloat) (t : string)
  (tr : list call) :
  views = [] \/ Exists (fun v => fle v f0 = true) views ->
  exists msg,
    _predict_next_video_views stats views c t tr = (inl (ValueError msg), tr).
Proof.
  intros [-> | Hex].
  - eexists. reflexivity.
  - unfold _predict_next_video_views.
    destruct (py_not views); [eexists; reflexivity|].
    rewrite np_array_float_id, (some_view_le_0 Hex). eexists. reflexivity.
Qed.

Lemma invalid_series_is_rejected_before_any_call_witness :
  ([Fin 1000; Fin 0] = [] \/
   Exists (fun v => fle v f0 = true) [Fin 1000; Fin 0]) /\
  exists msg,
    _predict_next_video_views Surrogate.lib [Fin 1000; Fin 0] c_090
      "two-sided" [] = (inl (ValueError msg), []).
Proof.
  assert (H : [Fin 1000; Fin 0] = [] \/
              Exists (fun v => fle v f0 = true) [Fin 1000; Fin 0]).
  { right. apply Exists_cons_tl. apply Exists_cons_hd. reflexivity. }
  split; [exact H|].
  exact (@invalid_series_is_rejected_before_any_call Surrogate.lib
           [Fin 1000; Fin 0] c_090 "two-sided" [] H).
Defined.

Lemma known_interval_type_cases (t : string) :
  known_interval_type t = true ->
  t = "lower" \/ t = "upper" \/ t = "two-sided".
Proof.
  unfold known_interval_type. intros H.
  apply orb_true_iff in H. destruct H as [H|H].
  - apply orb_true_iff in H. destruct H as [H|H]; apply String.eqb_eq in H; auto.
  - apply String.eqb_eq in H. auto.
Qed.

(** C3. For a non-empty series of strictly positive numbers, a confidence
    level in (0,1) and each of the three interval types, the estimate is a
    pair whose lower bound is at most its upper bound whenever both are
    finite; when the fitting routine raises, the call ends with its
    exception.  The quantile function is taken to be non-decreasing. *)
Theorem finite_bounds_are_ordered
  (stats : stats_lib) (views : list pyfloat) (c : pyfloat) (t : string)
  (tr : list call) :
  ppf_nondecreasing stats ->
  views <> [] -> Forall positive views -> in_unit_interval c ->
  known_interval_type t = true ->
  match lognorm_fit stats views f0 with
  | inr _ =>
      exists lo hi,
        value_of (_predict_next_video_views stats views c t tr)
        = inr (Some (lo, hi)) /\
        (is_finite lo = true -> is_finite hi = true -> fle lo hi = true)
  | inl e =>
      value_of (_predict_next_video_views stats views c t tr) = inl e
  end.
Proof.
  intros Hmono Hne Hpos Hc Ht. rewrite (run_valid stats c t tr Hne Hpos).
  unfold after_validation.
  destruct (lognorm_fit stats views f0) as [e|[[shape loc] scale]];
    [reflexivity|].
  destruct (known_interval_type_cases _ Ht) as [-> | [-> | ->]]; cbn [String.eqb Ascii.eqb Bool.eqb].
  - eexists _, PInf. split; [reflexivity|]. discriminate.
  - eexists NInf, _. split; [reflexivity|]. discriminate.
  - eexists _, _. split; [reflexivity|].
    destruct (probabilities_in_range Hc)
      as (a & q1 & q2 & _ & -> & -> & _ & [_ Hq1] & [Hq2 _]).
    destruct (lognorm_ppf stats (Fin q1) shape loc scale) as [lo| | |] eqn:Elo;
      try discriminate.
    destruct (lognorm_ppf stats (Fin q2) shape loc scale) as [hi| | |] eqn:Ehi;
      try discriminate.
    intros _ _. apply Float64Facts.fle_Fin.
    apply (Hmono shape loc scale q1 q2 lo hi); [|exact Elo|exact Ehi].
    eapply Qle_trans; eassumption.
Qed.

Lemma finite_bounds_are_ordered_witness :
  ppf_nondecreasing Surrogate.lib /\
  views_doubling <> [] /\ Forall positive views_doubling /\
  in_unit_interval c_090 /\ known_interval_type "two-sided" = true /\
  match lognorm_fit Surrogate.lib views_doubling f0 with
  | inr _ =>
      exists lo hi,
        value_of (_predict_next_video_views Surrogate.lib views_doubling c_090
                    "two-sided" []) = inr (Some (lo, hi)) /\
        (is_finite lo = true -> is_finite hi = true -> fle lo hi = true)
  | inl e =>
      value_of (_predict_next_video_views Surrogate.lib views_doubling c_090
                  "two-sided" []) = inl e
  end.
Proof.
  split; [exact SurrogateFacts.lib_ppf_nondecreasing|].
  split; [exact views_doubling_nonempty|].
  split; [exact views_doubling_positive|].
  split; [exact c_090_in_unit_interval|].
  split; [reflexivity|].
  exact (@finite_bounds_are_ordered Surrogate.lib views_doubling c_090
           "two-sided" [] SurrogateFacts.lib_ppf_nondecreasing
           views_doubling_nonempty views_doubling_positive
           c_090_in_unit_interval eq_refl).
Defined.

(** C4. For a valid series and any confidence level, the "lower" estimate
    is (quantile at alpha, +inf) and the "upper" estimate is
    (-inf, quantile at the confidence level); when the fitting routine
    raises, both calls end with its exception. *)
Theorem one_sided_intervals_are_unbounded
  (stats : stats_lib) (views : list pyfloat) (c : pyfloat) (tr : list call) :
  views <> [] -> Forall positive views ->
  match lognorm_fit stats views f0 with
  | inr (shape, loc, scale) =>
      let alpha := fsub f1 c in
      _predict_next_video_views stats views c "lower" tr =
        (inr (Some (lognorm_ppf stats alpha shape loc scale, PInf)),
         (tr ++ [CallFit views f0; CallPpf alpha shape loc scale])%list) /\
      _predict_next_video_views stats views c "upper" tr =
        (inr (Some (NInf, lognorm_ppf stats c shape loc scale)),
         (tr ++ [CallFit views f0; CallPpf c shape loc scale])%list)
  | inl e =>
      _predict_next_video_views stats views c "lower" tr =
        (inl e, (tr ++ [CallFit views f0])%list) /\
      _predict_next_video_views stats views c "upper" tr =
        (inl e, (tr ++ [CallFit views f0])%list)
  end.
Proof.
  intros Hne Hpos. rewrite !(run_valid stats c _ tr Hne Hpos).
  unfold after_validation.
  destruct (lognorm_fit stats views f0) as [e|[[shape loc] scale]];
    split; reflexivity.
Qed.

Lemma one_sided_intervals_are_unbounded_witness :
  views_doubling <> [] /\ Forall positive views_doubling /\
  match lognorm_fit Surrogate.lib views_doubling f0 with
  | inr (shape, loc, scale) =>
      let alpha := fsub f1 c_090 in
      _predict_next_video_views Surrogate.lib views_doubling c_090 "lower" [] =
        (inr (Some (lognorm_ppf Surrogate.lib alpha shape loc scale, PInf)),
         ([] ++ [CallFit views_doubling f0; CallPpf alpha shape loc scale])%list) /\
      _predict_next_video_views Surrogate.lib views_doubling c_090 "upper" [] =
        (inr (Some (NInf, lognorm_ppf Surrogate.lib c_090 shape loc scale)),
         ([] ++ [CallFit views_doubling f0; CallPpf c_090 shape loc scale])%list)
  | inl e =>
      _predict_next_video_views Surrogate.lib views_doubling c_090 "lower" [] =
        (inl e, ([] ++ [CallFit views_doubling f0])%list) /\
      _predict_next_video_views Surrogate.lib views_doubling c_090 "upper" [] =
        (inl e, ([] ++ [CallFit views_doubling f0])%list)
  end.
Proof.
  split; [exact views_doubling_nonempty|].
  split; [exact views_doubling_positive|].
  exact (@one_sided_intervals_are_unbounded Surrogate.lib views_doubling
           c_090 [] views_doubling_nonempty views_doubling_positive).
Defined.

(** In two-sided mode the confidence level is used only through
    [1.0 - confidence_level]. *)
Lemma two_sided_depends_on_alpha
  (stats : stats_lib) (views : list pyfloat) (c c' : pyfloat) (tr : list call) :
  fsub f1 c = fsub f1 c' ->
  _predict_next_video_views stats views c "two-sided" tr =
  _predict_next_video_views stats views c' "two-sided" tr.
Proof.
  intros E. unfold _predict_next_video_views.
  cbn [String.eqb Ascii.eqb Bool.eqb]. rewrite E. reflexivity.
Qed.

(** C5, as stated, fails: [2^-100 < 2^-99] are confidence levels in (0,1),
    and [1.0 - c] rounds to [1.0] for both, so for every series and every
    library the two-sided intervals are the same interval, which is not
    strictly wider than itself. *)
Lemma absorbed_levels_give_the_same_interval :
  in_unit_interval c_tiny1 /\ in_unit_interval c_tiny2 /\
  flt c_tiny1 c_tiny2 = true /\
  Forall finite_positive views_doubling /\ has_spread views_doubling /\
  forall (stats : stats_lib) (tr : list call),
    _predict_next_video_views stats views_doubling c_tiny1 "two-sided" tr =
    _predict_next_video_views stats views_doubling c_tiny2 "two-sided" tr.
Proof.
  split; [exact c_tiny1_in_unit_interval|].
  split; [exact c_tiny2_in_unit_interval|].
  split; [reflexivity|].
  split; [exact views_doubling_finite_positive|].
  split; [exact views_doubling_has_spread|].
  intros stats tr. apply two_sided_depends_on_alpha.
  destruct alpha_of_tiny as [E1 E2]. unfold alpha_of in E1, E2.
  rewrite E1, E2. reflexivity.
Qed.

(** C5, amended. For a fixed non-empty positive series in two-sided mode
    and confidence levels [c1 < c2] in (0,1), with a non-decreasing
    quantile function: when the fit returns, both calls return a pair, and
    the interval for [c2] contains the interval for [c1] wherever the
    bounds are finite; it is not always strictly wider, since the two
    intervals are the same whenever the tail probabilities [alpha/2] of
    the two levels are the same float.  When the fit raises, both calls
    end with its exception. *)
Theorem higher_level_contains_interval
  (stats : stats_lib) (views : list pyfloat) (c1 c2 : pyfloat)
  (tr1 tr2 : list call) :
  ppf_nondecreasing stats ->
  views <> [] -> Forall positive views ->
  in_unit_interval c1 -> in_unit_interval c2 -> flt c1 c2 = true ->
  match lognorm_fit stats views f0 with
  | inr _ =>
      exists lo1 hi1 lo2 hi2,
        value_of (_predict_next_video_views stats views c1 "two-sided" tr1)
          = inr (Some (lo1, hi1)) /\
        value_of (_predict_next_video_views stats views c2 "two-sided" tr2)
          = inr (Some (lo2, hi2)) /\
        (is_finite lo1 = true -> is_finite lo2 = true -> fle lo2 lo1 = true) /\
        (is_finite hi1 = true -> is_finite hi2 = true -> fle hi1 hi2 = true) /\
        (tail_prob c1 = tail_prob c2 -> lo1 = lo2 /\ hi1 = hi2)
  | inl e =>
      value_of (_predict_next_video_views stats views c1 "two-sided" tr1)
        = inl e /\
      value_of (_predict_next_video_views stats views c2 "two-sided" tr2)
        = inl e
  end.
Proof.
  intros Hmono Hne Hpos Hc1 Hc2 Hlt.
  rewrite !(run_valid stats _ "two-sided" _ Hne Hpos).
  unfold after_validation.
  destruct (lognorm_fit stats views f0) as [e|[[shape loc] scale]];
    [split; reflexivity|].
  destruct (probabilities_monotone Hc1 Hc2 Hlt) as [Ht Hh].
  cbn [String.eqb Ascii.eqb Bool.eqb value_of fst].
  eexists _, _, _, _. split; [reflexivity|]. split; [reflexivity|].
  split; [|split].
  - destruct (probabilities_in_range Hc1) as (a1 & t1 & h1 & _ & Et1 & _).
    destruct (probabilities_in_range Hc2) as (a2 & t2 & h2 & _ & Et2 & _).
    rewrite Et1, Et2 in *. apply Float64Facts.fle_Fin in Ht.
    destruct (lognorm_ppf stats (Fin t1) shape loc scale) as [lo1| | |] eqn:E1;
      try discriminate.
    destruct (lognorm_ppf stats (Fin t2) shape loc scale) as [lo2| | |] eqn:E2;
      try discriminate.
    intros _ _. apply Float64Facts.fle_Fin.
    exact (Hmono shape loc scale t2 t1 lo2 lo1 Ht E2 E1).
  - destruct (probabilities_in_range Hc1) as (a1 & t1 & h1 & _ & _ & Eh1 & _).
    destruct (probabilities_in_range Hc2) as (a2 & t2 & h2 & _ & _ & Eh2 & _).
    rewrite Eh1, Eh2 in *. apply Float64Facts.fle_Fin in Hh.
    destruct (lognorm_ppf stats (Fin h1) shape loc scale) as [hi1| | |] eqn:E1;
      try discriminate.
    destruct (lognorm_ppf stats (Fin h2) shape loc scale) as [hi2| | |] eqn:E2;
      try discriminate.
    intros _ _. apply Float64Facts.fle_Fin.
    exact (Hmono shape loc scale h1 h2 hi1 hi2 Hh E1 E2).
  - intros E. unfold head_prob. rewrite E. split; reflexivity.
Qed.

Lemma higher_level_contains_interval_witness :
  ppf_nondecreasing Surrogate.lib /\
  views_doubling <> [] /\ Forall positive views_doubling /\
  in_unit_interval c_080 /\ in_unit_interval c_090 /\
  flt c_080 c_090 = true /\
  match lognorm_fit Surrogate.lib views_doubling f0 with
  | inr _ =>
      exists lo1 hi1 lo2 hi2,
        value_of (_predict_next_video_views Surrogate.lib views_doubling c_080
                    "two-sided" []) = inr (Some (lo1, hi1)) /\
        value_of (_predict_next_video_views Surrogate.lib views_doubling c_090
                    "two-sided" []) = inr (Some (lo2, hi2)) /\
        (is_finite lo1 = true -> is_finite lo2 = true -> fle lo2 lo1 = true) /\
        (is_finite hi1 = true -> is_finite hi2 = true -> fle hi1 hi2 = true) /\
        (tail_prob c_080 = tail_prob c_090 -> lo1 = lo2 /\ hi1 = hi2)
  | inl e =>
      value_of (_predict_next_video_views Surrogate.lib views_doubling c_080
                  "two-sided" []) = inl e /\
      value_of (_predict_next_video_views Surrogate.lib views_doubling c_090
                  "two-sided" []) = inl e
  end.
Proof.
  split; [exact SurrogateFacts.lib_ppf_nondecreasing|].
  split; [exact views_doubling_nonempty|].
  split; [exact views_doubling_positive|].
  split; [exact c_080_in_unit_interval|].
  split; [exact c_090_in_unit_interval|].
  split; [reflexivity|].
  exact (@higher_level_contains_interval Surrogate.lib views_doubling
           c_080 c_090 [] [] SurrogateFacts.lib_ppf_nondecreasing
           views_doubling_nonempty views_doubling_positive
           c_080_in_unit_interval c_090_in_unit_interval eq_refl).
Defined.

(** C6, as stated, fails: with confidence level 0.0 (outside (0,1)) in
    two-sided mode, [alpha/2] and [1 - alpha/2] are both 0.5, so both
    bounds are the quantile at 0.5.  For every library whose quantile at
    0.5 is the scale and whose fit of the series is positive, both bounds
    are that finite median: neither is infinite or NaN. *)
Lemma level_zero_gives_the_finite_median :
  ~ in_unit_interval f0 /\
  (forall (stats : stats_lib) (tr : list call),
      ppf_median stats -> fit_positive_spread stats ->
      exists s k m,
        lognorm_fit stats views_doubling f0 = inr (Fin s, f0, Fin k) /\
        value_of (_predict_next_video_views stats views_doubling f0
                    "two-sided" tr) = inr (Some (Fin m, Fin m)) /\
        (m == k)%Q) /\
  value_of (_predict_next_video_views Surrogate.lib views_doubling f0
              "two-sided" []) = inr (Some (Fin (17000 # 4), Fin (17000 # 4))).
Proof.
  split; [intros [H _]; discriminate H|].
  split; [|vm_compute; reflexivity].
  intros stats tr Hmed Hfit.
  destruct (Hfit views_doubling views_doubling_finite_positive
              views_doubling_has_spread) as (s & k & E & Hs & Hk).
  rewrite (run_valid stats f0 "two-sided" tr views_doubling_nonempty
             views_doubling_positive).
  unfold after_validation. rewrite E.
  cbn [String.eqb Ascii.eqb Bool.eqb value_of fst].
  change (tail_prob f0) with (Fin (1 # 2)).
  change (head_prob f0) with (Fin (1 # 2)).
  destruct (Hmed views_doubling s k E Hs Hk) as (m & -> & Hm).
  exists s, k, m. split; [reflexivity|]. split; [reflexivity | exact Hm].
Qed.

(** C6, amended. The confidence level is not validated: for a valid
    positive series, whether the call raises does not depend on the
    confidence level.  When the fit returns, every float confidence level
    (0.0, 1.0, out of range, infinite, NaN) is accepted without an
    exception and reaches the quantile function; in two-sided mode the
    bounds are the quantiles at [alpha/2] and [1 - alpha/2]: for the level
    1.0 the quantiles at 0 and at 1, for the level 0.0 twice the quantile
    at 0.5.  When the fit raises, the call ends with its exception for
    every confidence level. *)
Theorem confidence_level_is_not_validated
  (stats : stats_lib) (views : list pyfloat) (c : pyfloat) (t : string)
  (tr : list call) :
  views <> [] -> Forall positive views ->
  match lognorm_fit stats views f0 with
  | inr (shape, loc, scale) =>
      let q p := lognorm_ppf stats p shape loc scale in
      (known_interval_type t = true ->
       exists lo hi,
         value_of (_predict_next_video_views stats views c t tr)
           = inr (Some (lo, hi))) /\
      value_of (_predict_next_video_views stats views c "two-sided" tr)
        = inr (Some (q (tail_prob c), q (head_prob c))) /\
      value_of (_predict_next_video_views stats views f1 "two-sided" tr)
        = inr (Some (q (Fin 0), q (Fin 1))) /\
      value_of (_predict_next_video_views stats views f0 "two-sided" tr)
        = inr (Some (q (Fin (1 # 2)), q (Fin (1 # 2))))
  | inl e =>
      value_of (_predict_next_video_views stats views c t tr) = inl e
  end.
Proof.
  intros Hne Hpos. rewrite !(run_valid stats _ _ tr Hne Hpos).
  unfold after_validation.
  destruct (lognorm_fit stats views f0) as [e|[[shape loc] scale]];
    [reflexivity|].
  split; [|repeat split].
  intros Ht.
  destruct (known_interval_type_cases _ Ht) as [-> | [-> | ->]];
    cbn [String.eqb Ascii.eqb Bool.eqb]; eexists _, _; reflexivity.
Qed.

Lemma confidence_level_is_not_validated_witness :
  views_doubling <> [] /\ Forall positive views_doubling /\
  match lognorm_fit Surrogate.lib views_doubling f0 with
  | inr (shape, loc, scale) =>
      let q p := lognorm_ppf Surrogate.lib p shape loc scale in
      (known_interval_type "two-sided" = true ->
       exists lo hi,
         value_of (_predict_next_video_views Surrogate.lib views_doubling
                     (Fin 2) "two-sided" []) = inr (Some (lo, hi))) /\
      value_of (_predict_next_video_views Surrogate.lib views_doubling
                  (Fin 2) "two-sided" [])
        = inr (Some (q (tail_prob (Fin 2)), q (head_prob (Fin 2)))) /\
      value_of (_predict_next_video_views Surrogate.lib views_doubling f1
                  "two-sided" []) = inr (Some (q (Fin 0), q (Fin 1))) /\
      value_of (_predict_next_video_views Surrogate.lib views_doubling f0
                  "two-sided" []) = inr (Some (q (Fin (1 # 2)), q (Fin (1 # 2))))
  | inl e =>
      value_of (_predict_next_video_views Surrogate.lib views_doubling
                  (Fin 2) "two-sided" []) = inl e
  end.
Proof.
  split; [exact views_doubling_nonempty|].
  split; [exact views_doubling_positive|].
  exact (@confidence_level_is_not_validated Surrogate.lib views_doubling
           (Fin 2) "two-sided" [] views_doubling_nonempty
           views_doubling_positive).
Defined.

(** C7. With the series as a list object in a store of objects, and a
    library that computes from the contents of the array it is handed and
    changes no other object that exists: a call returns what the function
    on values returns for the contents of the list, the confidence level
    and the interval type, so it reads nothing else; every object that
    existed before the call, the list included, has its contents after the
    call; and a second call with the same arguments returns the same. *)
Theorem estimate_is_deterministic_and_pure
  (L : Objects.stats_on_objects) (stats : stats_lib) (s : Objects.store)
  (historical_views : Objects.addr) (c : pyfloat) (t : string) :
  Objects.acts_as L stats ->
  (historical_views < List.length s)%nat ->
  let first := Objects._predict_next_video_views L historical_views c t s in
  let second :=
    Objects._predict_next_video_views L historical_views c t (snd first) in
  (forall tr,
      fst first
      = value_of (_predict_next_video_views stats
                    (Objects.contents s historical_views) c t tr)) /\
  Objects.unchanged s (snd first) /\
  Objects.contents (snd first) historical_views
  = Objects.contents s historical_views /\
  fst second = fst first /\
  Objects.unchanged s (snd second).
Proof.
  intros HL Hin first second.
  destruct (@object_run L stats s historical_views c t HL) as [Hval Hkeep].
  destruct (@object_run L stats (snd first) historical_views c t HL)
    as [Hval' Hkeep'].
  fold first in Hval, Hkeep. fold second in Hval', Hkeep'.
  pose proof (unchanged_contents Hkeep Hin) as Hsame.
  split; [exact Hval|]. split; [exact Hkeep|]. split; [exact Hsame|].
  split.
  - rewrite (Hval' []), (Hval []), Hsame. reflexivity.
  - exact (unchanged_trans Hkeep Hkeep').
Qed.

Lemma estimate_is_deterministic_and_pure_witness :
  Objects.acts_as (Objects.scribbling Surrogate.lib) Surrogate.lib /\
  (0 < List.length [views_doubling])%nat /\
  let first :=
    Objects._predict_next_video_views (Objects.scribbling Surrogate.lib)
      0%nat c_090 "two-sided" [views_doubling] in
  let second :=
    Objects._predict_next_video_views (Objects.scribbling Surrogate.lib)
      0%nat c_090 "two-sided" (snd first) in
  (forall tr,
      fst first
      = value_of (_predict_next_video_views Surrogate.lib
                    (Objects.contents [views_doubling] 0%nat) c_090
                    "two-sided" tr)) /\
  Objects.unchanged [views_doubling] (snd first) /\
  Objects.contents (snd first) 0%nat
  = Objects.contents [views_doubling] 0%nat /\
  fst second = fst first /\
  Objects.unchanged [views_doubling] (snd second).
Proof.
  split; [exact (scribbling_acts_as Surrogate.lib)|].
  split; [simpl; lia|].
  exact (@estimate_is_deterministic_and_pure
           (Objects.scribbling Surrogate.lib) Surrogate.lib [views_doubling]
           0%nat c_090 "two-sided" (scribbling_acts_as Surrogate.lib)
           (Nat.lt_0_succ 0)).
Defined.

(** C10. For a valid series and an interval type that is none of "lower",
    "upper" and "two-sided", the call returns no pair: the fit is done
    first, and when it returns, control reaches the end of the function
    and the result is [None], with no exception; when the fit raises, the
    call ends with its exception. *)
Theorem unknown_interval_type_returns_None
  (stats : stats_lib) (views : list pyfloat) (c : pyfloat) (t : string)
  (tr : list call) :
  views <> [] -> Forall positive views -> known_interval_type t = false ->
  _predict_next_video_views stats views c t tr
  = (match lognorm_fit stats views f0 with
     | inr _ => inr None
     | inl e => inl e
     end, (tr ++ [CallFit views f0])%list).
Proof.
  intros Hne Hpos Ht. rewrite (run_valid stats c t tr Hne Hpos).
  unfold after_validation, known_interval_type in *.
  destruct (lognorm_fit stats views f0) as [e|[[shape loc] scale]];
    [reflexivity|].
  apply orb_false_iff in Ht. destruct Ht as [Ht ->].
  apply orb_false_iff in Ht. destruct Ht as [-> ->]. reflexivity.
Qed.

Lemma unknown_interval_type_returns_None_witness :
  views_doubling <> [] /\ Forall positive views_doubling /\
  known_interval_type "both" = false /\
  _predict_next_video_views Surrogate.lib views_doubling c_090 "both" []
  = (inr None, ([] ++ [CallFit views_doubling f0])%list).
Proof.
  split; [exact views_doubling_nonempty|].
  split; [exact views_doubling_positive|].
  split; [reflexivity|].
  exact (@unknown_interval_type_returns_None Surrogate.lib views_doubling
           c_090 "both" [] views_doubling_nonempty views_doubling_positive
           eq_refl).
Defined.

End Claims.

(** * Properties of the functions around the YouTube service *)

(** ** Facts about Python strings *)

Module PyStrFacts.

Import PyStr.
Local Open Scope string_scope.

Lemma append_nil_r (s : string) : s ++ "" = s.
Proof. induction s as [|c s IH]; simpl; [reflexivity | now rewrite IH]. Qed.

Lemma append_assoc (a b c : string) : (a ++ b) ++ c = a ++ (b ++ c).
Proof. induction a as [|x a IH]; simpl; [reflexivity | now rewrite IH]. Qed.

Lemma prefix_char (c d : ascii) (s : string) :
  String.prefix (String c "") (String d s) = Ascii.eqb c d.
Proof.
  simpl. destruct (ascii_dec c d) as [->|N].
  - rewrite Ascii.eqb_refl. now destruct s.
  - symmetry. apply Ascii.eqb_neq. exact N.
Qed.

(** Without an occurrence of the separator the string is one piece. *)
Lemma split_from_absent (sep : string) :
  forall (s cur : string),
    contains sep s = false -> split_from sep 0 cur s = [cur ++ s].
Proof.
  induction s as [|c s IH]; intros cur H.
  - simpl. now rewrite append_nil_r.
  - simpl in H. apply orb_false_iff in H. destruct H as [Hp Hc].
    cbn [split_from]. 
    assert (E : String.prefix sep (String c s) = false) by exact Hp.
    rewrite E. rewrite IH by exact Hc. now rewrite append_assoc.
Qed.

Lemma split_from_nonempty (sep : string) :
  forall (s cur : string) (skip : nat), split_from sep skip cur s <> [].
Proof.
  induction s as [|c s IH]; intros cur skip; cbn [split_from].
  - discriminate.
  - destruct skip; [|apply IH].
    destruct (String.prefix sep (String c s)); [discriminate | apply IH].
Qed.

(** [sub in (a ++ b)] for a one-character [sub]. *)
Lemma contains_char_app (c : ascii) (a b : string) :
  contains (String c "") (a ++ b)
  = (contains (String c "") a || contains (String c "") b)%bool.
Proof.
  induction a as [|d a IH].
  - simpl. destruct b; reflexivity.
  - change (String d a ++ b) with (String d (a ++ b)).
    cbn [contains]. rewrite !prefix_char, IH. now rewrite orb_assoc.
Qed.

Lemma contains_char_cons (c d : ascii) (s : string) :
  contains (String c "") (String d s)
  = (Ascii.eqb c d || contains (String c "") s)%bool.
Proof. cbn [contains]. now rewrite prefix_char. Qed.

Lemma contains_char_nil (c : ascii) : contains (String c "") "" = false.
Proof. reflexivity. Qed.

(** The piece before the first occurrence of a character. *)
Lemma split_char_first (c : ascii) :
  forall (a b cur : string),
    contains (String c "") a = false ->
    split_from (String c "") 0 cur (a ++ String c b)
    = (cur ++ a) :: split_from (String c "") 0 "" b.
Proof.
  induction a as [|d a IH]; intros b cur H.
  - cbn [append split_from]. rewrite prefix_char, Ascii.eqb_refl.
    now rewrite append_nil_r.
  - rewrite contains_char_cons in H. apply orb_false_iff in H.
    destruct H as [Hd Ha].
    change (String d a ++ String c b) with (String d (a ++ String c b)).
    cbn [split_from]. rewrite prefix_char, Hd.
    rewrite IH by exact Ha. now rewrite append_assoc.
Qed.

Lemma first_split_char (c : ascii) (a b : string) :
  contains (String c "") a = false ->
  first (split (String c "") (a ++ String c b)) = a.
Proof. intros H. unfold split. rewrite split_char_first by exact H. reflexivity. Qed.

Lemma first_split_absent (sep s : string) :
  contains sep s = false -> first (split sep s) = s.
Proof. intros H. unfold split. rewrite split_from_absent by exact H. reflexivity. Qed.

Lemma last_cons_nonempty (x : string) (l : list string) :
  l <> [] -> List.last (x :: l) "" = List.last l "".
Proof. destruct l; [congruence | reflexivity]. Qed.

(** The piece behind the last occurrence of a character. *)
Lemma last_split_char (c : ascii) :
  forall (a b cur : string),
    contains (String c "") b = false ->
    last (split_from (String c "") 0 cur (a ++ String c b)) = b.
Proof.
  unfold last. induction a as [|d a IH]; intros b cur H.
  - cbn [append split_from]. rewrite prefix_char, Ascii.eqb_refl.
    cbn [String.length Nat.sub]. rewrite split_from_absent by exact H. reflexivity.
  - change (String d a ++ String c b) with (String d (a ++ String c b)).
    cbn [split_from]. rewrite prefix_char.
    destruct (Ascii.eqb c d).
    + cbn [String.length Nat.sub].
      rewrite last_cons_nonempty by apply split_from_nonempty. apply IH, H.
    + apply IH, H.
Qed.

Lemma prefix_nil (s : string) : String.prefix "" s = true.
Proof. destruct s; reflexivity. Qed.

Lemma prefix_self_app (sep x : string) : String.prefix sep (sep ++ x) = true.
Proof.
  induction sep as [|c sep IH]; [apply prefix_nil|].
  simpl. destruct (ascii_dec c c); [exact IH | congruence].
Qed.

(** One step of the scan: no separator here, a separator here, and a
    character of a separator that is passed over. *)
Lemma split_from_miss (sep cur s : string) (c : ascii) :
  String.prefix sep (String c s) = false ->
  split_from sep 0 cur (String c s) = split_from sep 0 (cur ++ String c "") s.
Proof. intros H. cbn [split_from]. rewrite H. reflexivity. Qed.

Lemma split_from_hit (sep cur s : string) (c : ascii) :
  String.prefix sep (String c s) = true ->
  split_from sep 0 cur (String c s)
  = cur :: split_from sep (String.length sep - 1) "" s.
Proof. intros H. cbn [split_from]. rewrite H. reflexivity. Qed.

Lemma split_from_skip (sep cur s : string) (c : ascii) (k : nat) :
  split_from sep (S k) cur (String c s) = split_from sep k cur s.
Proof. reflexivity. Qed.

End PyStrFacts.


(** ** [_resolve_channel_id] *)

Section ResolveChannelFacts.

Import PyStr PyStrFacts.
Local Open Scope string_scope.

Variable search_channel : string -> res (list string).

Lemma resolve_by_search (identifier : string) :
  re_match_channel_id identifier = false ->
  _resolve_channel_id search_channel identifier
  = resolved_from_search search_channel (channel_query identifier).
Proof.
  intros H. unfold _resolve_channel_id, resolved_from_search. rewrite H.
  unfold rbind, reraise_http.
  destruct (search_channel (channel_query identifier)) as [[]|[|]]; reflexivity.
Qed.

Lemma class_then_end_all (n : nat) :
  forall body : string,
    String.length body = n ->
    forallb is_channel_id_char (list_ascii_of_string body) = true ->
    class_then_end n body = true.
Proof.
  induction n as [|n IH]; intros body Hlen Hall.
  - destruct body; [reflexivity | discriminate].
  - destruct body as [|c body]; [discriminate|].
    simpl in Hlen, Hall. apply andb_true_iff in Hall. destruct Hall as [Hc Hall].
    cbn [class_then_end]. rewrite Hc. simpl. apply IH; [lia | exact Hall].
Qed.

(** X1. A channel ID, "UC" followed by 22 letters, digits, underscores or
    hyphens, is returned as it is, whatever the service would answer (also
    when every call to it would raise): the service is not consulted. *)
Theorem channel_id_is_returned_unchanged (body : string) :
  String.length body = 22%nat ->
  forallb is_channel_id_char (list_ascii_of_string body) = true ->
  _resolve_channel_id search_channel ("UC" ++ body) = inr ("UC" ++ body).
Proof.
  intros Hlen Hall. unfold _resolve_channel_id.
  change (re_match_channel_id ("UC" ++ body)) with (class_then_end 22 body).
  rewrite (@class_then_end_all 22 body Hlen Hall). reflexivity.
Qed.

Lemma contains_prefix_app (sub a b : string) :
  String.prefix sub a = true -> String.prefix sub (a ++ b) = true.
Proof.
  revert a. induction sub as [|c sub IH]; intros a H.
  - destruct (a ++ b); reflexivity.
  - destruct a as [|d a]; [discriminate|].
    simpl in *. destruct (ascii_dec c d); [apply IH, H | discriminate].
Qed.

Lemma contains_app_l (sub a b : string) :
  contains sub a = true -> contains sub (a ++ b) = true.
Proof.
  induction a as [|d a IH]; intros H.
  - simpl in H. rewrite orb_false_r in H.
    destruct sub; [|discriminate]. destruct b; reflexivity.
  - cbn [contains] in H. apply orb_true_iff in H.
    change (String d a ++ b) with (String d (a ++ b)). cbn [contains].
    apply orb_true_iff. destruct H as [H|H].
    + left. change (String d (a ++ b)) with (String d a ++ b).
      now apply contains_prefix_app.
    + right. apply IH, H.
Qed.

(** An occurrence of a pattern that starts with [c] cannot start inside a
    string without [c]. *)
Lemma contains_skip_free (c : ascii) (sep a b : string) :
  contains (String c "") a = false ->
  contains (String c sep) (a ++ b) = contains (String c sep) b.
Proof.
  induction a as [|d a IH]; intros H; [reflexivity|].
  rewrite contains_char_cons in H. apply orb_false_iff in H.
  destruct H as [Hd Ha].
  change (String d a ++ b) with (String d (a ++ b)). cbn [contains].
  rewrite IH by exact Ha.
  assert (E : String.prefix (String c sep) (String d (a ++ b)) = false).
  { simpl. destruct (ascii_dec c d) as [->|]; [|reflexivity].
    rewrite Ascii.eqb_refl in Hd. discriminate. }
  rewrite E. reflexivity.
Qed.

(** X2. For a handle [@name] whose name does not mention [youtube.com], the
    service is searched for [name] (the [@] dropped): the result is the
    first channel found, [ValueError("Channel not found: name")] when
    nothing is found, and [Exception] for an [HttpError]. *)
Theorem handle_is_searched_without_at (name : string) :
  contains "youtube.com" name = false ->
  _resolve_channel_id search_channel ("@" ++ name)
  = resolved_from_search search_channel name.
Proof.
  intros H. rewrite resolve_by_search by reflexivity.
  unfold channel_query. cbn [startswith String.prefix append tail].
  destruct (ascii_dec "@" "@") as [_|N]; [|congruence].
  assert (E : String.prefix "" name = true) by (destruct name; reflexivity).
  rewrite E. cbn [tail]. rewrite H. reflexivity.
Qed.

Lemma split_custom_url (x : string) :
  split "/c/" ("https://www.youtube.com/c/" ++ x)
  = "https://www.youtube.com" :: split_from "/c/" 0 "" x.
Proof.
  unfold split. change ("https://www.youtube.com/c/" ++ x)
    with ("https://www.youtube.com" ++ ("/c/" ++ x)).
  cbn [append].
  repeat (rewrite split_from_miss by reflexivity; cbn [append]).
  rewrite split_from_hit by apply (prefix_self_app "/c/" x).
  cbn [String.length Nat.sub]. 
  repeat rewrite split_from_skip. reflexivity.
Qed.

Lemma split_user_url (x : string) :
  split "/user/" ("https://www.youtube.com/user/" ++ x)
  = "https://www.youtube.com" :: split_from "/user/" 0 "" x.
Proof.
  unfold split. change ("https://www.youtube.com/user/" ++ x)
    with ("https://www.youtube.com" ++ ("/user/" ++ x)).
  cbn [append].
  repeat (rewrite split_from_miss by reflexivity; cbn [append]).
  rewrite split_from_hit by apply (prefix_self_app "/user/" x).
  cbn [String.length Nat.sub]. 
  repeat rewrite split_from_skip. reflexivity.
Qed.

Lemma split_channel_url (x : string) :
  split "/channel/" ("https://www.youtube.com/channel/" ++ x)
  = "https://www.youtube.com" :: split_from "/channel/" 0 "" x.
Proof.
  unfold split. change ("https://www.youtube.com/channel/" ++ x)
    with ("https://www.youtube.com" ++ ("/channel/" ++ x)).
  cbn [append].
  repeat (rewrite split_from_miss by reflexivity; cbn [append]).
  rewrite split_from_hit by apply (prefix_self_app "/channel/" x).
  cbn [String.length Nat.sub]. 
  repeat rewrite split_from_skip. reflexivity.
Qed.

(** The first path segment: [name] of [name] or of [name/...]. *)
Lemma first_segment (name suffix : string) :
  contains "/" name = false ->
  suffix = "" \/ (exists b, suffix = "/" ++ b) ->
  first (split "/" (name ++ suffix)) = name.
Proof.
  intros Hn [-> | [b ->]].
  - rewrite append_nil_r. apply first_split_absent, Hn.
  - apply first_split_char, Hn.
Qed.

(** Behind a marker that starts with [/], a name without [/] followed by
    a suffix without the marker is the last piece of the split. *)
Lemma last_piece_behind_marker (marker name suffix : string) :
  contains "/" name = false ->
  contains (String "/" marker) suffix = false ->
  last (split_from (String "/" marker) 0 "" (name ++ suffix)) = name ++ suffix.
Proof.
  intros Hn Hs. rewrite split_from_absent; [reflexivity|].
  rewrite contains_skip_free by exact Hn. exact Hs.
Qed.

(** X3. For the URL [https://www.youtube.com/c/NAME] or
    [https://www.youtube.com/c/NAME/...] (no further [/c/] behind the name),
    the service is searched for [NAME]. *)
Theorem custom_url_is_searched_by_name (name suffix : string) :
  contains "/" name = false ->
  suffix = "" \/ (exists b, suffix = "/" ++ b) ->
  contains "/c/" suffix = false ->
  _resolve_channel_id search_channel
    ("https://www.youtube.com/c/" ++ name ++ suffix)
  = resolved_from_search search_channel name.
Proof.
  intros Hn Hsuf Hs. rewrite resolve_by_search by reflexivity.
  unfold channel_query.
  change (startswith "@" ("https://www.youtube.com/c/" ++ name ++ suffix))
    with false. cbv iota.
  rewrite (@contains_app_l "youtube.com" "https://www.youtube.com/c/" _ eq_refl).
  rewrite (@contains_app_l "/c/" "https://www.youtube.com/c/" _ eq_refl).
  rewrite split_custom_url.
  unfold last at 1. rewrite last_cons_nonempty by apply split_from_nonempty.
  fold (last (split_from "/c/" 0 "" (name ++ suffix))).
  rewrite last_piece_behind_marker by assumption.
  rewrite first_segment by assumption. reflexivity.
Qed.

Lemma contains_miss (sep s : string) (c : ascii) :
  String.prefix sep (String c s) = false ->
  contains sep (String c s) = contains sep s.
Proof. intros H. cbn [contains]. rewrite H. reflexivity. Qed.

Lemma no_custom_marker_in_channel_url (x : string) :
  contains "/c/" ("https://www.youtube.com/channel" ++ x) = contains "/c/" x.
Proof.
  cbn [append]. repeat (rewrite contains_miss by reflexivity). reflexivity.
Qed.

(** X4. For the URL [https://www.youtube.com/channel/ID] or
    [https://www.youtube.com/channel/ID/...], where the ID has no slash and
    what follows the first [/channel] holds neither [/c/] nor a second
    [/channel/], the ID in the URL is not returned as it is: the service is
    searched for it, and the result is the first channel that the search
    finds. *)
Theorem channel_url_is_searched_by_id (id suffix : string) :
  contains "/" id = false ->
  suffix = "" \/ (exists b, suffix = "/" ++ b) ->
  contains "/c/" ("/" ++ id ++ suffix) = false ->
  contains "/channel/" suffix = false ->
  _resolve_channel_id search_channel
    ("https://www.youtube.com/channel/" ++ id ++ suffix)
  = resolved_from_search search_channel id.
Proof.
  intros Hn Hsuf Hc Hs. rewrite resolve_by_search by reflexivity.
  unfold channel_query.
  change (startswith "@" ("https://www.youtube.com/channel/" ++ id ++ suffix))
    with false. cbv iota.
  rewrite (@contains_app_l "youtube.com" "https://www.youtube.com/channel/" _ eq_refl).
  change ("https://www.youtube.com/channel/" ++ id ++ suffix)
    with ("https://www.youtube.com/channel" ++ ("/" ++ id ++ suffix)) at 1.
  rewrite no_custom_marker_in_channel_url, Hc.
  rewrite (@contains_app_l "/channel/" "https://www.youtube.com/channel/" _ eq_refl).
  rewrite split_channel_url.
  unfold last at 1. rewrite last_cons_nonempty by apply split_from_nonempty.
  fold (last (split_from "/channel/" 0 "" (id ++ suffix))).
  rewrite last_piece_behind_marker by assumption.
  rewrite first_segment by assumption. reflexivity.
Qed.

End ResolveChannelFacts.

Section ResolveChannelRuns.

Local Open Scope string_scope.

Lemma channel_id_is_returned_unchanged_witness :
  String.length "X6OQ3DkcsbYNE6H8uQQuVA" = 22%nat /\
  forallb is_channel_id_char (list_ascii_of_string "X6OQ3DkcsbYNE6H8uQQuVA") = true /\
  _resolve_channel_id Demo.failing_search ("UC" ++ "X6OQ3DkcsbYNE6H8uQQuVA")
  = inr ("UC" ++ "X6OQ3DkcsbYNE6H8uQQuVA").
Proof.
  split; [reflexivity|]. split; [reflexivity|].
  exact (@channel_id_is_returned_unchanged Demo.failing_search
           "X6OQ3DkcsbYNE6H8uQQuVA" eq_refl eq_refl).
Defined.

Lemma handle_is_searched_without_at_witness :
  PyStr.contains "youtube.com" "MrBeast" = false /\
  _resolve_channel_id Demo.search_channel ("@" ++ "MrBeast")
  = resolved_from_search Demo.search_channel "MrBeast".
Proof.
  split; [reflexivity|].
  exact (@handle_is_searched_without_at Demo.search_channel "MrBeast" eq_refl).
Defined.

Lemma custom_url_is_searched_by_name_witness :
  PyStr.contains "/" "MrBeast" = false /\
  ("/videos" = "" \/ (exists b, "/videos" = "/" ++ b)) /\
  PyStr.contains "/c/" "/videos" = false /\
  _resolve_channel_id Demo.search_channel
    ("https://www.youtube.com/c/" ++ "MrBeast" ++ "/videos")
  = resolved_from_search Demo.search_channel "MrBeast".
Proof.
  assert (H : "/videos" = "" \/ (exists b, "/videos" = "/" ++ b)).
  { right. exists "videos". reflexivity. }
  split; [reflexivity|]. split; [exact H|]. split; [reflexivity|].
  exact (@custom_url_is_searched_by_name Demo.search_channel "MrBeast"
           "/videos" eq_refl H eq_refl).
Defined.

Lemma channel_url_is_searched_by_id_witness :
  PyStr.contains "/" "UCX6OQ3DkcsbYNE6H8uQQuVA" = false /\
  ("" = "" \/ (exists b, "" = "/" ++ b)) /\
  PyStr.contains "/c/" ("/" ++ "UCX6OQ3DkcsbYNE6H8uQQuVA" ++ "") = false /\
  PyStr.contains "/channel/" "" = false /\
  _resolve_channel_id Demo.search_channel
    ("https://www.youtube.com/channel/" ++ "UCX6OQ3DkcsbYNE6H8uQQuVA" ++ "")
  = resolved_from_search Demo.search_channel "UCX6OQ3DkcsbYNE6H8uQQuVA".
Proof.
  assert (H : "" = "" \/ (exists b, "" = "/" ++ b)) by (left; reflexivity).
  split; [reflexivity|]. split; [exact H|]. split; [reflexivity|].
  split; [reflexivity|].
  exact (@channel_url_is_searched_by_id Demo.search_channel
           "UCX6OQ3DkcsbYNE6H8uQQuVA" "" eq_refl H eq_refl eq_refl).
Defined.

End ResolveChannelRuns.


(** ** [_fetch_comments] *)

Section FetchCommentsFacts.

Local Open Scope string_scope.
Local Open Scope Z_scope.

(** X5. With [max_results <= 0] the result is the empty list, whatever the
    service would answer: no page is asked for. *)
Theorem no_comments_wanted_no_request
  (comment_threads : string -> Z -> option string -> res comment_page)
  (video_id : string) (max_results : Z) (fuel : nat) :
  max_results <= 0 ->
  _fetch_comments comment_threads video_id max_results fuel = Some (inr []).
Proof.
  intros H. unfold _fetch_comments.
  assert (E : (Z.of_nat (List.length (@nil comment)) <? max_results) = false).
  { apply Z.ltb_ge. simpl. lia. }
  destruct fuel; cbn [fetch_comments_loop]; rewrite E; reflexivity.
Qed.

(** X6. Every page is asked for with [maxResults] between 1 and 100 and at
    most [max_results], and for the given video: two services that answer
    such requests alike give the same result. *)
Theorem only_batches_of_1_to_100_are_requested
  (service service' : string -> Z -> option string -> res comment_page)
  (video_id : string) (max_results : Z) (fuel : nat) :
  (forall (batch_size : Z) (page_token : option string),
      1 <= batch_size <= 100 -> batch_size <= max_results ->
      service video_id batch_size page_token
      = service' video_id batch_size page_token) ->
  _fetch_comments service video_id max_results fuel
  = _fetch_comments service' video_id max_results fuel.
Proof.
  intros Hsame. unfold _fetch_comments. f_equal.
  generalize (@nil comment) as comments. generalize (@None string) as token.
  induction fuel as [|fuel IH]; intros token comments; cbn [fetch_comments_loop].
  - reflexivity.
  - destruct (Z.ltb_spec (Z.of_nat (List.length comments)) max_results) as [Hlt|Hge];
      [|reflexivity].
    rewrite Hsame by lia.
    destruct (service' video_id _ token) as [e|page]; [reflexivity|].
    destruct (falsy (get (nextPageToken page))); [reflexivity|]. apply IH.
Qed.

Lemma comment_of_item_id (item : comment_item) (c : comment) :
  comment_of_item item = Some c -> c_id c <> "".
Proof.
  unfold comment_of_item.
  destruct (get (top_id item)) as [i|]; [|discriminate].
  destruct (get (textDisplay item)) as [t|]; [|discriminate].
  cbn [falsy]. destruct (String.eqb_spec i ""); [discriminate|].
  intros E. injection E as <-. exact n.
Qed.

Lemma comments_of_items_ids (items : list comment_item) :
  Forall (fun c => c_id c <> "") (comments_of_items items).
Proof.
  induction items as [|item rest IH]; cbn [comments_of_items]; [constructor|].
  destruct (comment_of_item item) as [c|] eqn:E; [|exact IH].
  constructor; [exact (comment_of_item_id _ E) | exact IH].
Qed.

Lemma comments_of_items_length (items : list comment_item) :
  (List.length (comments_of_items items) <= List.length items)%nat.
Proof.
  induction items as [|item rest IH]; simpl; [lia|].
  destruct (comment_of_item item); simpl; lia.
Qed.

Section Paging.

Variable comment_threads : string -> Z -> option string -> res comment_page.
Variable video_id : string.
Variable max_results : Z.

(** The service returns at most [maxResults] items per page (for a
    positive [maxResults]). *)
Hypothesis pages_are_bounded :
  forall batch_size token page,
    1 <= batch_size ->
    comment_threads video_id batch_size token = inr page ->
    Z.of_nat (List.length (page_items page)) <= batch_size.

(** A page that announces a next page holds a comment that is kept. *)
Hypothesis pages_make_progress :
  forall batch_size token page,
    1 <= batch_size ->
    comment_threads video_id batch_size token = inr page ->
    falsy (get (nextPageToken page)) = false ->
    comments_of_items (page_items page) <> [].

Lemma fetch_comments_loop_bounded (fuel : nat) :
  forall (comments : list comment) (token : option string),
    Z.of_nat (List.length comments) <= max_results ->
    max_results - Z.of_nat (List.length comments) <= Z.of_nat fuel ->
    Forall (fun c => c_id c <> "") comments ->
    exists out,
      fetch_comments_loop comment_threads video_id max_results fuel comments token
      = Some out /\
      match out with
      | inr cs =>
          Z.of_nat (List.length cs) <= max_results /\
          Forall (fun c => c_id c <> "") cs
      | inl _ => True
      end.
Proof.
  induction fuel as [|fuel IH]; intros comments token Hlen Hfuel Hids;
    cbn [fetch_comments_loop].
  - destruct (Z.ltb_spec (Z.of_nat (List.length comments)) max_results);
      [exfalso; simpl in Hfuel; lia|].
    eexists. split; [reflexivity|]. split; assumption.
  - destruct (Z.ltb_spec (Z.of_nat (List.length comments)) max_results) as [Hlt|Hge].
    2:{ eexists. split; [reflexivity|]. split; assumption. }
    set (batch := Z.min 100 (max_results - Z.of_nat (List.length comments))).
    destruct (comment_threads video_id batch token) as [e|page] eqn:Epage.
    { eexists. split; [reflexivity | exact I]. }
    assert (Hbatch : 1 <= batch) by (unfold batch; lia).
    pose proof (pages_are_bounded Hbatch Epage) as Hb.
    pose proof (comments_of_items_length (page_items page)) as Hk.
    set (new := comments_of_items (page_items page)) in *.
    assert (Hlen' : Z.of_nat (List.length (comments ++ new)) <= max_results).
    { rewrite length_app. unfold batch in Hb. lia. }
    assert (Hids' : Forall (fun c => c_id c <> "") (comments ++ new)).
    { apply Forall_app. split; [exact Hids | apply comments_of_items_ids]. }
    destruct (falsy (get (nextPageToken page))) eqn:Etok.
    { eexists. split; [reflexivity|]. split; assumption. }
    apply IH; [exact Hlen' | | exact Hids'].
    pose proof (pages_make_progress Hbatch Epage Etok) as Hne.
    fold new in Hne. rewrite length_app.
    destruct new; [congruence | simpl; lia].
Qed.

(** X7. When the service returns at most [maxResults] items per page, and
    every page that announces a next page holds an item that is kept (its
    id is not empty and its text is not [None]), the function returns
    within [max_results] pages; it returns at
    most [max_results] comments, each with a non-empty id, or raises an
    exception that is not an [HttpError]. *)
Theorem at_most_max_results_comments :
  0 <= max_results ->
  exists out,
    _fetch_comments comment_threads video_id max_results (Z.to_nat max_results)
    = Some out /\
    match out with
    | inr comments =>
        Z.of_nat (List.length comments) <= max_results /\
        Forall (fun c => c_id c <> "") comments
    | inl e => is_http_error e = false
    end.
Proof.
  intros Hmax. unfold _fetch_comments.
  destruct (@fetch_comments_loop_bounded (Z.to_nat max_results) [] None)
    as (out & E & Hout); [simpl; lia | simpl; lia | constructor |].
  rewrite E. cbn [option_map]. eexists. split; [reflexivity|].
  destruct out as [e|cs]; [|exact Hout]. destruct e; reflexivity.
Qed.

End Paging.

(** X21. When the service keeps announcing a next page and no item of its
    pages is kept (an id is missing or empty, or the text is [None]), a
    call that asks for at least one comment never leaves the loop: no
    number of pages is enough. *)
Theorem comments_without_text_never_end
  (comment_threads : string -> Z -> option string -> res comment_page)
  (video_id : string) (max_results : Z) :
  0 < max_results ->
  (forall batch_size token,
      exists page,
        comment_threads video_id batch_size token = inr page /\
        comments_of_items (page_items page) = [] /\
        falsy (get (nextPageToken page)) = false) ->
  forall fuel, _fetch_comments comment_threads video_id max_results fuel = None.
Proof.
  intros Hmax Hstuck fuel. unfold _fetch_comments.
  enough (E : forall token,
             fetch_comments_loop comment_threads video_id max_results fuel
               [] token = None)
    by (rewrite E; reflexivity).
  induction fuel as [|fuel IH]; intros token; cbn [fetch_comments_loop];
    destruct (Z.ltb_spec (Z.of_nat (List.length (@nil comment))) max_results)
      as [_|Hge]; try reflexivity; try (simpl in Hge; lia).
  destruct (Hstuck (Z.min 100 (max_results - Z.of_nat (List.length (@nil comment))))
              token) as (page & -> & -> & ->).
  apply IH.
Qed.

End FetchCommentsFacts.

Section FetchCommentsRuns.

Local Open Scope string_scope.
Local Open Scope Z_scope.

Lemma no_comments_wanted_no_request_witness :
  0 <= 0 /\
  _fetch_comments Demo.comment_threads "v1" 0 5 = Some (inr []).
Proof.
  split; [lia|].
  exact (@no_comments_wanted_no_request Demo.comment_threads "v1" 0 5
           (Z.le_refl 0)).
Defined.

Lemma only_batches_of_1_to_100_are_requested_witness :
  (forall (batch_size : Z) (page_token : option string),
      1 <= batch_size <= 100 -> batch_size <= 3 ->
      Demo.comment_threads "v1" batch_size page_token
      = Demo.strict_comment_threads "v1" batch_size page_token) /\
  _fetch_comments Demo.comment_threads "v1" 3 4
  = _fetch_comments Demo.strict_comment_threads "v1" 3 4.
Proof.
  assert (H : forall (batch_size : Z) (page_token : option string),
             1 <= batch_size <= 100 -> batch_size <= 3 ->
             Demo.comment_threads "v1" batch_size page_token
             = Demo.strict_comment_threads "v1" batch_size page_token).
  { intros b token Hb _. unfold Demo.strict_comment_threads.
    destruct (Z.leb_spec b 0) as [Hle|_]; [lia|].
    destruct (Z.ltb_spec 100 b) as [Hlt|_]; [lia|]. reflexivity. }
  split; [exact H|].
  exact (@only_batches_of_1_to_100_are_requested Demo.comment_threads
           Demo.strict_comment_threads "v1" 3 4 H).
Defined.

Lemma demo_pages_are_bounded :
  forall batch_size token page,
    1 <= batch_size ->
    Demo.comment_threads "v1" batch_size token = inr page ->
    Z.of_nat (List.length (page_items page)) <= batch_size.
Proof.
  intros b token page Hb E. unfold Demo.comment_threads in E.
  destruct token; injection E as <-; cbn [page_items];
    rewrite length_firstn; lia.
Qed.

Lemma demo_pages_make_progress :
  forall batch_size token page,
    1 <= batch_size ->
    Demo.comment_threads "v1" batch_size token = inr page ->
    falsy (get (nextPageToken page)) = false ->
    comments_of_items (page_items page) <> [].
Proof.
  intros b token page Hb E Htok. unfold Demo.comment_threads in E.
  destruct token; injection E as <-; [discriminate Htok|].
  cbn [page_items]. destruct (Z.to_nat b) eqn:En; [lia|]. discriminate.
Qed.

Lemma at_most_max_results_comments_witness :
  0 <= 3 /\
  exists out,
    _fetch_comments Demo.comment_threads "v1" 3 (Z.to_nat 3) = Some out /\
    match out with
    | inr comments =>
        Z.of_nat (List.length comments) <= 3 /\
        Forall (fun c => c_id c <> "") comments
    | inl e => is_http_error e = false
    end.
Proof.
  assert (H : 0 <= 3) by lia.
  split; [exact H|].
  exact (@at_most_max_results_comments Demo.comment_threads "v1" 3
           demo_pages_are_bounded demo_pages_make_progress H).
Defined.

Lemma comments_without_text_never_end_witness :
  0 < 3 /\
  (forall batch_size token,
      exists page,
        Demo.stuck_comment_threads "v1" batch_size token = inr page /\
        comments_of_items (page_items page) = [] /\
        falsy (get (nextPageToken page)) = false) /\
  forall fuel, _fetch_comments Demo.stuck_comment_threads "v1" 3 fuel = None.
Proof.
  assert (H : 0 < 3) by lia.
  assert (S : forall batch_size token,
             exists page,
               Demo.stuck_comment_threads "v1" batch_size token = inr page /\
               comments_of_items (page_items page) = [] /\
               falsy (get (nextPageToken page)) = false).
  { intros batch_size token. eexists. split; [reflexivity|].
    split; reflexivity. }
  split; [exact H|]. split; [exact S|].
  exact (@comments_without_text_never_end Demo.stuck_comment_threads "v1" 3
           H S).
Defined.

End FetchCommentsRuns.


(** ** [_search_youtube_channels] *)

Section SearchChannelsFacts.

Local Open Scope string_scope.
Local Open Scope Z_scope.

Lemma insert_by_subscribers_perm (x : channel_summary) (l : list channel_summary) :
  Permutation (insert_by_subscribers x l) (x :: l).
Proof.
  induction l as [|y l IH]; cbn [insert_by_subscribers]; [reflexivity|].
  destruct (s_subscriberCount y <=? s_subscriberCount x); [reflexivity|].
  rewrite IH. apply perm_swap.
Qed.

Lemma sort_by_subscribers_perm (l : list channel_summary) :
  Permutation (sort_by_subscribers l) l.
Proof.
  induction l as [|x l IH]; [reflexivity|].
  unfold sort_by_subscribers in *. cbn [fold_right].
  rewrite insert_by_subscribers_perm. now constructor.
Qed.

Lemma insert_by_subscribers_sorted (x : channel_summary) (l : list channel_summary) :
  StronglySorted by_subscribers l ->
  StronglySorted by_subscribers (insert_by_subscribers x l).
Proof.
  induction 1 as [|y l Hs IH Hy]; cbn [insert_by_subscribers].
  - constructor; constructor.
  - destruct (Z.leb_spec (s_subscriberCount y) (s_subscriberCount x)) as [Hle|Hgt].
    + constructor; [constructor; assumption|].
      constructor; [exact Hle|].
      eapply Forall_impl; [|exact Hy]. unfold by_subscribers. intros; lia.
    + constructor; [exact IH|].
      eapply Permutation_Forall.
      * symmetry. apply insert_by_subscribers_perm.
      * constructor; [unfold by_subscribers; lia | exact Hy].
Qed.

Lemma sort_by_subscribers_sorted (l : list channel_summary) :
  StronglySorted by_subscribers (sort_by_subscribers l).
Proof.
  induction l as [|x l IH]; [constructor|].
  unfold sort_by_subscribers in *. cbn [fold_right].
  apply insert_by_subscribers_sorted, IH.
Qed.

Lemma firstn_sorted (n : nat) (l : list channel_summary) :
  StronglySorted by_subscribers l ->
  StronglySorted by_subscribers (firstn n l).
Proof.
  intros H. revert n. induction H as [|x l Hs IH Hx]; intros n.
  - rewrite firstn_nil. constructor.
  - destruct n; [constructor|]. cbn [firstn]. constructor; [apply IH|].
    apply Forall_forall. intros y Hy.
    rewrite Forall_forall in Hx. apply Hx.
    rewrite <- (firstn_skipn n l). apply in_or_app. now left.
Qed.

Lemma firstn_NoDup {A} (n : nat) (l : list A) : NoDup l -> NoDup (firstn n l).
Proof.
  intros H. rewrite <- (firstn_skipn n l) in H.
  exact (NoDup_app_remove_r _ _ H).
Qed.

Lemma firstn_Forall {A} (P : A -> Prop) (n : nat) (l : list A) :
  Forall P l -> Forall P (firstn n l).
Proof.
  intros H. rewrite <- (firstn_skipn n l) in H.
  apply Forall_app in H. apply H.
Qed.

Lemma slice_to_is_firstn {A} (l : list A) (n : Z) :
  exists k, slice_to l n = firstn k l.
Proof. unfold slice_to. destruct (0 <=? n); eexists; reflexivity. Qed.

Lemma slice_to_length {A} (l : list A) (n : Z) :
  0 <= n -> Z.of_nat (List.length (slice_to l n)) <= n.
Proof.
  intros H. unfold slice_to. destruct (Z.leb_spec 0 n); [|lia].
  rewrite length_firstn. lia.
Qed.

Section Visits.

Variable one_month_ago : string.
Variable search_videos : string -> string -> res (list (string * string)).
Variable videos_statistics : string -> res (list (field string)).
Variable channels_list : string -> res (list channel_resource).
Variable min_subscribers : Z.

Lemma seen_false (channel_id : string)
  (channel_videos : list (string * (Z * channel_summary))) :
  seen channel_id channel_videos = false ->
  ~ In channel_id (map fst channel_videos).
Proof.
  unfold seen. intros H Hin. apply in_map_iff in Hin.
  destruct Hin as (kv & <- & Hkv).
  assert (E : existsb (fun kv0 => String.eqb (fst kv0) (fst kv)) channel_videos = true).
  { apply existsb_exists. exists kv. split; [exact Hkv | apply String.eqb_refl]. }
  congruence.
Qed.

Lemma visit_search_item_kept
  (channel_videos channel_videos' : list (string * (Z * channel_summary)))
  (item : string * string) :
  kept min_subscribers channel_videos ->
  visit_search_item videos_statistics channels_list min_subscribers
    channel_videos item = inr channel_videos' ->
  kept min_subscribers channel_videos'.
Proof.
  intros [Hnd Hall]. unfold visit_search_item. destruct item as [video_id channel_id].
  destruct (seen channel_id channel_videos) eqn:Eseen.
  { intros E. injection E as <-. split; assumption. }
  unfold rbind.
  destruct (videos_statistics video_id) as [e|[|v vs]]; try discriminate.
  { intros E. injection E as <-. split; assumption. }
  destruct (py_int_field v) as [e|view_count]; [discriminate|].
  destruct (channels_list channel_id) as [e|[|ch chs]]; try discriminate.
  { intros E. injection E as <-. split; assumption. }
  destruct (py_int_field (ch_subscriberCount ch)) as [e|subs]; [discriminate|].
  destruct (Z.leb_spec min_subscribers subs) as [Hle|Hgt].
  2:{ intros E. injection E as <-. split; assumption. }
  destruct (py_int_field (ch_viewCount ch)) as [e|vc]; [discriminate|].
  destruct (py_int_field (ch_videoCount ch)) as [e|nc]; [discriminate|].
  intros E. injection E as <-. split.
  - rewrite map_app. cbn [map fst].
    apply NoDup_app; [exact Hnd | repeat constructor; intros [] | ].
    intros x Hx [<-|[]]. eapply seen_false; eassumption.
  - apply Forall_app. split; [exact Hall|].
    constructor; [|constructor]. cbn. split; [reflexivity | exact Hle].
Qed.

Lemma visit_search_items_kept (items : list (string * string)) :
  forall channel_videos channel_videos',
    kept min_subscribers channel_videos ->
    visit_search_items videos_statistics channels_list min_subscribers
      channel_videos items = inr channel_videos' ->
    kept min_subscribers channel_videos'.
Proof.
  induction items as [|item rest IH]; intros cv cv' Hk; cbn [visit_search_items].
  - intros E. injection E as <-. exact Hk.
  - unfold rbind at 1.
    destruct (visit_search_item videos_statistics channels_list
                min_subscribers cv item) as [e|cv1] eqn:E1; [discriminate|].
    apply IH. eapply visit_search_item_kept; eassumption.
Qed.

(** X8. The channels returned are in order of decreasing subscriber count,
    and each has at least [min_subscribers] subscribers. *)
Theorem channels_sorted_and_above_threshold (query : string) (max_results : Z) :
  match _search_youtube_channels one_month_ago search_videos
          videos_statistics channels_list query max_results min_subscribers with
  | ChannelsFound channels =>
      StronglySorted by_subscribers channels /\
      Forall (fun c => min_subscribers <= s_subscriberCount c) channels
  | ChannelsError _ => True
  end.
Proof.
  unfold _search_youtube_channels, rbind.
  destruct (search_videos query one_month_ago) as [e|items]; [exact I|].
  destruct (visit_search_items videos_statistics channels_list
              min_subscribers [] items) as [e|cv] eqn:E; [exact I|].
  assert (Hk : kept min_subscribers cv).
  { eapply visit_search_items_kept; [|exact E]. split; constructor. }
  destruct Hk as [_ Hall].
  destruct (slice_to_is_firstn
              (sort_by_subscribers (map (fun kv => snd (snd kv)) cv)) max_results)
    as [k ->].
  split.
  - apply firstn_sorted, sort_by_subscribers_sorted.
  - apply firstn_Forall.
    eapply Permutation_Forall; [symmetry; apply sort_by_subscribers_perm|].
    apply Forall_map. eapply Forall_impl; [|exact Hall]. cbn. intros kv H. apply H.
Qed.

(** X9. No channel is returned twice, and for [max_results >= 0] at most
    [max_results] channels are returned. *)
Theorem channels_distinct_and_at_most_max_results (query : string) (max_results : Z) :
  match _search_youtube_channels one_month_ago search_videos
          videos_statistics channels_list query max_results min_subscribers with
  | ChannelsFound channels =>
      NoDup (map s_channelId channels) /\
      (0 <= max_results -> Z.of_nat (List.length channels) <= max_results)
  | ChannelsError _ => True
  end.
Proof.
  unfold _search_youtube_channels, rbind.
  destruct (search_videos query one_month_ago) as [e|items]; [exact I|].
  destruct (visit_search_items videos_statistics channels_list
              min_subscribers [] items) as [e|cv] eqn:E; [exact I|].
  assert (Hk : kept min_subscribers cv).
  { eapply visit_search_items_kept; [|exact E]. split; constructor. }
  destruct Hk as [Hnd Hall].
  split; [|apply slice_to_length].
  destruct (slice_to_is_firstn
              (sort_by_subscribers (map (fun kv => snd (snd kv)) cv)) max_results)
    as [k ->].
  rewrite <- firstn_map. apply firstn_NoDup.
  eapply Permutation_NoDup.
  - apply Permutation_map. symmetry. apply sort_by_subscribers_perm.
  - rewrite map_map.
    assert (Em : map (fun kv => s_channelId (snd (snd kv))) cv = map fst cv).
    { apply map_ext_in. intros kv Hkv. rewrite Forall_forall in Hall.
      apply (Hall kv Hkv). }
    rewrite Em. exact Hnd.
Qed.

End Visits.

End SearchChannelsFacts.


(** ** The duration of a video, in [_fetch_video_statistics] *)

Module DurationFacts.

Import PyStr PyStrFacts.
Local Open Scope string_scope.

(** *** More on [split] at a character *)

Lemma split_from_cur (sep : string) :
  forall (s cur : string) (skip : nat),
    split_from sep skip cur s
    = match split_from sep skip "" s with
      | x :: r => (cur ++ x) :: r
      | [] => []
      end.
Proof.
  induction s as [|c s IH]; intros cur skip; cbn [split_from].
  - now rewrite append_nil_r.
  - destruct skip as [|k]; [|apply IH].
    destruct (String.prefix sep (String c s)).
    + now rewrite append_nil_r.
    + rewrite (IH (cur ++ String c "")), (IH ("" ++ String c "")).
      destruct (split_from sep 0 "" s); [reflexivity|].
      now rewrite append_assoc.
Qed.

Lemma first_split_from_cur (sep s cur : string) :
  first (split_from sep 0 cur s) = cur ++ first (split sep s).
Proof.
  unfold split. rewrite split_from_cur.
  pose proof (@split_from_nonempty sep s "" 0) as H.
  destruct (split_from sep 0 "" s); [congruence | reflexivity].
Qed.

Lemma first_split_cons (c d : ascii) (s : string) :
  first (split (String c "") (String d s))
  = if Ascii.eqb c d then "" else String d (first (split (String c "") s)).
Proof.
  unfold split at 1. cbn [split_from]. rewrite prefix_char.
  destruct (Ascii.eqb c d); [reflexivity|].
  rewrite first_split_from_cur. reflexivity.
Qed.

Lemma first_split_app (c : ascii) (a b : string) :
  first (split (String c "") (a ++ b))
  = if contains (String c "") a then first (split (String c "") a)
    else a ++ first (split (String c "") b).
Proof.
  induction a as [|d a IH]; [reflexivity|].
  change (String d a ++ b) with (String d (a ++ b)).
  rewrite !first_split_cons, contains_char_cons, IH.
  destruct (Ascii.eqb c d); [reflexivity|]. cbn [orb].
  destruct (contains (String c "") a); reflexivity.
Qed.

Lemma last_split_from (c : ascii) :
  forall (s cur : string),
    last (split_from (String c "") 0 cur s)
    = if contains (String c "") s then last (split (String c "") s)
      else cur ++ s.
Proof.
  unfold last, split.
  induction s as [|d s IH]; intros cur.
  - cbn. now rewrite append_nil_r.
  - rewrite contains_char_cons. cbn [split_from]. rewrite prefix_char.
    destruct (Ascii.eqb c d); cbn [orb String.length Nat.sub].
    + rewrite !last_cons_nonempty by apply split_from_nonempty. reflexivity.
    + rewrite (IH (cur ++ String d "")), (IH ("" ++ String d "")).
      destruct (contains (String c "") s); [reflexivity|].
      now rewrite append_assoc.
Qed.

Lemma last_split_absent (c : ascii) (s : string) :
  contains (String c "") s = false -> last (split (String c "") s) = s.
Proof. intros H. unfold split. rewrite last_split_from, H. reflexivity. Qed.

Lemma last_split_cons (c d : ascii) (s : string) :
  last (split (String c "") (String d s))
  = if contains (String c "") s then last (split (String c "") s)
    else if Ascii.eqb c d then s else String d s.
Proof.
  unfold split at 1. cbn [split_from]. rewrite prefix_char.
  destruct (Ascii.eqb c d); cbn [String.length Nat.sub].
  - unfold last at 1. rewrite last_cons_nonempty by apply split_from_nonempty.
    fold (last (split_from (String c "") 0 "" s)).
    rewrite last_split_from. reflexivity.
  - rewrite last_split_from. reflexivity.
Qed.

Lemma last_split_app (c : ascii) (a b : string) :
  last (split (String c "") (a ++ b))
  = if contains (String c "") b then last (split (String c "") b)
    else last (split (String c "") a) ++ b.
Proof.
  induction a as [|d a IH].
  - cbn [append]. destruct (contains (String c "") b) eqn:E; [reflexivity|].
    now apply last_split_absent.
  - change (String d a ++ b) with (String d (a ++ b)).
    rewrite !last_split_cons, contains_char_app, IH.
    destruct (contains (String c "") b); [now rewrite orb_true_r|].
    rewrite orb_false_r.
    destruct (contains (String c "") a); [reflexivity|].
    destruct (Ascii.eqb c d); reflexivity.
Qed.

Lemma second_split (c : ascii) (a b : string) :
  contains (String c "") a = false ->
  contains (String c "") b = false ->
  second (split (String c "") (a ++ String c b)) = inr b.
Proof.
  intros Ha Hb. unfold split.
  rewrite split_char_first by exact Ha.
  rewrite split_from_absent by exact Hb. reflexivity.
Qed.

(** *** Numerals *)

Lemma numeral_no_letter (ds : string) (c : ascii) :
  numeral ds -> is_digit c = false -> contains (String c "") ds = false.
Proof.
  intros (_ & H & _) Hc. induction ds as [|d ds IH]; [reflexivity|].
  simpl in H. apply andb_true_iff in H. destruct H as [Hd Hds].
  rewrite contains_char_cons, (IH Hds), orb_false_r.
  apply Ascii.eqb_neq. intros ->. congruence.
Qed.

Lemma scan_of_digits :
  forall (ds : string) (acc : Z) (count : nat) (prev : PyInt.previous),
    forallb is_digit (list_ascii_of_string ds) = true ->
    prev <> PyInt.AfterUnderscore ->
    PyInt.scan acc count prev ds
    = Some (numeral_value_from acc ds, (count + String.length ds)%nat, "").
Proof.
  induction ds as [|d ds IH]; intros acc count prev H Hprev.
  - cbn [PyInt.scan numeral_value_from String.length].
    rewrite Nat.add_0_r. destruct prev; [reflexivity | reflexivity | congruence].
  - simpl in H. apply andb_true_iff in H. destruct H as [Hd Hds].
    cbn [PyInt.scan numeral_value_from String.length]. rewrite Hd.
    rewrite IH by (exact Hds || discriminate).
    rewrite Nat.add_succ_r. reflexivity.
Qed.

Lemma py_int_str_numeral (ds : string) :
  numeral ds -> py_int_str ds = inr (numeral_value ds).
Proof.
  intros (Hne & H & Hlen). unfold py_int_str, PyInt.parse, numeral_value.
  destruct ds as [|d ds]; [congruence|].
  pose proof H as H'. simpl in H'. apply andb_true_iff in H'.
  destruct H' as [Hd _].
  assert (E : PyInt.scan 0 0 PyInt.AtStart (String d ds)
              = Some (numeral_value_from 0 (String d ds),
                      String.length (String d ds), "")).
  { rewrite scan_of_digits by (exact H || discriminate). reflexivity. }
  assert (Hlimit : Nat.ltb PyInt.int_max_str_digits
                     (String.length (String d ds)) = false)
    by (apply Nat.ltb_ge; exact Hlen).
  assert (Hsp : PyInt.is_space d = false).
  { destruct d as [[] [] [] [] [] [] [] []]; try discriminate Hd; reflexivity. }
  cbn [PyInt.lstrip]. rewrite Hsp.
  destruct d as [[] [] [] [] [] [] [] []]; try discriminate Hd;
    cbv beta iota; unfold PyInt.unsigned; cbv beta iota;
    rewrite E, Hlimit; reflexivity.
Qed.

(** *** The components of a duration *)

Lemma days_no_letter (days : option string) (c : ascii) :
  well_formed days -> is_digit c = false -> Ascii.eqb c "D" = false ->
  contains (String c "") (component days "D") = false.
Proof.
  intros H Hc Hd. destruct days as [n|]; [|reflexivity].
  cbn [component]. rewrite contains_char_app, (@numeral_no_letter n c H Hc).
  rewrite contains_char_cons, Hd. reflexivity.
Qed.

Lemma first_split_unit (c : ascii) :
  first (split (String c "") (String c "")) = "".
Proof. unfold split. cbn [split_from]. rewrite prefix_char, Ascii.eqb_refl. reflexivity. Qed.

Lemma last_split_unit (c : ascii) :
  last (split (String c "") (String c "")) = "".
Proof. unfold split. cbn [split_from]. rewrite prefix_char, Ascii.eqb_refl. reflexivity. Qed.

Lemma hours_piece (days : option string) (hs : string) :
  well_formed days -> numeral hs ->
  second (split "T" (String "P" (component days "D" ++ String "T" hs))) = inr hs.
Proof.
  intros Hd Hh.
  change (String "P" (component days "D" ++ String "T" hs))
    with (String "P" (component days "D") ++ String "T" hs).
  apply second_split.
  - rewrite contains_char_cons.
    rewrite (@days_no_letter days "T" Hd eq_refl eq_refl). reflexivity.
  - exact (@numeral_no_letter hs "T" Hh eq_refl).
Qed.

Ltac pieces :=
  repeat first
    [ rewrite contains_char_app
    | rewrite contains_char_cons
    | rewrite contains_char_nil
    | rewrite first_split_app
    | rewrite last_split_app
    | rewrite first_split_cons
    | rewrite last_split_cons
    | rewrite first_split_unit
    | rewrite last_split_unit
    | rewrite append_nil_r
    | match goal with
      | H : numeral ?n |- context [contains (String ?c "") ?n] =>
          rewrite (@numeral_no_letter n c H eq_refl)
      | H : well_formed ?d |- context [contains (String ?c "") (component ?d "D")] =>
          rewrite (@days_no_letter d c H eq_refl eq_refl)
      | H : numeral ?n |- context [py_int_str ?n] =>
          rewrite (@py_int_str_numeral n H)
      | Hd : well_formed ?d, H : numeral ?n
        |- context [second (split "T" (String "P" (component ?d "D" ++ String "T" ?n)))] =>
          rewrite (@hours_piece d n Hd H)
      end
    | progress cbn [orb andb Ascii.eqb Bool.eqb negb append rbind add_int
                    component component_value well_formed] ].


End DurationFacts.

Section DurationRuns.

Local Open Scope string_scope.



End DurationRuns.

(** ** [_fetch_video_statistics] *)

Section VideoStatisticsFacts.

Local Open Scope string_scope.
Local Open Scope Z_scope.

Variable channels_uploads : string -> res (list string).
Variable playlist_items : string -> Z -> res (list string).
Variable videos_list : string -> res (list video_resource).
Variable datetime : Type.
Variable cutoff_date_of : Z -> res datetime.
Variable published_before : string -> datetime -> res bool.

Variables max_results months min_duration_minutes : Z.

Lemma video_stat_of_kept (cutoff_date : datetime) (video : video_resource)
  (stat : video_stat) :
  video_stat_of published_before cutoff_date min_duration_minutes video
  = inr (Some stat) ->
  passes_filters published_before cutoff_date min_duration_minutes stat.
Proof.
  unfold video_stat_of, passes_filters, rbind.
  destruct (getitem "publishedAt" (v_publishedAt video)) as [e|[s|]];
    try discriminate.
  destruct (published_before s cutoff_date) as [e|too_old] eqn:Eold;
    [discriminate|].
  destruct (get_default (v_duration video) "PT0S") as [duration_str|];
    [|discriminate].
  destruct (parse_duration_minutes duration_str) as [e|d]; [discriminate|].
  destruct too_old; [discriminate|]. cbn [orb].
  destruct (num_lt_int d min_duration_minutes) eqn:Elt; [discriminate|].
  destruct (getitem "id" (v_id video)) as [e|videoId]; [discriminate|].
  destruct (py_int_field (v_viewCount video)); [discriminate|].
  destruct (py_int_field (v_likeCount video)); [discriminate|].
  destruct (py_int_field (v_commentCount video)); [discriminate|].
  destruct (py_int_field (v_favoriteCount video)); [discriminate|].
  intros E. injection E as <-. cbn.
  split; [exact Eold|]. exists d. split; [reflexivity | exact Elt].
Qed.

Lemma collect_video_stats_length (cutoff_date : datetime)
  (videos : list video_resource) :
  forall video_stats : list video_stat,
    video_stats = [] \/ Z.of_nat (List.length video_stats) < max_results ->
    Z.of_nat (List.length
                (collect_video_stats published_before max_results
                   cutoff_date min_duration_minutes video_stats videos))
    <= Z.max 1 max_results.
Proof.
  induction videos as [|video rest IH]; intros acc Hacc;
    cbn [collect_video_stats].
  - destruct Hacc as [-> | H]; [simpl|]; lia.
  - destruct (video_stat_of published_before cutoff_date
                min_duration_minutes video) as [e|[stat|]];
      try (apply IH; exact Hacc).
    destruct (Z.leb_spec max_results (Z.of_nat (List.length (acc ++ [stat]))))
      as [Hfull|Hroom].
    + rewrite length_app in *. cbn [List.length] in *.
      destruct Hacc as [-> | H]; [simpl|]; lia.
    + apply IH. right. exact Hroom.
Qed.

Lemma collect_video_stats_kept (cutoff_date : datetime)
  (videos : list video_resource) :
  forall video_stats : list video_stat,
    Forall (passes_filters published_before cutoff_date min_duration_minutes)
      video_stats ->
    Forall (passes_filters published_before cutoff_date min_duration_minutes)
      (collect_video_stats published_before max_results
         cutoff_date min_duration_minutes video_stats videos).
Proof.
  induction videos as [|video rest IH]; intros acc Hacc;
    cbn [collect_video_stats]; [exact Hacc|].
  destruct (video_stat_of published_before cutoff_date
              min_duration_minutes video) as [e|[stat|]] eqn:E;
    try (apply IH; exact Hacc).
  assert (Hacc' : Forall (passes_filters published_before cutoff_date
                            min_duration_minutes) (acc ++ [stat])).
  { apply Forall_app. split; [exact Hacc|].
    constructor; [|constructor]. eapply video_stat_of_kept, E. }
  destruct (max_results <=? Z.of_nat (List.length (acc ++ [stat])));
    [exact Hacc' | apply IH, Hacc'].
Qed.

(** X11. The list returned has at most [max_results] entries, but one entry
    when [max_results] is zero or negative: the bound is checked only after
    an entry has been appended. *)
Theorem at_most_max_results_statistics (channel_id : string) :
  match _fetch_video_statistics channels_uploads playlist_items videos_list
          cutoff_date_of published_before channel_id max_results months
          min_duration_minutes with
  | inr video_stats =>
      Z.of_nat (List.length video_stats) <= Z.max 1 max_results
  | inl e => is_http_error e = false
  end.
Proof.
  unfold _fetch_video_statistics, rbind.
  destruct (channels_uploads channel_id) as [e|[|uploads rest]];
    [destruct e; reflexivity | reflexivity |].
  destruct (playlist_items uploads 50) as [e|video_ids];
    [destruct e; reflexivity|].
  destruct (videos_list (PyStr.join "," video_ids)) as [e|videos];
    [destruct e; reflexivity|].
  destruct (cutoff_date_of months) as [e|cutoff_date];
    [destruct e; reflexivity|].
  cbn [reraise_http]. apply collect_video_stats_length. now left.
Qed.

(** X12. Every entry returned is of a video that is not older than the
    cutoff date of the call and whose duration, before it is rounded to two
    decimals, is not below [min_duration_minutes]. *)
Theorem statistics_pass_the_filters (channel_id : string) :
  match _fetch_video_statistics channels_uploads playlist_items videos_list
          cutoff_date_of published_before channel_id max_results months
          min_duration_minutes with
  | inr video_stats =>
      exists cutoff_date,
        cutoff_date_of months = inr cutoff_date /\
        Forall (passes_filters published_before cutoff_date
                  min_duration_minutes) video_stats
  | inl _ => True
  end.
Proof.
  unfold _fetch_video_statistics, rbind.
  destruct (channels_uploads channel_id) as [e|[|uploads rest]];
    [destruct e; exact I | exact I |].
  destruct (playlist_items uploads 50) as [e|video_ids];
    [destruct e; exact I|].
  destruct (videos_list (PyStr.join "," video_ids)) as [e|videos];
    [destruct e; exact I|].
  destruct (cutoff_date_of months) as [e|cutoff_date];
    [destruct e; exact I|].
  cbn [reraise_http]. exists cutoff_date. split; [reflexivity|].
  apply collect_video_stats_kept. constructor.
Qed.

End VideoStatisticsFacts.


(** ** The scenes of [_analyze_video_content] *)

Section SceneFacts.

Local Open Scope string_scope.

Variable scene_analyzer_run : nat -> string -> res (option string).
Variable py_eval :
  string -> list string -> list scene
  -> option string * list string * list scene.

Lemma analysis_keeps_lists (content : option string) (words : list string)
  (scenes : list scene) :
  eval_keeps_lists py_eval ->
  exists analysis,
    analysis_of py_eval content words scenes = (analysis, words, scenes).
Proof.
  intros Hpure. destruct content as [text|]; cbn [analysis_of].
  - destruct (Hpure text words scenes) as [Hw Hs].
    destruct (py_eval text words scenes) as [[analysis w] s].
    cbn [fst snd] in Hw, Hs. subst. eexists. reflexivity.
  - eexists. reflexivity.
Qed.

Lemma analyze_scenes_from_times (words : list string) (starts : list nat) :
  eval_keeps_lists py_eval ->
  forall k scenes result,
    analyze_scenes_from scene_analyzer_run py_eval k starts words scenes
    = inr result ->
    fst result = words /\
    map scene_times (snd result)
    = (map scene_times scenes
       ++ map (fun i => ((Z.of_nat (i / words_per_scene) * 60)%Z,
                         ((Z.of_nat (i / words_per_scene) + 1) * 60)%Z))
            starts)%list.
Proof.
  intros Hpure.
  induction starts as [|i rest IH]; intros k scenes result;
    cbn [analyze_scenes_from].
  - intros E. injection E as <-. cbn [fst snd map].
    rewrite app_nil_r. split; reflexivity.
  - unfold rbind at 1.
    destruct (scene_analyzer_run k _) as [e|content]; [discriminate|].
    destruct (@analysis_keeps_lists content words scenes Hpure)
      as [analysis ->].
    intros E. apply IH in E. destruct E as [Hw Hs]. split; [exact Hw|].
    rewrite Hs, map_app. cbn [map scene_times scene_start scene_end].
    rewrite <- app_assoc. reflexivity.
Qed.

(** X13. When evaluating the answers leaves the lists [words] and [scenes]
    as they are and every scene analysis returns, there is one scene for
    every 150 words of the transcription, the last one possibly shorter
    ([ceil(n / 150)] scenes), and scene number [k] (from 0) runs from
    second [60 * k] to second [60 * (k + 1)]. *)
Theorem scenes_are_consecutive_minutes (words : list string) :
  eval_keeps_lists py_eval ->
  match analyze_scenes scene_analyzer_run py_eval words with
  | inr scenes =>
      map scene_times scenes
      = map (fun k => ((Z.of_nat k * 60)%Z, ((Z.of_nat k + 1) * 60)%Z))
          (seq 0 ((List.length words + 149) / 150))
  | inl _ => True
  end.
Proof.
  intros Hpure. unfold analyze_scenes, rbind.
  destruct (analyze_scenes_from scene_analyzer_run py_eval 0
              (scene_starts (List.length words)) words [])
    as [e|result] eqn:E; [exact I|].
  destruct (@analyze_scenes_from_times words _ Hpure _ _ _ E) as [_ Hs].
  rewrite Hs. cbn [map app]. unfold scene_starts.
  rewrite map_map. apply map_ext. intros k.
  change (words_per_scene - 1)%nat with 149%nat.
  rewrite Nat.div_mul by discriminate. reflexivity.
Qed.

Lemma chunks_cover (m : nat) :
  forall words : list string,
    (List.length words <= m * 150)%nat ->
    List.concat (map (fun k => firstn 150 (skipn (k * 150) words)) (seq 0 m)) = words.
Proof.
  induction m as [|m IH]; intros words Hlen.
  - destruct words; [reflexivity | simpl in Hlen; lia].
  - cbn [seq map List.concat]. rewrite <- seq_shift, map_map.
    change (skipn (0 * 150) words) with words.
    transitivity (firstn 150 words ++ skipn 150 words)%list;
      [|apply firstn_skipn].
    f_equal.
    etransitivity;
      [|apply (IH (skipn 150 words)); rewrite length_skipn; lia].
    apply f_equal. apply map_ext. intros k.
    rewrite skipn_skipn. do 2 f_equal. lia.
Qed.

(** The slices that the loop takes of the words: they make up the words,
    and each has between 1 and 150 of them. *)
Lemma scene_words_cover (words : list string) :
  List.concat (map (scene_words words) (scene_starts (List.length words))) = words /\
  Forall (fun i => (1 <= List.length (scene_words words i) <= 150)%nat)
    (scene_starts (List.length words)).
Proof.
  unfold scene_starts, scene_words.
  change words_per_scene with 150%nat. change (150 - 1)%nat with 149%nat.
  set (n := List.length words).
  assert (Hdiv : (n <= (n + 149) / 150 * 150)%nat).
  { pose proof (Nat.div_mod_eq (n + 149) 150) as E.
    pose proof (Nat.mod_upper_bound (n + 149) 150) as B. lia. }
  split.
  - rewrite map_map. apply chunks_cover. exact Hdiv.
  - apply Forall_forall. intros i Hi. apply in_map_iff in Hi.
    destruct Hi as (k & <- & Hk). apply in_seq in Hk.
    rewrite length_firstn, length_skipn. fold n.
    assert (Hlt : (k * 150 < n)%nat).
    { pose proof (Nat.div_mod_eq (n + 149) 150) as E.
      pose proof (Nat.mod_upper_bound (n + 149) 150) as B. lia. }
    lia.
Qed.

Lemma analyze_scenes_from_ext
  (run run' : nat -> string -> res (option string))
  (words : list string) (starts : list nat) :
  eval_keeps_lists py_eval ->
  forall k scenes,
    (forall j i, nth_error starts j = Some i ->
                 run (k + j)%nat (scene_prompt (scene_words words i))
                 = run' (k + j)%nat (scene_prompt (scene_words words i))) ->
    analyze_scenes_from run py_eval k starts words scenes
    = analyze_scenes_from run' py_eval k starts words scenes.
Proof.
  intros Hpure.
  induction starts as [|i rest IH]; intros k scenes Hsame;
    cbn [analyze_scenes_from]; [reflexivity|].
  pose proof (Hsame 0%nat i eq_refl) as E. rewrite Nat.add_0_r in E.
  rewrite E. unfold rbind.
  destruct (run' k (scene_prompt (scene_words words i))) as [e|content];
    [reflexivity|].
  destruct (@analysis_keeps_lists content words scenes Hpure) as [analysis ->].
  apply IH. intros j i' Hj.
  replace (S k + j)%nat with (k + S j)%nat by lia.
  exact (Hsame (S j) i' Hj).
Qed.

(** X14. When evaluating the answers leaves the lists [words] and [scenes]
    as they are, the loop sends the analyzer the slices of the words and
    nothing else: request number [k] holds the [k]-th slice of at most 150
    words, the slices in order make up the transcription (no word is lost
    or repeated, and every slice has at least one word), and two analyzers
    that answer these requests alike give the same result. *)
Theorem scene_words_cover_the_transcription
  (run run' : nat -> string -> res (option string)) (words : list string) :
  eval_keeps_lists py_eval ->
  let slices := map (scene_words words) (scene_starts (List.length words)) in
  List.concat slices = words /\
  Forall (fun slice => (1 <= List.length slice <= 150)%nat) slices /\
  ((forall k slice, nth_error slices k = Some slice ->
                    run k (scene_prompt slice) = run' k (scene_prompt slice)) ->
   analyze_scenes run py_eval words = analyze_scenes run' py_eval words).
Proof.
  intros Hpure slices.
  destruct (scene_words_cover words) as [Hcover Hsizes].
  split; [exact Hcover|]. split.
  - unfold slices. apply Forall_map. exact Hsizes.
  - intros Hsame. unfold analyze_scenes. f_equal.
    apply analyze_scenes_from_ext; [exact Hpure|].
    intros j i Hj. cbn [Nat.add]. apply Hsame.
    unfold slices. rewrite nth_error_map, Hj. reflexivity.
Qed.

End SceneFacts.

Section SceneRuns.

Local Open Scope string_scope.

Lemma demo_eval_keeps_lists : eval_keeps_lists Demo.py_eval.
Proof. intros text words scenes. split; reflexivity. Qed.

Lemma scenes_are_consecutive_minutes_witness :
  eval_keeps_lists Demo.py_eval /\
  match analyze_scenes Demo.scene_analyzer_run Demo.py_eval
          ["we"; "thank"; "Acme"] with
  | inr scenes =>
      map scene_times scenes
      = map (fun k => ((Z.of_nat k * 60)%Z, ((Z.of_nat k + 1) * 60)%Z))
          (seq 0 ((List.length ["we"; "thank"; "Acme"] + 149) / 150))
  | inl _ => True
  end.
Proof.
  split; [exact demo_eval_keeps_lists|].
  exact (@scenes_are_consecutive_minutes Demo.scene_analyzer_run Demo.py_eval
           ["we"; "thank"; "Acme"] demo_eval_keeps_lists).
Defined.

Lemma scene_words_cover_the_transcription_witness :
  eval_keeps_lists Demo.py_eval /\
  let slices :=
    map (scene_words ["we"; "thank"; "Acme"])
      (scene_starts (List.length ["we"; "thank"; "Acme"])) in
  List.concat slices = ["we"; "thank"; "Acme"] /\
  Forall (fun slice => (1 <= List.length slice <= 150)%nat) slices /\
  ((forall k slice, nth_error slices k = Some slice ->
                    Demo.scene_analyzer_run k (scene_prompt slice)
                    = Demo.single_answer k (scene_prompt slice)) ->
   analyze_scenes Demo.scene_analyzer_run Demo.py_eval ["we"; "thank"; "Acme"]
   = analyze_scenes Demo.single_answer Demo.py_eval ["we"; "thank"; "Acme"]).
Proof.
  split; [exact demo_eval_keeps_lists|].
  exact (@scene_words_cover_the_transcription Demo.py_eval
           Demo.scene_analyzer_run Demo.single_answer
           ["we"; "thank"; "Acme"] demo_eval_keeps_lists).
Defined.

End SceneRuns.

(** ** The sponsors of [_analyze_video_content] *)

Section SponsorFacts.

Import PyStr PyStrFacts.
Local Open Scope string_scope.

Lemma lstrip_no_leading_space (s : string) (c : ascii) (rest : string) :
  PyStr.lstrip s = String c rest -> PyStr.is_space c = false.
Proof.
  induction s as [|d s IH]; cbn [PyStr.lstrip]; [discriminate|].
  destruct (PyStr.is_space d) eqn:E; [exact IH|].
  intros H. injection H as <- _. exact E.
Qed.

Lemma rstrip_keeps_head (s : string) (c : ascii) (rest : string) :
  py_rstrip s = String c rest -> exists rest', s = String c rest'.
Proof.
  destruct s as [|d s]; cbn [py_rstrip]; [discriminate|].
  destruct (py_rstrip s); [destruct (PyStr.is_space d); [discriminate|]|];
    intros H; injection H as <- _; eexists; reflexivity.
Qed.

Lemma rstrip_no_trailing_space (s : string) :
  forall (front : string) (c : ascii),
    py_rstrip s = front ++ String c "" -> PyStr.is_space c = false.
Proof.
  induction s as [|d s IH]; intros front c; cbn [py_rstrip].
  - destruct front; discriminate.
  - destruct (py_rstrip s) as [|e stripped].
    + destruct (PyStr.is_space d) eqn:E.
      * destruct front; discriminate.
      * destruct front as [|x [|y front]]; cbn [append]; intros H;
          [injection H as <-; exact E | discriminate | discriminate].
    + destruct front as [|x front]; cbn [append]; intros H.
      * discriminate.
      * injection H as _ H. exact (IH front c H).
Qed.

Lemma lstrip_keeps_free (c : ascii) (s : string) :
  contains (String c "") s = false ->
  contains (String c "") (PyStr.lstrip s) = false.
Proof.
  induction s as [|d s IH]; cbn [PyStr.lstrip]; [trivial|].
  destruct (PyStr.is_space d); [|trivial].
  rewrite contains_char_cons. intros H. apply orb_false_iff in H.
  apply IH, H.
Qed.

Lemma rstrip_keeps_free (c : ascii) (s : string) :
  contains (String c "") s = false ->
  contains (String c "") (py_rstrip s) = false.
Proof.
  induction s as [|d s IH]; cbn [py_rstrip]; [trivial|].
  rewrite contains_char_cons. intros H. apply orb_false_iff in H.
  destruct H as [Hd Hs]. specialize (IH Hs).
  destruct (py_rstrip s) as [|e stripped].
  - destruct (PyStr.is_space d); [reflexivity|].
    rewrite contains_char_cons, Hd. reflexivity.
  - rewrite contains_char_cons, Hd. exact IH.
Qed.

Lemma strip_keeps_free (c : ascii) (s : string) :
  contains (String c "") s = false ->
  contains (String c "") (py_strip s) = false.
Proof. intros H. apply rstrip_keeps_free, lstrip_keeps_free, H. Qed.

Lemma split_char_pieces_free (c : ascii) (s : string) :
  forall cur : string,
    contains (String c "") cur = false ->
    Forall (fun piece => contains (String c "") piece = false)
      (split_from (String c "") 0 cur s).
Proof.
  induction s as [|d s IH]; intros cur Hcur; cbn [split_from].
  - constructor; [exact Hcur | constructor].
  - rewrite prefix_char. destruct (Ascii.eqb c d) eqn:E.
    + constructor; [exact Hcur|]. apply IH. reflexivity.
    + apply IH. rewrite contains_char_app, Hcur, contains_char_cons, E.
      reflexivity.
Qed.

(** X20. Every sponsor listed has a name that is not empty, contains no
    comma, and neither starts nor ends with white space. *)
Theorem sponsor_names_are_trimmed (sponsor_response : option (option string)) :
  Forall (fun s =>
            sponsor_name s <> "" /\
            contains "," (sponsor_name s) = false /\
            (forall c rest, sponsor_name s = String c rest ->
                            PyStr.is_space c = false) /\
            (forall front c, sponsor_name s = front ++ String c "" ->
                             PyStr.is_space c = false))
    (parse_sponsors sponsor_response).
Proof.
  unfold parse_sponsors.
  destruct sponsor_response as [[content|]|]; try constructor.
  destruct (String.eqb content ""); [constructor|].
  apply Forall_map, Forall_forall. intros name Hin.
  apply filter_In in Hin. destruct Hin as [Hin Hkept].
  cbn [sponsor_name]. split; [|split; [|split]].
  - apply negb_true_iff in Hkept. apply String.eqb_neq. exact Hkept.
  - apply strip_keeps_free.
    pose proof (@split_char_pieces_free "," (py_strip content) "" eq_refl) as H.
    rewrite Forall_forall in H. exact (H name Hin).
  - intros c rest H. unfold py_strip in H.
    apply rstrip_keeps_head in H. destruct H as [rest' H].
    exact (lstrip_no_leading_space _ H).
  - intros front c H. exact (rstrip_no_trailing_space _ _ _ H).
Qed.

End SponsorFacts.


(** ** Video details, channel information and introspection *)

Section ChannelFacts.

Local Open Scope string_scope.

Variable search_channel : string -> res (list string).
Variable search_channel_videos : string -> string -> Z -> res (list string).
Variable videos_details : string -> res (list video_details_resource).
Variable channels_info : string -> res (list channel_info_resource).
Variable channels_uploads : string -> res (list string).
Variable playlist_items : string -> Z -> res (list string).

Lemma reraise_http_no_http {A} (prefix : string) (body : res A) (e : pyerr) :
  reraise_http prefix body = inl e -> is_http_error e = false.
Proof.
  destruct body as [[]|a]; cbn [reraise_http]; intros E;
    try discriminate; injection E as <-; reflexivity.
Qed.

Lemma reraise_http_returns {A} (prefix : string) (body : res A) (a : A) :
  reraise_http prefix body = inr a -> body = inr a.
Proof.
  destruct body as [[]|b]; cbn [reraise_http]; intros E;
    try discriminate; exact E.
Qed.

Lemma fetch_each_video_details (video_ids : list string) :
  match fetch_each_video videos_details video_ids with
  | inr videos =>
      Forall2 (fun video_id video =>
                 _fetch_video_details videos_details video_id = inr video)
        video_ids videos
  | inl e => is_http_error e = false
  end.
Proof.
  induction video_ids as [|video_id rest IH]; cbn [fetch_each_video].
  - constructor.
  - unfold rbind at 1.
    destruct (_fetch_video_details videos_details video_id) as [e|video] eqn:E.
    + exact (reraise_http_no_http _ _ E).
    + unfold rbind.
      destruct (fetch_each_video videos_details rest) as [e|later];
        [exact IH|].
      constructor; [exact E | exact IH].
Qed.

(** X15. When [_fetch_videos] returns, the channel has an uploads playlist,
    and the list returned has, in the order of the playlist page, the
    details of every item of that page: none is skipped, and when the
    details of one video cannot be fetched the whole call raises.  The
    exception raised is never an [HttpError]. *)
Theorem fetch_videos_lists_every_upload (channel_id : string) (max_results : Z) :
  match _fetch_videos videos_details channels_uploads playlist_items
          channel_id max_results with
  | inr videos =>
      exists uploads others video_ids,
        channels_uploads channel_id = inr (uploads :: others) /\
        playlist_items uploads max_results = inr video_ids /\
        Forall2 (fun video_id video =>
                   _fetch_video_details videos_details video_id = inr video)
          video_ids videos
  | inl e => is_http_error e = false
  end.
Proof.
  destruct (_fetch_videos _ _ _ _ _) as [e|videos] eqn:E.
  - exact (reraise_http_no_http _ _ E).
  - apply reraise_http_returns in E. unfold rbind in E.
    destruct (channels_uploads channel_id) as [e|[|uploads others]] eqn:Eu;
      try discriminate.
    destruct (playlist_items uploads max_results) as [e|video_ids] eqn:Ep;
      try discriminate.
    exists uploads, others, video_ids.
    split; [reflexivity|]. split; [exact Ep|].
    pose proof (fetch_each_video_details video_ids) as H.
    rewrite E in H. exact H.
Qed.

(** X16. When [_search_youtube_channel_videos] returns, the list has, in the
    order of the search results, the details of every video found, and it
    is empty exactly when the search found nothing.  The exception raised is
    never an [HttpError]. *)
Theorem channel_video_search_lists_every_result
  (channel_id search_term : string) (max_results : Z) :
  match _search_youtube_channel_videos search_channel_videos videos_details
          channel_id search_term max_results with
  | inr videos =>
      exists video_ids,
        search_channel_videos channel_id search_term max_results
        = inr video_ids /\
        Forall2 (fun video_id video =>
                   _fetch_video_details videos_details video_id = inr video)
          video_ids videos /\
        (videos = [] <-> video_ids = [])
  | inl e => is_http_error e = false
  end.
Proof.
  destruct (_search_youtube_channel_videos _ _ _ _ _) as [e|videos] eqn:E.
  - exact (reraise_http_no_http _ _ E).
  - apply reraise_http_returns in E. unfold rbind in E.
    destruct (search_channel_videos channel_id search_term max_results)
      as [e|video_ids] eqn:Es; try discriminate.
    exists video_ids.
    assert (H : Forall2 (fun video_id video =>
                 _fetch_video_details videos_details video_id = inr video)
               video_ids videos).
    { destruct video_ids as [|video_id rest].
      - injection E as <-. constructor.
      - pose proof (fetch_each_video_details (video_id :: rest)) as H.
        rewrite E in H. exact H. }
    split; [reflexivity|]. split; [exact H|].
    split; intros ->; inversion H; reflexivity.
Qed.

Lemma resolve_matching_id (identifier : string) :
  re_match_channel_id identifier = true ->
  _resolve_channel_id search_channel identifier = inr identifier.
Proof. intros H. unfold _resolve_channel_id. rewrite H. reflexivity. Qed.


End ChannelFacts.

Section IntrospectionFacts.

Local Open Scope string_scope.

Variable videos_details : string -> res (list video_details_resource).
Variable channels_info : string -> res (list channel_info_resource).
Variable channels_uploads : string -> res (list string).
Variable playlist_items : string -> Z -> res (list string).

(** X18. The introspection of a channel ID does not depend on the search
    service: with any two of them, also one that is down, the result is the
    same. *)
Theorem introspection_of_channel_id_needs_no_search
  (search_channel search_channel' : string -> res (list string))
  (body : string) (max_videos : Z) :
  String.length body = 22%nat ->
  forallb is_channel_id_char (list_ascii_of_string body) = true ->
  _introspect_channel search_channel videos_details channels_info
    channels_uploads playlist_items ("UC" ++ body) max_videos
  = _introspect_channel search_channel' videos_details channels_info
      channels_uploads playlist_items ("UC" ++ body) max_videos.
Proof.
  intros Hlen Hall.
  assert (Hid : re_match_channel_id ("UC" ++ body) = true)
    by exact (@class_then_end_all 22 body Hlen Hall).
  unfold _introspect_channel.
  rewrite !(resolve_matching_id _ _ Hid). reflexivity.
Qed.

(** X19. A channel whose statistics have no [subscriberCount] (the count
    is hidden) cannot be introspected: when the resource has an [id], a
    snippet with [title] and [description], and statistics without
    [subscriberCount], the result is the error made of the missing key,
    whatever the other counts, the thumbnails and the videos of the channel
    are. *)
Theorem hidden_subscriber_count_fails_introspection
  (search_channel : string -> res (list string))
  (identifier channel_id : string) (channel : channel_info_resource)
  (others : list channel_info_resource) (snippet : channel_snippet)
  (statistics : channel_statistics) (max_videos : Z) :
  _resolve_channel_id search_channel identifier = inr channel_id ->
  channels_info channel_id = inr (channel :: others) ->
  ir_id channel <> Absent ->
  ir_snippet channel = Val snippet ->
  sn_title snippet <> Absent ->
  sn_description snippet <> Absent ->
  ir_statistics channel = Val statistics ->
  cs_subscriberCount statistics = Absent ->
  _introspect_channel search_channel videos_details channels_info
    channels_uploads playlist_items identifier max_videos
  = IntrospectionError "'subscriberCount'".
Proof.
  intros Hid Hinfo Hcid Hsn Htitle Hdesc Hst Hhidden. unfold _introspect_channel.
  rewrite Hid. cbn [rbind]. unfold _fetch_channel_info.
  rewrite Hinfo. cbn [rbind]. rewrite Hsn, Hst.
  destruct (ir_id channel); [congruence | |];
    cbn [getitem getitem_in rbind];
    (destruct (sn_title snippet); [congruence | |]);
    cbn [getitem getitem_in rbind];
    (destruct (sn_description snippet); [congruence | |]);
    cbn [getitem getitem_in rbind]; rewrite Hhidden; reflexivity.
Qed.

End IntrospectionFacts.

Section IntrospectionRuns.

Local Open Scope string_scope.


Lemma introspection_of_channel_id_needs_no_search_witness :
  String.length "X6OQ3DkcsbYNE6H8uQQuVA" = 22%nat /\
  forallb is_channel_id_char (list_ascii_of_string "X6OQ3DkcsbYNE6H8uQQuVA")
  = true /\
  _introspect_channel Demo.search_channel Demo.videos_details
    Demo.channels_info Demo.channels_uploads Demo.playlist_items
    ("UC" ++ "X6OQ3DkcsbYNE6H8uQQuVA") 2
  = _introspect_channel Demo.failing_search Demo.videos_details
      Demo.channels_info Demo.channels_uploads Demo.playlist_items
      ("UC" ++ "X6OQ3DkcsbYNE6H8uQQuVA") 2.
Proof.
  split; [reflexivity|]. split; [reflexivity|].
  exact (@introspection_of_channel_id_needs_no_search
           Demo.videos_details Demo.channels_info Demo.channels_uploads
           Demo.playlist_items Demo.search_channel Demo.failing_search
           "X6OQ3DkcsbYNE6H8uQQuVA" 2 eq_refl eq_refl).
Defined.

Lemma hidden_subscriber_count_fails_introspection_witness :
  _resolve_channel_id Demo.failing_search "UC0000000000000000000000"
  = inr "UC0000000000000000000000" /\
  (exists channel snippet statistics,
     Demo.channels_info "UC0000000000000000000000" = inr [channel] /\
     ir_id channel <> Absent /\
     ir_snippet channel = Val snippet /\
     sn_title snippet <> Absent /\ sn_description snippet <> Absent /\
     ir_statistics channel = Val statistics /\
     cs_subscriberCount statistics = Absent) /\
  _introspect_channel Demo.failing_search Demo.videos_details
    Demo.channels_info Demo.channels_uploads Demo.playlist_items
    "UC0000000000000000000000" 2
  = IntrospectionError "'subscriberCount'".
Proof.
  split; [reflexivity|].
  split.
  { do 3 eexists. split; [reflexivity|]. split; [discriminate|].
    split; [reflexivity|]. split; [discriminate|]. split; [discriminate|].
    split; reflexivity. }
  refine (@hidden_subscriber_count_fails_introspection
            Demo.videos_details Demo.channels_info Demo.channels_uploads
            Demo.playlist_items Demo.failing_search
            "UC0000000000000000000000" "UC0000000000000000000000"
            _ [] _ _ 2 eq_refl eq_refl _ eq_refl _ _ eq_refl eq_refl);
    discriminate.
Defined.

End IntrospectionRuns.
